(** * Crop-zone interaction engine: the Cropper component of tui.image-editor

    A shallow embedding of [class Cropper] and of the few helpers it calls,
    followed by the properties of the crop geometry, of the session life
    cycle and of the updateUI notification.

    Numbers.  JavaScript numbers are modelled by exact rationals [Q]
    (compared with [==]); rounding errors of IEEE doubles are not modelled.
    A division whose divisor may be zero yields a [JSNumber], which adds
    the two infinities and NaN.

    State.  The methods mutate the cropper, the fabric canvas and the
    listeners of the document; here they are functions on one record,
    [Cropper], that holds all three.  A method that can end in a throw
    returns the state it reached together with a [Completion]. *)

From Stdlib Require Import QArith Qminmax Qround Qabs ZArith List Bool Lia Lqa.
From Stdlib Require String Ascii.
Import ListNotations.

Open Scope Q_scope.

(* ------------------------------------------------------------------ *)
(** ** Numbers *)

Inductive JSNumber : Type :=
| Finite (q : Q)
| PosInfinity
| NegInfinity
| NaN.

(** [a > b] and [a >= b] on numbers. *)
Definition Qgtb (a b : Q) : bool := negb (Qle_bool a b).
Definition Qgeb (a b : Q) : bool := Qle_bool b a.

(** [a / b] on numbers, with the results of a zero divisor. *)
Definition js_div (a b : Q) : JSNumber :=
  if Qeq_bool b 0 then
    if Qeq_bool a 0 then NaN
    else if Qgtb a 0 then PosInfinity else NegInfinity
  else Finite (a / b).

(** [Math.max], [Math.min], [Math.abs]. *)
Definition Math_max (a b : Q) : Q := Qmax a b.
Definition Math_min (a b : Q) : Q := Qmin a b.
Definition Math_abs (a : Q) : Q := Qabs a.

(** ToInt32, the conversion behind [~~v]: truncate towards zero, then wrap
    into the signed 32-bit range. *)
Definition truncate (v : Q) : Z :=
  if Qle_bool 0 v then Qfloor v else Qceiling v.

Definition toInt32 (v : Q) : Z :=
  ((truncate v + 2 ^ 31) mod 2 ^ 32 - 2 ^ 31)%Z.

(** An operand that may be [null]: [null] converts to 0 in arithmetic. *)
Definition toNumber (v : option Q) : Q :=
  match v with Some q => q | None => 0 end.

(* ------------------------------------------------------------------ *)
(** ** Helpers imported from '@/util' and '@/consts' *)

(** Modelled from the spec: [clamp] of '@/util' is not among the sources.
    The spec uses it as [clamp(value, lower, upper)], the value brought
    into the range between the two bounds. *)
Definition clamp (value minValue maxValue : Q) : Q :=
  Math_max minValue (Math_min value maxValue).

(** Modelled from the spec: [fixFloatingPoint] of '@/util' is not among the
    sources.  The spec describes it as rounding to a stable precision; it is
    modelled as rounding to [digits] decimal places, halves away from
    zero. *)
Definition pow10 (digits : nat) : Z := (10 ^ Z.of_nat digits)%Z.

Definition roundHalfUp (v : Q) : Z := Qfloor (v + (1 # 2)).

Definition fixFloatingPoint (digits : nat) (value : Q) : Q :=
  if Qle_bool 0 value
  then inject_Z (roundHalfUp (value * inject_Z (pow10 digits))) / inject_Z (pow10 digits)
  else - (inject_Z (roundHalfUp (- value * inject_Z (pow10 digits))) / inject_Z (pow10 digits)).

(** Modelled from the spec: [keyCodes.SHIFT] of '@/consts' is not among the
    sources; the key code browsers report for the shift key. *)
Definition keyCodes_SHIFT : Z := 16%Z.

Definition MOUSE_MOVE_THRESHOLD : Q := 10.

(* ------------------------------------------------------------------ *)
(** ** Data model *)

(** The object literal [{left, top, width, height}]. *)
Record Rect : Type := mkRect {
  left : Q;
  top : Q;
  width : Q;
  height : Q
}.

(** An object handed to [cropzone.set] and to the updateUI action: the four
    geometry keys and, when the literal has it, the key [presetRatio]
    ([None]: the key is absent; [Some None]: it is [null]). *)
Record Settings : Type := mkSettings {
  s_presetRatio : option (option JSNumber);
  s_rect : Rect
}.

(** The fabric object of the crop zone, with the properties the cropper
    reads or writes. *)
Record Cropzone : Type := mkCropzone {
  geometry : Rect;
  presetRatio : option JSNumber;
  visible : bool
}.

(** [cropzone.set(settings)]: every key of [settings] is written, the other
    properties stay. *)
Definition set (cropzone : Cropzone) (settings : Settings) : Cropzone :=
  {| geometry := s_rect settings;
     presetRatio := match s_presetRatio settings with
                    | Some ratio => ratio
                    | None => presetRatio cropzone
                    end;
     visible := visible cropzone |}.

(** [cropzone.set({ visible })]. *)
Definition set_visible (cropzone : Cropzone) (v : bool) : Cropzone :=
  {| geometry := geometry cropzone;
     presetRatio := presetRatio cropzone;
     visible := v |}.

(** Modelled from the spec: [Cropzone.isValid] (extension/cropzone.js) is
    not among the sources.  The spec: a crop zone is valid only if
    [width > 0 and height > 0]. *)
Definition isValid (cropzone : Cropzone) : bool :=
  Qgtb (width (geometry cropzone)) 0 && Qgtb (height (geometry cropzone)) 0.

(** Modelled from the spec: the constructor of [Cropzone] is not among the
    sources.  The new zone takes its geometry and preset tag from the
    options built in [start] and is visible. *)
Definition new_Cropzone (options : Settings) : Cropzone :=
  {| geometry := s_rect options;
     presetRatio := match s_presetRatio options with
                    | Some ratio => ratio
                    | None => None
                    end;
     visible := true |}.

(** What the fabric canvas holds: other shapes with their [evented] flag,
    and the crop zone (the one object [this._cropzone] refers to). *)
Inductive CanvasObject : Type :=
| Shape (evented : bool)
| CropzoneObject.

Inductive Cursor : Type := cursor_default | cursor_crosshair.

(** The five bound functions of [this._listeners]. *)
Inductive Handler : Type := keydown | keyup | mousedown | mousemove | mouseup.

(** Canvas events ['mouse:down'], ['mouse:move'], ['mouse:up']. *)
Inductive CanvasEvent : Type := mouse_down | mouse_move | mouse_up.

(** Document events ['keydown'], ['keyup']. *)
Inductive DocumentEvent : Type := doc_keydown | doc_keyup.

Record Canvas : Type := mkCanvas {
  getWidth : Q;
  getHeight : Q;
  objects : list CanvasObject;
  selection : bool;
  defaultCursor : Cursor;
  activeObject : option CanvasObject;
  eventListeners : list (CanvasEvent * Handler)
}.

(** [this.graphics]: the optional [defaultOptions.crop] sizes and whether
    [actions.crop.updateUI] is a function. *)
Record CropOptions : Type := mkCropOptions {
  opt_width : option Q;
  opt_height : option Q
}.

Record Graphics : Type := mkGraphics {
  defaultOptions_crop : option CropOptions;
  has_updateUI : bool
}.

(** The cropper with everything its methods touch: its own fields, the
    canvas, the listeners on the document, and the arguments of every call
    of the updateUI action so far (latest first). *)
Record Cropper : Type := mkCropper {
  graphics : Graphics;
  canvas : Canvas;
  _cropzone : option Cropzone;
  _startX : option Q;
  _startY : option Q;
  _withShiftKey : bool;
  documentListeners : list (DocumentEvent * Handler);
  updateUI_calls : list Settings
}.

(** How a call ends: normally with a value, or with a thrown TypeError
    (a property read on [null]). *)
Inductive Completion (A : Type) : Type :=
| Normal (value : A)
| TypeError.
Arguments Normal {A} value.
Arguments TypeError {A}.

(* ------------------------------------------------------------------ *)
(** ** The fabric canvas and the document, as far as the cropper uses them *)

Definition CanvasObject_eqb (a b : CanvasObject) : bool :=
  match a, b with
  | CropzoneObject, CropzoneObject => true
  | Shape e1, Shape e2 => Bool.eqb e1 e2
  | _, _ => false
  end.

Definition Handler_eqb (a b : Handler) : bool :=
  match a, b with
  | keydown, keydown | keyup, keyup | mousedown, mousedown
  | mousemove, mousemove | mouseup, mouseup => true
  | _, _ => false
  end.

Definition CanvasEvent_eqb (a b : CanvasEvent) : bool :=
  match a, b with
  | mouse_down, mouse_down | mouse_move, mouse_move | mouse_up, mouse_up => true
  | _, _ => false
  end.

Definition DocumentEvent_eqb (a b : DocumentEvent) : bool :=
  match a, b with
  | doc_keydown, doc_keydown | doc_keyup, doc_keyup => true
  | _, _ => false
  end.

Definition listener_eqb {E : Type} (E_eqb : E -> E -> bool)
    (a b : E * Handler) : bool :=
  E_eqb (fst a) (fst b) && Handler_eqb (snd a) (snd b).

(** Removal of the first entry that satisfies [p]. *)
Fixpoint remove_first {A : Type} (p : A -> bool) (l : list A) : list A :=
  match l with
  | [] => []
  | a :: l' => if p a then l' else a :: remove_first p l'
  end.

Definition count {A : Type} (p : A -> bool) (l : list A) : nat :=
  length (filter p l).

Module canvas_ops.

Definition with_objects (cv : Canvas) (objs : list CanvasObject) : Canvas :=
  mkCanvas (getWidth cv) (getHeight cv) objs (selection cv)
           (defaultCursor cv) (activeObject cv) (eventListeners cv).

Definition with_selection (cv : Canvas) (b : bool) : Canvas :=
  mkCanvas (getWidth cv) (getHeight cv) (objects cv) b
           (defaultCursor cv) (activeObject cv) (eventListeners cv).

Definition with_defaultCursor (cv : Canvas) (c : Cursor) : Canvas :=
  mkCanvas (getWidth cv) (getHeight cv) (objects cv) (selection cv)
           c (activeObject cv) (eventListeners cv).

Definition with_activeObject (cv : Canvas) (o : option CanvasObject) : Canvas :=
  mkCanvas (getWidth cv) (getHeight cv) (objects cv) (selection cv)
           (defaultCursor cv) o (eventListeners cv).

Definition with_eventListeners (cv : Canvas)
    (ls : list (CanvasEvent * Handler)) : Canvas :=
  mkCanvas (getWidth cv) (getHeight cv) (objects cv) (selection cv)
           (defaultCursor cv) (activeObject cv) ls.

(** [canvas.forEachObject(obj => { obj.evented = flag })]; the crop zone
    is never on the canvas when the cropper runs it. *)
Definition forEachObject_evented (cv : Canvas) (flag : bool) : Canvas :=
  with_objects cv
    (map (fun obj => match obj with
                     | Shape _ => Shape flag
                     | CropzoneObject => CropzoneObject
                     end) (objects cv)).

(** [canvas.add(cropzone)]: appended to the canvas's objects. *)
Definition add (cv : Canvas) (obj : CanvasObject) : Canvas :=
  with_objects cv (objects cv ++ [obj]).

(** [canvas.remove(cropzone)]: the object leaves the list when it is
    there, and stops being the active object; [null] (no zone) is not an
    object of the canvas, so nothing changes. *)
Definition remove (cv : Canvas) (obj : option CanvasObject) : Canvas :=
  match obj with
  | None => cv
  | Some o =>
      let cv' := with_objects cv (remove_first (CanvasObject_eqb o) (objects cv)) in
      match activeObject cv with
      | Some a => if CanvasObject_eqb o a then with_activeObject cv' None else cv'
      | None => cv'
      end
  end.

Definition discardActiveObject (cv : Canvas) : Canvas :=
  with_activeObject cv None.

(** [canvas.setActiveObject(obj)] where the call returns: [obj] is the
    active object afterwards. *)
Definition setActiveObject (cv : Canvas) (obj : option CanvasObject) : Canvas :=
  with_activeObject cv obj.

(** Whether [canvas.setActiveObject(obj)] returns.  With [null] for [obj]
    fabric returns at once when nothing is active; when an object is active
    it discards that object and then reads [onSelect] of [null], which is a
    TypeError.  With an object for [obj] the call returns. *)
Definition setActiveObject_returns (cv : Canvas) (obj : option CanvasObject) : bool :=
  match obj, activeObject cv with
  | None, Some _ => false
  | _, _ => true
  end.

(** [canvas.on(name, handler)]: one more registration, also when the
    same handler is registered already. *)
Definition on (cv : Canvas) (name : CanvasEvent) (h : Handler) : Canvas :=
  with_eventListeners cv (eventListeners cv ++ [(name, h)]).

(** [canvas.off(name, handler)]: the first registration of the handler
    for the event is dropped. *)
Definition off (cv : Canvas) (name : CanvasEvent) (h : Handler) : Canvas :=
  with_eventListeners cv
    (remove_first (listener_eqb CanvasEvent_eqb (name, h)) (eventListeners cv)).

(** How many times [h] is registered for [name]. *)
Definition registered (cv : Canvas) (name : CanvasEvent) (h : Handler) : nat :=
  count (listener_eqb CanvasEvent_eqb (name, h)) (eventListeners cv).

End canvas_ops.

Module document_ops.

Definition is_registered (ls : list (DocumentEvent * Handler))
    (name : DocumentEvent) (h : Handler) : bool :=
  existsb (listener_eqb DocumentEvent_eqb (name, h)) ls.

(** [fabric.util.addListener(document, name, handler)], that is
    [addEventListener]: a listener that is registered already is not
    registered again. *)
Definition addListener (ls : list (DocumentEvent * Handler))
    (name : DocumentEvent) (h : Handler) : list (DocumentEvent * Handler) :=
  if is_registered ls name h then ls else ls ++ [(name, h)].

(** [fabric.util.removeListener(document, name, handler)]. *)
Definition removeListener (ls : list (DocumentEvent * Handler))
    (name : DocumentEvent) (h : Handler) : list (DocumentEvent * Handler) :=
  filter (fun l => negb (listener_eqb DocumentEvent_eqb (name, h) l)) ls.

End document_ops.

(** Field updates of the cropper. *)
Definition with_canvas (c : Cropper) (cv : Canvas) : Cropper :=
  mkCropper (graphics c) cv (_cropzone c) (_startX c) (_startY c)
            (_withShiftKey c) (documentListeners c) (updateUI_calls c).

Definition with_cropzone (c : Cropper) (z : option Cropzone) : Cropper :=
  mkCropper (graphics c) (canvas c) z (_startX c) (_startY c)
            (_withShiftKey c) (documentListeners c) (updateUI_calls c).

Definition with_start (c : Cropper) (x y : option Q) : Cropper :=
  mkCropper (graphics c) (canvas c) (_cropzone c) x y
            (_withShiftKey c) (documentListeners c) (updateUI_calls c).

Definition with_withShiftKey (c : Cropper) (b : bool) : Cropper :=
  mkCropper (graphics c) (canvas c) (_cropzone c) (_startX c) (_startY c)
            b (documentListeners c) (updateUI_calls c).

Definition with_documentListeners (c : Cropper)
    (ls : list (DocumentEvent * Handler)) : Cropper :=
  mkCropper (graphics c) (canvas c) (_cropzone c) (_startX c) (_startY c)
            (_withShiftKey c) ls (updateUI_calls c).

Definition with_updateUI_calls (c : Cropper) (calls : list Settings) : Cropper :=
  mkCropper (graphics c) (canvas c) (_cropzone c) (_startX c) (_startY c)
            (_withShiftKey c) (documentListeners c) calls.

(** The canvas's reference to the zone [this._cropzone] holds, if any. *)
Definition cropzone_ref (c : Cropper) : option CanvasObject :=
  match _cropzone c with
  | Some _ => Some CropzoneObject
  | None => None
  end.

(* ------------------------------------------------------------------ *)
(** ** The methods of [Cropper] *)

(** The argument of [setCropzonePosition]: any of the four keys may be
    missing. *)
Record PosInfo : Type := mkPosInfo {
  pos_left : option Q;
  pos_top : option Q;
  pos_width : option Q;
  pos_height : option Q
}.

(** Truthiness of an optional number: [undefined] and 0 are falsy. *)
Definition truthy (v : option Q) : bool :=
  match v with
  | Some q => negb (Qeq_bool q 0)
  | None => false
  end.

Definition or_default (v : option Q) (d : Q) : Q :=
  match v with Some q => q | None => d end.

(** The state of a fresh [new Cropper(graphics)] on a canvas. *)
Definition constructor (g : Graphics) (cv : Canvas) : Cropper :=
  {| graphics := g;
     canvas := cv;
     _cropzone := None;
     _startX := None;
     _startY := None;
     _withShiftKey := false;
     documentListeners := [];
     updateUI_calls := [] |}.

(** [this._runAction('updateUI', settings)]: the action is called when it
    is a function. *)
Definition _runAction_updateUI (c : Cropper) (settings : Settings) : Cropper :=
  if has_updateUI (graphics c)
  then with_updateUI_calls c (settings :: updateUI_calls c)
  else c.

Definition _getDefaultCropSize (c : Cropper) : Settings :=
  let maxWidth := getWidth (canvas c) in
  let maxHeight := getHeight (canvas c) in
  let crop := match defaultOptions_crop (graphics c) with
              | Some o => o
              | None => mkCropOptions None None
              end in
  let defaults_width := or_default (opt_width crop) maxWidth in
  let defaults_height := or_default (opt_height crop) maxHeight in
  let size :=
    if Qgtb defaults_width maxWidth || Qgtb defaults_height maxHeight
    then (inject_Z (toInt32 (maxWidth * (3 # 4))),
          inject_Z (toInt32 (maxHeight * (3 # 4))))
    else (defaults_width, defaults_height) in
  {| s_presetRatio := Some None;
     s_rect := {| left := (maxWidth - fst size) / 2;
                  top := (maxHeight - snd size) / 2;
                  width := fst size;
                  height := snd size |} |}.

Definition _calcRectDimensionFromPoint (c : Cropper) (x y : Q) : Rect :=
  let canvasWidth := getWidth (canvas c) in
  let canvasHeight := getHeight (canvas c) in
  let startX := toNumber (_startX c) in
  let startY := toNumber (_startY c) in
  let left0 := clamp x 0 startX in
  let top0 := clamp y 0 startY in
  let width0 := clamp x startX canvasWidth - left0 in
  let height0 := clamp y startY canvasHeight - top0 in
  if _withShiftKey c then
    let height1 := if Qgtb width0 height0 then width0 else height0 in
    let width1 := if Qgtb width0 height0 then width0
                  else if Qgtb height0 width0 then height0 else width0 in
    let left1 := if Qgeb startX x then startX - width1 else left0 in
    let top1 := if Qgeb startY y then startY - height1 else top0 in
    {| left := left1; top := top1; width := width1; height := height1 |}
  else
    {| left := left0; top := top0; width := width0; height := height0 |}.

Definition getScale (value orignalValue : Q) : Q :=
  if Qgtb value orignalValue then orignalValue / value else 1.

Definition _getPresetProperties (c : Cropper) (posInfo : option PosInfo) : Settings :=
  let originalWidth := getWidth (canvas c) in
  let originalHeight := getHeight (canvas c) in
  let info := match posInfo with
              | Some p => p
              | None => mkPosInfo None None None None
              end in
  let left_ := or_default (pos_left info) 0 in
  let top_ := or_default (pos_top info) 0 in
  let width_ := or_default (pos_width info) originalWidth in
  let height_ := or_default (pos_height info) originalHeight in
  {| s_presetRatio := Some (Some (js_div width_ height_));
     s_rect := {| left := Math_max left_ 0;
                  top := Math_max top_ 0;
                  width := Math_min width_ (originalWidth - left_);
                  height := Math_min height_ (originalHeight - left_) |} |}.

Definition _onKeyDown (c : Cropper) (keyCode : Z) : Cropper :=
  if Z.eqb keyCode keyCodes_SHIFT then with_withShiftKey c true else c.

Definition _onKeyUp (c : Cropper) (keyCode : Z) : Cropper :=
  if Z.eqb keyCode keyCodes_SHIFT then with_withShiftKey c false else c.

Definition start (c : Cropper) : Cropper :=
  match _cropzone c with
  | Some _ => c
  | None =>
      let c := with_canvas c (canvas_ops.forEachObject_evented (canvas c) false) in
      let c := with_cropzone c (Some (new_Cropzone (_getDefaultCropSize c))) in
      let cv := canvas_ops.discardActiveObject (canvas c) in
      let cv := canvas_ops.add cv CropzoneObject in
      let cv := canvas_ops.on cv mouse_down mousedown in
      let cv := canvas_ops.with_selection cv false in
      let cv := canvas_ops.with_defaultCursor cv cursor_crosshair in
      let c := with_canvas c cv in
      let ls := document_ops.addListener (documentListeners c) doc_keydown keydown in
      let ls := document_ops.addListener ls doc_keyup keyup in
      let c := with_documentListeners c ls in
      with_canvas c (canvas_ops.setActiveObject (canvas c) (cropzone_ref c))
  end.

(** The method [end] ([end] is a reserved word here). *)
Definition end_ (c : Cropper) : Cropper :=
  match _cropzone c with
  | None => c
  | Some _ =>
      let cv := canvas_ops.remove (canvas c) (cropzone_ref c) in
      let cv := canvas_ops.with_selection cv true in
      let cv := canvas_ops.with_defaultCursor cv cursor_default in
      let cv := canvas_ops.off cv mouse_down mousedown in
      let cv := canvas_ops.forEachObject_evented cv true in
      let c := with_canvas c cv in
      let c := with_cropzone c None in
      let ls := document_ops.removeListener (documentListeners c) doc_keydown keydown in
      let ls := document_ops.removeListener ls doc_keyup keyup in
      with_documentListeners c ls
  end.

Definition changeVisibility (c : Cropper) (v : bool) : Cropper :=
  match _cropzone c with
  | Some z => with_cropzone c (Some (set_visible z v))
  | None => c
  end.

(** [target]: whether the event has a target object; [x], [y]: the pointer
    as [canvas.getPointer] maps it. *)
Definition _onFabricMouseDown (c : Cropper) (target : bool) (x y : Q) : Cropper :=
  if target then c
  else
    let c := with_canvas c (canvas_ops.with_selection (canvas c) false) in
    let c := with_start c (Some x) (Some y) in
    let cv := canvas_ops.on (canvas c) mouse_move mousemove in
    let cv := canvas_ops.on cv mouse_up mouseup in
    with_canvas c cv.

Definition _onFabricMouseMove (c : Cropper) (x y : Q) : Cropper * Completion unit :=
  if Qgtb (Math_abs (x - toNumber (_startX c)) + Math_abs (y - toNumber (_startY c)))
        MOUSE_MOVE_THRESHOLD
  then
    let c := with_canvas c (canvas_ops.remove (canvas c) (cropzone_ref c)) in
    let settings := mkSettings None (_calcRectDimensionFromPoint c x y) in
    match _cropzone c with
    | None => (c, TypeError)
    | Some cropzone =>
        let c := with_cropzone c (Some (set cropzone settings)) in
        let c := _runAction_updateUI c settings in
        let cv := canvas_ops.add (canvas c) CropzoneObject in
        let cv := canvas_ops.setActiveObject cv (cropzone_ref c) in
        (with_canvas c cv, Normal tt)
    end
  else (c, Normal tt).

(** Without a zone [cropzone] is [null]; [canvas.setActiveObject(null)]
    throws while an object is active, and [canvas.off] is not reached. *)
Definition _onFabricMouseUp (c : Cropper) : Cropper * Completion unit :=
  if canvas_ops.setActiveObject_returns (canvas c) (cropzone_ref c) then
    let cv := canvas_ops.setActiveObject (canvas c) (cropzone_ref c) in
    let cv := canvas_ops.off cv mouse_move mousemove in
    let cv := canvas_ops.off cv mouse_up mouseup in
    (with_canvas c cv, Normal tt)
  else
    (with_canvas c (canvas_ops.discardActiveObject (canvas c)), TypeError).

Definition getCropzoneRect (c : Cropper) : Completion (option Rect) :=
  match _cropzone c with
  | None => TypeError
  | Some cropzone =>
      if negb (isValid cropzone) then Normal None
      else Normal (Some {| left := left (geometry cropzone);
                           top := top (geometry cropzone);
                           width := width (geometry cropzone);
                           height := height (geometry cropzone) |})
  end.

Definition setCropzonePosition (c : Cropper) (posInfo : option PosInfo)
    : Cropper * Completion unit :=
  let cv := canvas_ops.discardActiveObject (canvas c) in
  let cv := canvas_ops.with_selection cv false in
  let cv := canvas_ops.remove cv (cropzone_ref c) in
  let c := with_canvas c cv in
  match _cropzone c with
  | None => (c, TypeError)
  | Some cropzone =>
      let c := with_cropzone c (Some (set cropzone (_getPresetProperties c posInfo))) in
      let cv := canvas_ops.add (canvas c) CropzoneObject in
      let cv := canvas_ops.with_selection cv true in
      let cv := canvas_ops.setActiveObject cv (cropzone_ref c) in
      (with_canvas c cv, Normal tt)
  end.

Section PresetRatio.

(** The number of decimal places [fixFloatingPoint] keeps, a constant of
    '@/util' that is not among the sources. *)
Variable FLOATING_POINT_DIGIT : nat.

Definition _getPresetPropertiesForCropSize (c : Cropper) (presetRatio : Q)
    : Settings :=
  let originalWidth := getWidth (canvas c) in
  let originalHeight := getHeight (canvas c) in
  let standardSize :=
    if Qgeb originalWidth originalHeight then originalWidth else originalHeight in
  let width0 := standardSize * presetRatio in
  let height0 := standardSize in
  let scaleWidth := getScale width0 originalWidth in
  let width1 := width0 * scaleWidth in
  let height1 := height0 * scaleWidth in
  let scaleHeight := getScale height1 originalHeight in
  let width2 := fixFloatingPoint FLOATING_POINT_DIGIT (width1 * scaleHeight) in
  let height2 := fixFloatingPoint FLOATING_POINT_DIGIT (height1 * scaleHeight) in
  {| s_presetRatio := Some (Some (Finite presetRatio));
     s_rect := {| left := (originalWidth - width2) / 2;
                  top := (originalHeight - height2) / 2;
                  width := width2;
                  height := height2 |} |}.

Definition setCropzoneRect (c : Cropper) (presetRatio : option Q)
    : Cropper * Completion unit :=
  let cv := canvas_ops.discardActiveObject (canvas c) in
  let cv := canvas_ops.with_selection cv false in
  let cv := canvas_ops.remove cv (cropzone_ref c) in
  let c := with_canvas c cv in
  let settings :=
    if truthy presetRatio
    then _getPresetPropertiesForCropSize c (toNumber presetRatio)
    else _getDefaultCropSize c in
  match _cropzone c with
  | None => (c, TypeError)
  | Some cropzone =>
      let c := with_cropzone c (Some (set cropzone settings)) in
      let c := _runAction_updateUI c settings in
      let cv := canvas_ops.add (canvas c) CropzoneObject in
      let cv := canvas_ops.with_selection cv true in
      let cv := canvas_ops.setActiveObject cv (cropzone_ref c) in
      (with_canvas c cv, Normal tt)
  end.

End PresetRatio.

(* ------------------------------------------------------------------ *)
(** ** Events: the calls of the editor and what the browser fires *)

Inductive Event : Type :=
| call_start
| call_end
| call_changeVisibility (visible : bool)
| call_setCropzoneRect (presetRatio : option Q)
| call_setCropzonePosition (posInfo : option PosInfo)
| fire_mouse_down (target : bool) (x y : Q)
| fire_mouse_move (x y : Q)
| fire_mouse_up
| fire_keydown (keyCode : Z)
| fire_keyup (keyCode : Z).

(** [canvas.fire]: the handler runs once for each of its registrations at
    the time the event is fired; a throw ends the dispatch. *)
Fixpoint call_times (n : nat) (h : Cropper -> Cropper * Completion unit)
    (c : Cropper) : Cropper * Completion unit :=
  match n with
  | O => (c, Normal tt)
  | S n' =>
      match h c with
      | (c', Normal _) => call_times n' h c'
      | (c', TypeError) => (c', TypeError)
      end
  end.

Definition returns (c : Cropper) : Cropper * Completion unit := (c, Normal tt).

Section Session.

Variable FLOATING_POINT_DIGIT : nat.

Definition step (c : Cropper) (e : Event) : Cropper * Completion unit :=
  match e with
  | call_start => returns (start c)
  | call_end => returns (end_ c)
  | call_changeVisibility v => returns (changeVisibility c v)
  | call_setCropzoneRect presetRatio =>
      setCropzoneRect FLOATING_POINT_DIGIT c presetRatio
  | call_setCropzonePosition posInfo => setCropzonePosition c posInfo
  | fire_mouse_down target x y =>
      call_times (canvas_ops.registered (canvas c) mouse_down mousedown)
                 (fun c => returns (_onFabricMouseDown c target x y)) c
  | fire_mouse_move x y =>
      call_times (canvas_ops.registered (canvas c) mouse_move mousemove)
                 (fun c => _onFabricMouseMove c x y) c
  | fire_mouse_up =>
      call_times (canvas_ops.registered (canvas c) mouse_up mouseup)
                 _onFabricMouseUp c
  | fire_keydown keyCode =>
      if document_ops.is_registered (documentListeners c) doc_keydown keydown
      then returns (_onKeyDown c keyCode) else returns c
  | fire_keyup keyCode =>
      if document_ops.is_registered (documentListeners c) doc_keyup keyup
      then returns (_onKeyUp c keyCode) else returns c
  end.

(** The cropper after a sequence of events; an event that ends in a throw
    leaves the state it reached, and the next event is handled. *)
Fixpoint run (c : Cropper) (events : list Event) : Cropper :=
  match events with
  | [] => c
  | e :: events' => run (fst (step c e)) events'
  end.

End Session.

(* ------------------------------------------------------------------ *)
(** ** Specification-level definitions *)

(** Equality of rectangles as numbers. *)
Definition Rect_eq (r1 r2 : Rect) : Prop :=
  left r1 == left r2 /\ top r1 == top r2 /\
  width r1 == width r2 /\ height r1 == height r2.

(** The rectangle invariant against the canvas bounds. *)
Definition in_bounds (r : Rect) (maxWidth maxHeight : Q) : Prop :=
  0 <= left r /\ 0 <= top r /\
  left r + width r <= maxWidth /\ top r + height r <= maxHeight.

(** The spec's [rectFromDrag(anchor, current, bounds, aspectLocked)],
    written from its words, to be compared with
    [_calcRectDimensionFromPoint]. *)
Definition rectFromDrag (anchor current bounds : Q * Q) (aspectLocked : bool)
    : Rect :=
  let left0 := clamp (fst current) 0 (fst anchor) in
  let top0 := clamp (snd current) 0 (snd anchor) in
  let width0 := clamp (fst current) (fst anchor) (fst bounds) - left0 in
  let height0 := clamp (snd current) (snd anchor) (snd bounds) - top0 in
  if aspectLocked then
    let size := Qmax width0 height0 in
    {| left := if Qle_bool (fst current) (fst anchor)
               then fst anchor - size else left0;
       top := if Qle_bool (snd current) (snd anchor)
              then snd anchor - size else top0;
       width := size;
       height := size |}
  else
    {| left := left0; top := top0; width := width0; height := height0 |}.

(** The test of [_onFabricMouseMove]: the pointer is more than the
    threshold away from the anchor, in Manhattan distance. *)
Definition past_threshold (c : Cropper) (x y : Q) : bool :=
  Qgtb (Math_abs (x - toNumber (_startX c)) + Math_abs (y - toNumber (_startY c)))
     MOUSE_MOVE_THRESHOLD.

(** The session invariant: the pointer-down listener of [start] is
    registered once while there is a zone and not at all otherwise, and
    without a zone the two key listeners are not registered. *)
Definition has_zone (c : Cropper) : bool :=
  match _cropzone c with Some _ => true | None => false end.

Definition session_inv (c : Cropper) : Prop :=
  canvas_ops.registered (canvas c) mouse_down mousedown
  = (if has_zone c then 1%nat else 0%nat) /\
  (has_zone c = false ->
   document_ops.is_registered (documentListeners c) doc_keydown keydown = false /\
   document_ops.is_registered (documentListeners c) doc_keyup keyup = false).

(** Two states with the same zone presence and the same registrations of
    the listeners [start] adds. *)
Definition same_session (c c' : Cropper) : Prop :=
  has_zone c' = has_zone c /\
  canvas_ops.registered (canvas c') mouse_down mousedown
  = canvas_ops.registered (canvas c) mouse_down mousedown /\
  documentListeners c' = documentListeners c.

(* ------------------------------------------------------------------ *)
(** ** Example sessions

    In the examples [fixFloatingPoint] keeps two decimal places (the first
    argument of [run], [setCropzoneRect] and
    [_getPresetPropertiesForCropSize]). *)

(** An editor whose crop actions include updateUI and whose default crop
    size is 400x300, on a canvas that holds one other shape.  On an 800x600
    canvas the zone of a new session covers (200, 150) to (600, 450), so a
    pointer-down at a point outside of it has no target. *)
Definition example_graphics : Graphics :=
  {| defaultOptions_crop := Some {| opt_width := Some 400; opt_height := Some 300 |};
     has_updateUI := true |}.

Definition example_canvas (canvasWidth canvasHeight : Q) : Canvas :=
  {| getWidth := canvasWidth;
     getHeight := canvasHeight;
     objects := [Shape true];
     selection := true;
     defaultCursor := cursor_default;
     activeObject := None;
     eventListeners := [] |}.

Definition example_cropper (canvasWidth canvasHeight : Q) : Cropper :=
  constructor example_graphics (example_canvas canvasWidth canvasHeight).

(** A session on an 800x600 canvas in which the pointer went down on empty
    canvas at (100, 100). *)
Definition drag_from_100_100 : Cropper :=
  run 2 (example_cropper 800 600) [call_start; fire_mouse_down false 100 100].

(** The same with the shift key held. *)
Definition locked_drag_from_100_100 : Cropper :=
  run 2 (example_cropper 800 600)
      [call_start; fire_keydown keyCodes_SHIFT; fire_mouse_down false 100 100].

(** A session on an 800x600 canvas, just started. *)
Definition started_800_600 : Cropper :=
  run 2 (example_cropper 800 600) [call_start].

(** A session in which the square preset was applied (the zone then covers
    (100, 0) to (700, 600)) and a drag from (50, 100) moved the pointer to
    (90, 300). *)
Definition preset_then_drag : list Event :=
  [call_start; call_setCropzoneRect (Some 1);
   fire_mouse_down false 50 100; fire_mouse_move 90 300].


(** A session that is ended between a pointer-down and its pointer-up. *)
Definition end_during_drag : list Event :=
  [call_start; fire_mouse_down false 100 100; call_end].

(* ------------------------------------------------------------------ *)
(** ** Further methods and helpers *)

(** [canvas.contains(obj)]; [null] is not an object of the canvas. *)
Definition canvas_contains (cv : Canvas) (obj : option CanvasObject) : bool :=
  match obj with
  | Some o => existsb (CanvasObject_eqb o) (objects cv)
  | None => false
  end.

(** The result of [getCroppedImageData]. *)
Record ImageData : Type := mkImageData {
  imageName : String.string;
  url : String.string
}.

Section CroppedImage.

(** [canvas.toDataURL(cropRect)] renders the canvas as it is at the call;
    [this.getImageName()] comes from the component base class.  Neither is
    among the sources. *)
Variable toDataURL : Canvas -> Rect -> String.string.
Variable getImageName : Cropper -> String.string.

(** [cropRect]: [None] for a falsy argument. *)
Definition getCroppedImageData (c : Cropper) (cropRect : option Rect)
    : Cropper * option ImageData :=
  let containsCropzone := canvas_contains (canvas c) (cropzone_ref c) in
  match cropRect with
  | None => (c, None)
  | Some rect =>
      let c :=
        if containsCropzone
        then with_canvas c (canvas_ops.remove (canvas c) (cropzone_ref c))
        else c in
      let imageData :=
        {| imageName := getImageName c; url := toDataURL (canvas c) rect |} in
      let c :=
        if containsCropzone
        then with_canvas c (canvas_ops.add (canvas c) CropzoneObject)
        else c in
      (c, Some imageData)
  end.

End CroppedImage.

(** Whether a canvas object is the crop zone, and how often the zone is
    among the objects of the canvas. *)
Definition is_zone (obj : CanvasObject) : bool :=
  CanvasObject_eqb CropzoneObject obj.

Definition zone_count (c : Cropper) : nat :=
  count is_zone (objects (canvas c)).

(** A cropper outside of a session on a canvas no cropper has touched: no
    zone, no listener of the cropper registered, no zone object on the
    canvas. *)
Definition untouched (c : Cropper) : Prop :=
  _cropzone c = None /\
  canvas_ops.registered (canvas c) mouse_down mousedown = 0%nat /\
  canvas_ops.registered (canvas c) mouse_move mousemove = 0%nat /\
  canvas_ops.registered (canvas c) mouse_up mouseup = 0%nat /\
  document_ops.is_registered (documentListeners c) doc_keydown keydown = false /\
  document_ops.is_registered (documentListeners c) doc_keyup keyup = false /\
  zone_count c = 0%nat.

(** The canvas as [end] leaves it: objects selectable as a group, the
    default cursor, nothing active, every shape evented. *)
Definition canvas_at_rest (cv : Canvas) : Prop :=
  selection cv = true /\
  defaultCursor cv = cursor_default /\
  activeObject cv = None /\
  (forall obj, In obj (objects cv) -> obj = Shape true).

(** What no method writes: the canvas size and the graphics. *)
Definition same_frame (c c' : Cropper) : Prop :=
  getWidth (canvas c') = getWidth (canvas c) /\
  getHeight (canvas c') = getHeight (canvas c) /\
  graphics c' = graphics c.

(** The invariant of the gestures: pointer-move and pointer-up listeners
    come and go together; the zone is on the canvas once while there is
    one; and while there is one, no other object is the active one. *)
Definition gesture_inv (c : Cropper) : Prop :=
  canvas_ops.registered (canvas c) mouse_move mousemove
  = canvas_ops.registered (canvas c) mouse_up mouseup /\
  zone_count c = (if has_zone c then 1%nat else 0%nat) /\
  (has_zone c = true ->
   activeObject (canvas c) = None \/
   activeObject (canvas c) = Some CropzoneObject).

(** A cropper on a canvas with a shape that is not evented, a shape that
    is active, and group selection off. *)
Definition cropper_on_mixed_canvas : Cropper :=
  constructor example_graphics
    {| getWidth := 800;
       getHeight := 600;
       objects := [Shape false; Shape true];
       selection := false;
       defaultCursor := cursor_default;
       activeObject := Some (Shape true);
       eventListeners := [] |}.

(** A rectangle of non-negative width and height that lies in the canvas. *)
Definition inside_canvas (r : Rect) (maxWidth maxHeight : Q) : Prop :=
  0 <= width r /\ 0 <= height r /\ in_bounds r maxWidth maxHeight.

(** A click on a shape outside of a session: fabric makes the shape the
    active object. *)
Definition shape_selected (c : Cropper) : Cropper :=
  with_canvas c (canvas_ops.setActiveObject (canvas c) (Some (Shape true))).

(** A state with the graphics and the updateUI calls of [c0]. *)
Definition quiet (c0 c : Cropper) : Prop :=
  graphics c = graphics c0 /\ updateUI_calls c = updateUI_calls c0.

Import Ascii.AsciiSyntax String.StringSyntax.
Delimit Scope char_scope with char.
Delimit Scope string_scope with string.

(* ------------------------------------------------------------------ *)
(** ** The numeric entry field (InputField) *)

(** *** The text filter *)

Definition is_digit (ch : Ascii.ascii) : bool :=
  let n := Ascii.nat_of_ascii ch in
  (Nat.leb 48 n) && (Nat.leb n 57).

Definition is_minus (ch : Ascii.ascii) : bool := Ascii.eqb ch "-"%char.

(** [INPUT_FILTER_REGEXP] matches, in this order: an optional minus sign
    (group 1), a run of digits (group 2), a run of characters that are not
    digits, and a run of digits (group 3); each run may be empty and the
    expression is global.  A phase says where the scan stands inside one
    match: at its start (before group 1), in group 2, in the run between the
    groups, or in group 3. *)
Inductive FilterPhase : Type := match_start | group2 | separator | group3.

(** [inputValue.replace(INPUT_FILTER_REGEXP, '$1$2$3')], character by
    character.  Every quantifier of the expression is greedy and no
    character can be taken by two neighbouring parts, so a match is read off
    from left to right: a minus sign at its start is kept (group 1), a digit
    is kept (groups 2 and 3), any other character falls into the run between
    the groups and is dropped.  A character that is not a digit ends group 3
    and with it the match; the next match starts at that character.  Texts
    are taken as sequences of 8-bit characters; a character outside ASCII is
    in every encoding a run of characters that are neither digits nor the
    minus sign. *)
Fixpoint filter_from (phase : FilterPhase) (s : String.string) : String.string :=
  match s with
  | String.EmptyString => String.EmptyString
  | String.String ch rest =>
      if is_digit ch then
        String.String ch
          (filter_from
             (match phase with
              | match_start | group2 => group2
              | separator | group3 => group3
              end) rest)
      else
        match phase with
        | match_start | group3 =>
            if is_minus ch
            then String.String ch (filter_from group2 rest)
            else filter_from separator rest
        | group2 | separator => filter_from separator rest
        end
  end.

Definition _filterForInputText (inputValue : String.string) : String.string :=
  filter_from match_start inputValue.

Fixpoint string_forallb (p : Ascii.ascii -> bool) (s : String.string) : bool :=
  match s with
  | String.EmptyString => true
  | String.String ch rest => p ch && string_forallb p rest
  end.

Fixpoint string_filter (p : Ascii.ascii -> bool) (s : String.string) : String.string :=
  match s with
  | String.EmptyString => String.EmptyString
  | String.String ch rest =>
      if p ch then String.String ch (string_filter p rest) else string_filter p rest
  end.

(** The digits of a text, in order. *)
Definition digits_of (s : String.string) : String.string := string_filter is_digit s.

Definition all_digits (s : String.string) : bool := string_forallb is_digit s.

(** *** The field *)

(** The numbers of a field: [None] is NaN, which a text that is not a number
    converts to. *)
Definition num_lt (v : option Q) (bound : Q) : bool :=
  match v with Some q => Qgtb bound q | None => false end.

Definition num_gt (v : option Q) (bound : Q) : bool :=
  match v with Some q => Qgtb q bound | None => false end.

(** [clamp] (see above) on a value that may be NaN: NaN stays NaN, through
    [Math.min] and [Math.max] as through comparisons with the bounds. *)
Definition clamp_num (value : option Q) (minValue maxValue : Q) : option Q :=
  option_map (fun q => clamp q minValue maxValue) value.

(** What was last assigned to [inputElement.value]: a number (shown as its
    text by the element) or a text. *)
Inductive ElementValue : Type :=
| shown_number (v : option Q)
| shown_text (s : String.string).

(** A call of [this.fire(type, value, isFinal)]; [isFinal] is [None] where
    the call passes two arguments. *)
Record Fired : Type := mkFired {
  fired_type : String.string;
  fired_value : option Q;
  fired_isFinal : option bool
}.

Record InputField : Type := mkInputField {
  _value : option Q;
  inputElement_value : ElementValue;
  _min : Q;
  _max : Q;
  _useDecimal : bool;
  _absMax : Q;
  fired : list Fired
}.

(** Numeric [options] of a field, all given. *)
Record FieldOptions : Type := mkFieldOptions {
  opt_value : Q;
  opt_min : Q;
  opt_max : Q;
  opt_useDecimal : bool
}.

Definition with_value (f : InputField) (v : option Q) : InputField :=
  {| _value := v; inputElement_value := inputElement_value f; _min := _min f;
     _max := _max f; _useDecimal := _useDecimal f; _absMax := _absMax f;
     fired := fired f |}.

Definition with_inputElement_value (f : InputField) (e : ElementValue) : InputField :=
  {| _value := _value f; inputElement_value := e; _min := _min f;
     _max := _max f; _useDecimal := _useDecimal f; _absMax := _absMax f;
     fired := fired f |}.

Definition with_min (f : InputField) (m : Q) : InputField :=
  {| _value := _value f; inputElement_value := inputElement_value f; _min := m;
     _max := _max f; _useDecimal := _useDecimal f; _absMax := _absMax f;
     fired := fired f |}.

Definition with_max (f : InputField) (m : Q) : InputField :=
  {| _value := _value f; inputElement_value := inputElement_value f; _min := _min f;
     _max := m; _useDecimal := _useDecimal f; _absMax := _absMax f;
     fired := fired f |}.

Definition with_absMax (f : InputField) (m : Q) : InputField :=
  {| _value := _value f; inputElement_value := inputElement_value f; _min := _min f;
     _max := _max f; _useDecimal := _useDecimal f; _absMax := m;
     fired := fired f |}.

Definition fire (f : InputField) (type : String.string) (value : option Q)
    (isFinal : option bool) : InputField :=
  {| _value := _value f; inputElement_value := inputElement_value f; _min := _min f;
     _max := _max f; _useDecimal := _useDecimal f; _absMax := _absMax f;
     fired := fired f ++ [mkFired type value isFinal] |}.

(** The limits of the crop menu's fields. *)
Record Limits : Type := mkLimits {
  minWidth : Q;
  maxWidth : Q;
  minHeight : Q;
  maxHeight : Q
}.

(** [this._els] of the crop menu, as far as it holds fields. *)
Record CropEls : Type := mkCropEls {
  els_width : InputField;
  els_height : InputField
}.

Section Field.

(** [toInteger] of '@/util' is not among the sources; it is applied to
    numbers ([toInteger]) and to texts ([toInteger_text]).  [Number_text] is
    [Number(text)].  [keyCodes.ARROW_UP] and [keyCodes.ARROW_DOWN] come from
    '@/consts'. *)
Variable toInteger : option Q -> option Q.
Variable toInteger_text : String.string -> option Q.
Variable Number_text : String.string -> option Q.
Variable ARROW_UP ARROW_DOWN : Z.

(** [set value(value)] *)
Definition set_value (f : InputField) (value : option Q) : InputField :=
  let value := if _useDecimal f then value else toInteger value in
  let f := with_value f value in
  with_inputElement_value f (shown_number value).

(** [set max(maxValue)] *)
Definition set_max (f : InputField) (maxValue : Q) : InputField :=
  let f := with_max f maxValue in
  let f := with_absMax f (_min f * -1 + _max f) in
  set_value f (_value f).

(** [set min(minValue)] *)
Definition set_min (f : InputField) (minValue : Q) : InputField :=
  let f := with_min f minValue in
  set_max f (_max f).

Definition trigger (f : InputField) (type : String.string) : InputField :=
  fire f type (_value f) None.

(** [new InputField(inputElement, options)] for numeric options;
    [inputElement] is the value the element shows when it is handed in.
    [options.value || 0] and [options.min || 0] are the numbers themselves,
    [options.max || 100] replaces a zero. *)
Definition new_InputField (inputElement : ElementValue) (options : FieldOptions)
    : InputField :=
  let min := opt_min options in
  let max := if Qeq_bool (opt_max options) 0 then 100 else opt_max options in
  let f := {| _value := Some (opt_value options);
              inputElement_value := inputElement;
              _min := min;
              _max := max;
              _useDecimal := opt_useDecimal options;
              _absMax := min * -1 + max;
              fired := [] |} in
  let f := set_value f (Some (opt_value options)) in
  trigger f "change"%string.

Definition is_arrow (keyCode : Z) : bool :=
  (Z.eqb keyCode ARROW_UP || Z.eqb keyCode ARROW_DOWN)%bool.

(** The step 0.1 of a decimal field is taken as the exact tenth. *)
Definition _valueUpDownForKeyEvent (f : InputField) (value : option Q) (keyCode : Z)
    : option Q :=
  let step := if _useDecimal f then 1 # 10 else 1 in
  if Z.eqb keyCode ARROW_UP then option_map (fun v => v + step) value
  else if Z.eqb keyCode ARROW_DOWN then option_map (fun v => v - step) value
  else value.

(** [event] is given by its [keyCode] and the text [target.value]. *)
Definition _changeValueWithInputKeyEvent (f : InputField) (keyCode : Z)
    (target_value : String.string) : InputField :=
  if negb (is_arrow keyCode) then f
  else
    let value := Number_text target_value in
    let value := _valueUpDownForKeyEvent f value keyCode in
    let unChanged := (num_lt value (_min f) || num_gt value (_max f))%bool in
    if negb unChanged then
      let clampValue := clamp_num value (_min f) (_max f) in
      let f := set_value f clampValue in
      fire f "change"%string clampValue (Some false)
    else f.

Definition _inputSetValue (f : InputField) (stringValue : String.string) : InputField :=
  let value := if _useDecimal f then Number_text stringValue
               else toInteger_text stringValue in
  let value := clamp_num value (_min f) (_max f) in
  let f := set_value f value in
  fire f "change"%string value (Some true).

Definition isNaN_text (s : String.string) : bool :=
  match Number_text s with Some _ => false | None => true end.

(** The event's target is the input element the handler is attached to. *)
Definition _changeValueWithInput (f : InputField) (isLast : bool) (keyCode : Z)
    (target_value : String.string) : InputField :=
  if is_arrow keyCode then f
  else
    let stringValue := _filterForInputText target_value in
    let waitForChange :=
      (String.eqb stringValue String.EmptyString || isNaN_text stringValue)%bool in
    let f := with_inputElement_value f (shown_text stringValue) in
    if negb waitForChange then _inputSetValue f stringValue else f.

Import Ascii.AsciiSyntax String.StringSyntax.

(* ------------------------------------------------------------------ *)
(** ** The crop menu (ui/crop.js), its fields and limits *)

(** [defaultCropPixelValues] of '@/consts' is not among the sources. *)
Variable defaultCropPixelValues : FieldOptions.

Definition calcMaxValue (maxValue : Q) : Q :=
  if Qle_bool maxValue 0 then opt_max defaultCropPixelValues else maxValue.

Definition calcMinValue (minValue : Q) : Q :=
  if Qle_bool minValue 0 then opt_min defaultCropPixelValues else minValue.

Definition with_els_width (els : CropEls) (f : InputField) : CropEls :=
  {| els_width := f; els_height := els_height els |}.

Definition with_els_height (els : CropEls) (f : InputField) : CropEls :=
  {| els_width := els_width els; els_height := f |}.

(** The two fields the constructor of the menu creates. *)
Definition new_CropEls (widthElement heightElement : ElementValue) : CropEls :=
  {| els_width := new_InputField widthElement defaultCropPixelValues;
     els_height := new_InputField heightElement defaultCropPixelValues |}.

Definition setLimit (els : CropEls) (limits : Limits) : CropEls :=
  let els := with_els_width els (set_min (els_width els) (calcMinValue (minWidth limits))) in
  let els := with_els_height els (set_min (els_height els) (calcMinValue (minHeight limits))) in
  let els := with_els_width els (set_max (els_width els) (calcMaxValue (maxWidth limits))) in
  with_els_height els (set_max (els_height els) (calcMaxValue (maxHeight limits))).

Definition setWidthValue (els : CropEls) (value : option Q) (trigger_ : bool) : CropEls :=
  let els := with_els_width els (set_value (els_width els) value) in
  if trigger_ then with_els_width els (trigger (els_width els) "change"%string) else els.

Definition setHeightValue (els : CropEls) (value : option Q) (trigger_ : bool) : CropEls :=
  let els := with_els_height els (set_value (els_height els) value) in
  if trigger_ then with_els_height els (trigger (els_height els) "change"%string) else els.

(** [width || 0]: a missing or zero width gives 0. *)
Definition setRectSize (els : CropEls) (rect : option Rect) : CropEls :=
  let w := match rect with Some r => Some (width r) | None => None end in
  let h := match rect with Some r => Some (height r) | None => None end in
  let els := setWidthValue els (Some (if truthy w then or_default w 0 else 0)) false in
  setHeightValue els (Some (if truthy h then or_default h 0 else 0)) false.

(** [changeStartMode()] after [this.actions.modeChange('crop')]:
    [dimensions] and [rect] are what the actions [getCurrentDimensions] and
    [getCurrentCropzoneRect] return; [rect] is [None] for [null], on which
    reading [width] throws. *)
Definition changeStartMode (els : CropEls) (dimensions : Q * Q) (rect : option Rect)
    : CropEls * Completion unit :=
  let els := setLimit els
    {| minWidth := opt_min defaultCropPixelValues;
       maxWidth := fst dimensions;
       minHeight := opt_min defaultCropPixelValues;
       maxHeight := snd dimensions |} in
  match rect with
  | None => (els, TypeError)
  | Some r =>
      let els := setWidthValue els (Some (width r)) false in
      let els := setHeightValue els (Some (height r)) false in
      (els, Normal tt)
  end.

End Field.

(** What a field stores for a value handed to [set value]. *)
Definition stored_as (toInteger : option Q -> option Q) (f : InputField)
    (v : option Q) : option Q :=
  if _useDecimal f then v else toInteger v.

(** A field [f'] that got the limits asked for as [lo] and [hi], with the
    defaults [options] for a limit that is not positive, out of the field
    [f]. *)
Definition has_limits (toInteger : option Q -> option Q) (options : FieldOptions)
    (f f' : InputField) (lo hi : Q) : Prop :=
  0 < _min f' /\ 0 < _max f' /\
  (0 < lo -> _min f' = lo) /\ (lo <= 0 -> _min f' = opt_min options) /\
  (0 < hi -> _max f' = hi) /\ (hi <= 0 -> _max f' = opt_max options) /\
  _absMax f' == _max f' - _min f' /\
  _value f' = stored_as toInteger f (stored_as toInteger f (_value f)) /\
  _useDecimal f' = _useDecimal f /\
  fired f' = fired f.

(** An example: integer fields with the limits 1 and 10000, [toInteger]
    truncating towards zero, and a reader of the texts of the examples. *)
Definition example_toInteger (v : option Q) : option Q :=
  option_map (fun q => inject_Z (truncate q)) v.

Definition example_Number_text (s : String.string) : option Q :=
  if String.eqb s "250"%string then Some 250
  else if String.eqb s "600"%string then Some 600
  else if String.eqb s "-5"%string then Some (-5)
  else if String.eqb s "12345"%string then Some 12345
  else None.

Definition example_options : FieldOptions :=
  {| opt_value := 800; opt_min := 1; opt_max := 10000; opt_useDecimal := false |}.

Definition example_field : InputField :=
  set_max example_toInteger
    (new_InputField example_toInteger (shown_text ""%string) example_options) 600.
(* ------------------------------------------------------------------ *)
(** ** Basic facts about numbers *)

Lemma Qgtb_true (a b : Q) : Qgtb a b = true <-> b < a.
Proof.
  unfold Qgtb. rewrite negb_true_iff.
  split; intro H.
  - apply Qnot_le_lt. intro Hle. apply Qle_bool_iff in Hle. congruence.
  - destruct (Qle_bool a b) eqn:E; [|reflexivity].
    apply Qle_bool_iff in E. lra.
Qed.

Lemma Qgtb_false (a b : Q) : Qgtb a b = false <-> a <= b.
Proof.
  unfold Qgtb. rewrite negb_false_iff. apply Qle_bool_iff.
Qed.

Lemma Qgeb_true (a b : Q) : Qgeb a b = true <-> b <= a.
Proof. unfold Qgeb. apply Qle_bool_iff. Qed.

Lemma Qgeb_false (a b : Q) : Qgeb a b = false <-> a < b.
Proof.
  unfold Qgeb. split; intro H.
  - apply Qnot_le_lt. intro Hle. apply Qle_bool_iff in Hle. congruence.
  - destruct (Qle_bool b a) eqn:E; [|reflexivity].
    apply Qle_bool_iff in E. lra.
Qed.

(** Case analysis on a comparison, leaving the order fact as a hypothesis. *)
Ltac case_Qgtb a b :=
  let E := fresh "E" in
  destruct (Qgtb a b) eqn:E;
  [apply Qgtb_true in E | apply Qgtb_false in E].

Ltac case_Qgeb a b :=
  let E := fresh "E" in
  destruct (Qgeb a b) eqn:E;
  [apply Qgeb_true in E | apply Qgeb_false in E].

Ltac case_max a b :=
  let H := fresh "Hmax" in
  destruct (Q.max_spec a b) as [[? H]|[? H]].

Ltac case_min a b :=
  let H := fresh "Hmin" in
  destruct (Q.min_spec a b) as [[? H]|[? H]].

Lemma clamp_ordered (value lo hi : Q) :
  lo <= hi -> lo <= clamp value lo hi <= hi.
Proof.
  intro Hle. unfold clamp, Math_max, Math_min.
  case_min value hi; case_max lo (Qmin value hi); lra.
Qed.

Lemma clamp_inside (value lo hi : Q) :
  lo <= value <= hi -> clamp value lo hi == value.
Proof.
  intros [H1 H2]. unfold clamp, Math_max, Math_min.
  case_min value hi; case_max lo (Qmin value hi); lra.
Qed.

Lemma clamp_below (value lo hi : Q) :
  lo <= hi -> value <= lo -> clamp value lo hi == lo.
Proof.
  intros H1 H2. unfold clamp, Math_max, Math_min.
  case_min value hi; case_max lo (Qmin value hi); lra.
Qed.

Lemma clamp_above (value lo hi : Q) :
  lo <= hi -> hi <= value -> clamp value lo hi == hi.
Proof.
  intros H1 H2. unfold clamp, Math_max, Math_min.
  case_min value hi; case_max lo (Qmin value hi); lra.
Qed.

(* ------------------------------------------------------------------ *)
(** ** The drag geometry *)

Lemma calc_unlocked (c : Cropper) (x y : Q) :
  _withShiftKey c = false ->
  _calcRectDimensionFromPoint c x y =
  {| left := clamp x 0 (toNumber (_startX c));
     top := clamp y 0 (toNumber (_startY c));
     width := clamp x (toNumber (_startX c)) (getWidth (canvas c))
              - clamp x 0 (toNumber (_startX c));
     height := clamp y (toNumber (_startY c)) (getHeight (canvas c))
               - clamp y 0 (toNumber (_startY c)) |}.
Proof.
  intro H. unfold _calcRectDimensionFromPoint. rewrite H. reflexivity.
Qed.

(** One axis of the drag: the near and far edge for a pointer [p] and an
    anchor [a] inside [0, m]. *)
Lemma axis_edges (p a m : Q) :
  0 <= a <= m -> 0 <= p <= m ->
  (p <= a -> clamp p 0 a == p /\ clamp p a m == a) /\
  (a < p -> clamp p 0 a == a /\ clamp p a m == p).
Proof.
  intros Ha Hp. split; intro Hc.
  - split; [apply clamp_inside | apply clamp_below]; lra.
  - split; [apply clamp_above | apply clamp_inside]; lra.
Qed.

Ltac specialize_edges Hxl Hxr Hyl Hyr Cx Cy :=
  first [ destruct (Hxl Cx) | destruct (Hxr Cx) ];
  first [ destruct (Hyl Cy) | destruct (Hyr Cy) ].

(** C1 (as amended): for an anchor and a pointer inside the canvas, the
    rectangle of [_calcRectDimensionFromPoint] lies inside the canvas when
    the shift flag is off.  When it is on, the rectangle is a square, and it
    lies inside the canvas exactly when its side is no larger than the room
    on the side of the anchor the pointer is on (the anchor's coordinate
    when the pointer is at or before the anchor, the rest of the canvas
    otherwise). *)
Theorem calcRectDimensionFromPoint_bounds
    (c : Cropper) (x y startX startY : Q) :
  _startX c = Some startX -> _startY c = Some startY ->
  0 <= startX <= getWidth (canvas c) ->
  0 <= startY <= getHeight (canvas c) ->
  0 <= x <= getWidth (canvas c) ->
  0 <= y <= getHeight (canvas c) ->
  let r := _calcRectDimensionFromPoint c x y in
  (_withShiftKey c = false ->
     in_bounds r (getWidth (canvas c)) (getHeight (canvas c))) /\
  (_withShiftKey c = true ->
     width r == height r /\
     (in_bounds r (getWidth (canvas c)) (getHeight (canvas c)) <->
      width r <= (if Qgeb startX x then startX else getWidth (canvas c) - startX) /\
      height r <= (if Qgeb startY y then startY else getHeight (canvas c) - startY))).
Proof.
  intros HX HY Hsx Hsy Hx Hy r.
  destruct (axis_edges x startX _ Hsx Hx) as [Hxl Hxr].
  destruct (axis_edges y startY _ Hsy Hy) as [Hyl Hyr].
  split; intro Hshift; subst r;
    unfold _calcRectDimensionFromPoint, in_bounds;
    rewrite Hshift, HX, HY; cbn [toNumber left top width height].
  - destruct (Qlt_le_dec startX x) as [Cx|Cx];
    destruct (Qlt_le_dec startY y) as [Cy|Cy];
      specialize_edges Hxl Hxr Hyl Hyr Cx Cy; lra.
  - set (w := clamp x startX (getWidth (canvas c)) - clamp x 0 startX) in *.
    set (h := clamp y startY (getHeight (canvas c)) - clamp y 0 startY) in *.
    case_Qgtb w h; [|case_Qgtb h w]; case_Qgeb startX x; case_Qgeb startY y;
      cbn [left top width height]; subst w h;
      (split; [lra|]);
      first [ destruct (Hxl ltac:(lra)) | destruct (Hxr ltac:(lra)) ];
      first [ destruct (Hyl ltac:(lra)) | destruct (Hyr ltac:(lra)) ];
      split; intros; repeat split; lra.
Qed.

(** Decides closed order and equality facts on numbers. *)
Ltac qcompute :=
  vm_compute; repeat split; try reflexivity; try discriminate;
  try (intro; discriminate).

Lemma calcRectDimensionFromPoint_bounds_witness :
  in_bounds (_calcRectDimensionFromPoint drag_from_100_100 50 50) 800 600 /\
  width (_calcRectDimensionFromPoint locked_drag_from_100_100 50 20)
  == height (_calcRectDimensionFromPoint locked_drag_from_100_100 50 20).
Proof.
  split.
  - refine (proj1 (calcRectDimensionFromPoint_bounds
                     drag_from_100_100 50 50 100 100 _ _ _ _ _ _) _);
      qcompute.
  - refine (proj1 (proj2 (calcRectDimensionFromPoint_bounds
                            locked_drag_from_100_100 50 20 100 100 _ _ _ _ _ _) _));
      qcompute.
Defined.

(** C1, the claim as stated fails with the shift key held: on an 800x600
    canvas the drag from (100, 100) to (700, 150) gives the square of side
    600 at (100, 100), whose lower edge 700 is below the canvas. *)
Lemma calcRectDimensionFromPoint_leaves_canvas :
  _startX locked_drag_from_100_100 = Some 100 /\
  _startY locked_drag_from_100_100 = Some 100 /\
  _withShiftKey locked_drag_from_100_100 = true /\
  getWidth (canvas locked_drag_from_100_100) == 800 /\
  getHeight (canvas locked_drag_from_100_100) == 600 /\
  Rect_eq (_calcRectDimensionFromPoint locked_drag_from_100_100 700 150)
          {| left := 100; top := 100; width := 600; height := 600 |} /\
  ~ in_bounds (_calcRectDimensionFromPoint locked_drag_from_100_100 700 150)
              800 600.
Proof.
  repeat split; try (vm_compute; reflexivity).
  intros (_ & _ & _ & H). vm_compute in H. apply H. reflexivity.
Qed.

(** C3: [_calcRectDimensionFromPoint] is the spec's [rectFromDrag] for the
    anchor [(_startX, _startY)], the canvas size as bounds and the shift
    flag as aspect lock; without the lock it is exactly
    left = clamp(x, 0, startX), top = clamp(y, 0, startY),
    width = clamp(x, startX, canvasWidth) - left and
    height = clamp(y, startY, canvasHeight) - top; and the drag from
    (100, 100) to (50, 50) without the lock gives
    {left: 50, top: 50, width: 50, height: 50}. *)
Theorem calcRectDimensionFromPoint_is_rectFromDrag :
  (forall (c : Cropper) (x y : Q),
     Rect_eq (_calcRectDimensionFromPoint c x y)
             (rectFromDrag (toNumber (_startX c), toNumber (_startY c)) (x, y)
                           (getWidth (canvas c), getHeight (canvas c))
                           (_withShiftKey c))) /\
  (forall (c : Cropper) (x y : Q),
     _withShiftKey c = false ->
     _calcRectDimensionFromPoint c x y =
     {| left := clamp x 0 (toNumber (_startX c));
        top := clamp y 0 (toNumber (_startY c));
        width := clamp x (toNumber (_startX c)) (getWidth (canvas c))
                 - clamp x 0 (toNumber (_startX c));
        height := clamp y (toNumber (_startY c)) (getHeight (canvas c))
                  - clamp y 0 (toNumber (_startY c)) |}) /\
  (forall c : Cropper,
     _startX c = Some 100 -> _startY c = Some 100 ->
     _withShiftKey c = false ->
     100 <= getWidth (canvas c) -> 100 <= getHeight (canvas c) ->
     Rect_eq (_calcRectDimensionFromPoint c 50 50)
             {| left := 50; top := 50; width := 50; height := 50 |}).
Proof.
  split; [|split].
  - intros c x y.
    unfold _calcRectDimensionFromPoint, rectFromDrag, Rect_eq.
    cbn [fst snd].
    destruct (_withShiftKey c); [|cbn [left top width height]; lra].
    set (sx := toNumber (_startX c)). set (sy := toNumber (_startY c)).
    set (w := clamp x sx (getWidth (canvas c)) - clamp x 0 sx).
    set (h := clamp y sy (getHeight (canvas c)) - clamp y 0 sy).
    unfold Qgeb.
    case_max w h; (case_Qgtb w h; [|case_Qgtb h w]);
      destruct (Qle_bool x sx); destruct (Qle_bool y sy);
      cbn [left top width height]; repeat split; lra.
  - apply calc_unlocked.
  - intros c HX HY Hshift Hw Hh.
    rewrite (calc_unlocked c 50 50 Hshift), HX, HY.
    unfold Rect_eq; cbn [toNumber left top width height].
    assert (E50 : 50 <= 100) by lra.
    assert (I50 : forall m, 100 <= m -> 0 <= 50 <= m) by (intros; lra).
    assert (I100 : forall m, 100 <= m -> 0 <= 100 <= m) by (intros; lra).
    destruct (proj1 (axis_edges 50 100 _ (I100 _ Hw) (I50 _ Hw)) E50) as [E1 E2].
    destruct (proj1 (axis_edges 50 100 _ (I100 _ Hh) (I50 _ Hh)) E50) as [E3 E4].
    repeat split; lra.
Qed.

Lemma calcRectDimensionFromPoint_is_rectFromDrag_witness :
  Rect_eq (_calcRectDimensionFromPoint drag_from_100_100 50 50)
          {| left := 50; top := 50; width := 50; height := 50 |}.
Proof.
  apply (proj2 (proj2 calcRectDimensionFromPoint_is_rectFromDrag)
               drag_from_100_100); qcompute.
Defined.

(* ------------------------------------------------------------------ *)
(** ** What the canvas operations keep *)

Lemma remove_getWidth (cv : Canvas) (obj : option CanvasObject) :
  getWidth (canvas_ops.remove cv obj) = getWidth cv.
Proof.
  unfold canvas_ops.remove.
  destruct obj as [o|]; [|reflexivity].
  destruct (activeObject cv) as [a|]; [|reflexivity].
  destruct (CanvasObject_eqb o a); reflexivity.
Qed.

Lemma remove_getHeight (cv : Canvas) (obj : option CanvasObject) :
  getHeight (canvas_ops.remove cv obj) = getHeight cv.
Proof.
  unfold canvas_ops.remove.
  destruct obj as [o|]; [|reflexivity].
  destruct (activeObject cv) as [a|]; [|reflexivity].
  destruct (CanvasObject_eqb o a); reflexivity.
Qed.

Lemma remove_eventListeners (cv : Canvas) (obj : option CanvasObject) :
  eventListeners (canvas_ops.remove cv obj) = eventListeners cv.
Proof.
  unfold canvas_ops.remove.
  destruct obj as [o|]; [|reflexivity].
  destruct (activeObject cv) as [a|]; [|reflexivity].
  destruct (CanvasObject_eqb o a); reflexivity.
Qed.

Lemma getDefaultCropSize_canvas (c : Cropper) (cv : Canvas) :
  getWidth cv = getWidth (canvas c) -> getHeight cv = getHeight (canvas c) ->
  _getDefaultCropSize (with_canvas c cv) = _getDefaultCropSize c.
Proof.
  intros Hw Hh. unfold _getDefaultCropSize. cbn [canvas graphics with_canvas].
  rewrite Hw, Hh. reflexivity.
Qed.

Lemma getPresetProperties_canvas (c : Cropper) (cv : Canvas) posInfo :
  getWidth cv = getWidth (canvas c) -> getHeight cv = getHeight (canvas c) ->
  _getPresetProperties (with_canvas c cv) posInfo = _getPresetProperties c posInfo.
Proof.
  intros Hw Hh. unfold _getPresetProperties. cbn [canvas with_canvas].
  rewrite Hw, Hh. reflexivity.
Qed.

Lemma calc_canvas (c : Cropper) (cv : Canvas) (x y : Q) :
  getWidth cv = getWidth (canvas c) -> getHeight cv = getHeight (canvas c) ->
  _calcRectDimensionFromPoint (with_canvas c cv) x y
  = _calcRectDimensionFromPoint c x y.
Proof.
  intros Hw Hh. unfold _calcRectDimensionFromPoint.
  cbn [canvas with_canvas _startX _startY _withShiftKey].
  rewrite Hw, Hh. reflexivity.
Qed.

(** The zone after each of the three calls that apply settings. *)
Lemma setCropzonePosition_zone (c : Cropper) (z : Cropzone) posInfo :
  _cropzone c = Some z ->
  _cropzone (fst (setCropzonePosition c posInfo))
    = Some (set z (_getPresetProperties c posInfo)) /\
  snd (setCropzonePosition c posInfo) = Normal tt /\
  updateUI_calls (fst (setCropzonePosition c posInfo)) = updateUI_calls c.
Proof.
  intro Hz. unfold setCropzonePosition.
  cbn [_cropzone with_canvas]. rewrite Hz. cbn [fst snd _cropzone with_canvas with_cropzone updateUI_calls].
  rewrite getPresetProperties_canvas.
  - repeat split.
  - rewrite remove_getWidth. reflexivity.
  - rewrite remove_getHeight. reflexivity.
Qed.

(* ------------------------------------------------------------------ *)
(** ** Applying a position *)






(* ------------------------------------------------------------------ *)
(** ** A preset ratio of zero *)



(* ------------------------------------------------------------------ *)
(** ** The preset tag during a drag *)

Lemma onFabricMouseMove_zone (c : Cropper) (z : Cropzone) (x y : Q) :
  _cropzone c = Some z ->
  past_threshold c x y = true ->
  let settings := mkSettings None (_calcRectDimensionFromPoint c x y) in
  _cropzone (fst (_onFabricMouseMove c x y)) = Some (set z settings) /\
  snd (_onFabricMouseMove c x y) = Normal tt /\
  updateUI_calls (fst (_onFabricMouseMove c x y))
    = if has_updateUI (graphics c)
      then settings :: updateUI_calls c else updateUI_calls c.
Proof.
  intros Hz Hmove settings. unfold past_threshold in Hmove.
  unfold _onFabricMouseMove.
  rewrite Hmove. cbn [_cropzone with_canvas]. rewrite Hz.
  rewrite calc_canvas by (first [apply remove_getWidth | apply remove_getHeight]).
  fold settings. unfold _runAction_updateUI.
  cbn [graphics with_cropzone with_canvas].
  destruct (has_updateUI (graphics c)); repeat split.
Qed.

(** C7 (as amended): a pointer-move update past the threshold gives the
    zone the rectangle of [_calcRectDimensionFromPoint] and leaves its
    presetRatio as it was before the move. *)
Theorem onFabricMouseMove_keeps_presetRatio
    (c : Cropper) (z : Cropzone) (x y : Q) :
  _cropzone c = Some z ->
  past_threshold c x y = true ->
  exists z' : Cropzone,
    _cropzone (fst (_onFabricMouseMove c x y)) = Some z' /\
    geometry z' = _calcRectDimensionFromPoint c x y /\
    presetRatio z' = presetRatio z.
Proof.
  intros Hz Hmove.
  destruct (onFabricMouseMove_zone c z x y Hz Hmove) as (Hzone & _ & _).
  eexists. split; [exact Hzone|]. split; reflexivity.
Qed.

Lemma onFabricMouseMove_keeps_presetRatio_witness :
  exists z' : Cropzone,
    _cropzone (fst (_onFabricMouseMove drag_from_100_100 300 250)) = Some z' /\
    geometry z' = _calcRectDimensionFromPoint drag_from_100_100 300 250 /\
    presetRatio z' = None.
Proof.
  apply (onFabricMouseMove_keeps_presetRatio drag_from_100_100
           (new_Cropzone (_getDefaultCropSize drag_from_100_100)) 300 250);
    reflexivity.
Defined.

(** C7, the claim as stated fails: after the square preset, a drag from
    (50, 100) whose pointer moved to (90, 300), 240 away from the anchor,
    has set the zone to the dragged rectangle, and the zone's presetRatio
    is still 1. *)
Lemma drag_does_not_clear_presetRatio :
  exists z : Cropzone,
    _cropzone (run 2 (example_cropper 800 600) preset_then_drag) = Some z /\
    Rect_eq (geometry z)
            {| left := 50; top := 100; width := 40; height := 200 |} /\
    presetRatio z = Some (Finite 1) /\
    presetRatio z <> None.
Proof.
  eexists. split; [vm_compute; reflexivity|].
  split; [qcompute|]. split; [reflexivity | discriminate].
Qed.

(* ------------------------------------------------------------------ *)
(** ** The shift flag *)



(* ------------------------------------------------------------------ *)
(** ** Reading the crop rectangle *)

Lemma isValid_true (z : Cropzone) :
  isValid z = true <-> 0 < width (geometry z) /\ 0 < height (geometry z).
Proof.
  unfold isValid. rewrite andb_true_iff, !Qgtb_true. reflexivity.
Qed.

(** With a zone, [getCropzoneRect] returns without a throw: [null] for an
    invalid zone, in particular one of zero area, the zone's rectangle for
    a valid one. *)
Lemma getCropzoneRect_with_zone (c : Cropper) (z : Cropzone) :
  _cropzone c = Some z ->
  (isValid z = false -> getCropzoneRect c = Normal None) /\
  (width (geometry z) * height (geometry z) == 0 ->
   getCropzoneRect c = Normal None) /\
  (isValid z = true ->
   getCropzoneRect c = Normal (Some {| left := left (geometry z);
                                       top := top (geometry z);
                                       width := width (geometry z);
                                       height := height (geometry z) |})).
Proof.
  intro Hz. unfold getCropzoneRect. rewrite Hz.
  split; [|split].
  - intros ->. reflexivity.
  - intro Harea. destruct (isValid z) eqn:E; [|reflexivity].
    apply isValid_true in E. destruct E as [Hw Hh].
    apply Qmult_integral in Harea. lra.
  - intros ->. reflexivity.
Qed.

(** C2, the code at the failing input: with no zone, before [start] or
    after [end], [getCropzoneRect] reads [isValid] of [null] and throws;
    it does not return [null]. *)
Lemma getCropzoneRect_without_zone :
  _cropzone (example_cropper 800 600) = None /\
  getCropzoneRect (example_cropper 800 600) = TypeError /\
  getCropzoneRect (run 2 (example_cropper 800 600) [call_start; call_end])
    = TypeError /\
  getCropzoneRect (example_cropper 800 600) <> Normal None.
Proof. repeat split. discriminate. Qed.

(* ------------------------------------------------------------------ *)
(** ** The updateUI notification *)


(** C5, the code at the failing input: in a started session whose crop
    actions include updateUI, [setCropzonePosition] changes the zone's
    rectangle and calls updateUI not once, while [setCropzoneRect] in the
    same state calls it. *)
Lemma setCropzonePosition_does_not_call_updateUI :
  let posInfo := Some (mkPosInfo (Some 10) (Some 20) (Some 300) (Some 200)) in
  let c' := fst (setCropzonePosition started_800_600 posInfo) in
  has_updateUI (graphics started_800_600) = true /\
  updateUI_calls started_800_600 = [] /\
  (exists z z' : Cropzone,
     _cropzone started_800_600 = Some z /\ _cropzone c' = Some z' /\
     Rect_eq (geometry z)
             {| left := 200; top := 150; width := 400; height := 300 |} /\
     Rect_eq (geometry z')
             {| left := 10; top := 20; width := 300; height := 200 |}) /\
  updateUI_calls c' = [] /\
  length (updateUI_calls (fst (setCropzoneRect 2 started_800_600 (Some 1)))) = 1%nat.
Proof.
  cbv zeta. split; [reflexivity|]. split; [reflexivity|]. split.
  - eexists. eexists. split; [reflexivity|]. split; [vm_compute; reflexivity|].
    split; qcompute.
  - split; reflexivity.
Qed.

(* ------------------------------------------------------------------ *)
(** ** Listeners *)

Lemma count_app {A : Type} (p : A -> bool) (l1 l2 : list A) :
  count p (l1 ++ l2) = (count p l1 + count p l2)%nat.
Proof. unfold count. rewrite filter_app, length_app. reflexivity. Qed.

Lemma count_remove_first_same {A : Type} (p : A -> bool) (l : list A) :
  count p (remove_first p l) = Nat.pred (count p l).
Proof.
  unfold count. induction l as [|a l IH]; [reflexivity|].
  cbn [remove_first filter]. destruct (p a) eqn:E.
  - reflexivity.
  - cbn [filter]. rewrite E. exact IH.
Qed.

Lemma count_remove_first_other {A : Type} (p q : A -> bool) (l : list A) :
  (forall a, q a = true -> p a = false) ->
  count p (remove_first q l) = count p l.
Proof.
  intro Hpq. unfold count. induction l as [|a l IH]; [reflexivity|].
  cbn [remove_first filter]. destruct (q a) eqn:E.
  - rewrite (Hpq a E). reflexivity.
  - cbn [filter]. destruct (p a); cbn [length]; rewrite IH; reflexivity.
Qed.

Lemma listener_eqb_other (k1 k2 a : CanvasEvent * Handler) :
  listener_eqb CanvasEvent_eqb k1 k2 = false ->
  listener_eqb CanvasEvent_eqb k2 a = true ->
  listener_eqb CanvasEvent_eqb k1 a = false.
Proof.
  destruct k1 as [[] []], k2 as [[] []], a as [[] []];
    cbn; intros; congruence.
Qed.

(** Registrations of one handler are not touched by [on] and [off] of
    another. *)
Lemma registered_on (cv : Canvas) (name name' : CanvasEvent) (h h' : Handler) :
  canvas_ops.registered (canvas_ops.on cv name' h') name h
  = (canvas_ops.registered cv name h
     + if listener_eqb CanvasEvent_eqb (name, h) (name', h') then 1 else 0)%nat.
Proof.
  unfold canvas_ops.registered, canvas_ops.on.
  cbn [eventListeners canvas_ops.with_eventListeners].
  rewrite count_app. unfold count at 2. cbn [filter].
  destruct (listener_eqb CanvasEvent_eqb (name, h) (name', h')); reflexivity.
Qed.

Lemma registered_off (cv : Canvas) (name name' : CanvasEvent) (h h' : Handler) :
  canvas_ops.registered (canvas_ops.off cv name' h') name h
  = if listener_eqb CanvasEvent_eqb (name, h) (name', h')
    then Nat.pred (canvas_ops.registered cv name h)
    else canvas_ops.registered cv name h.
Proof.
  unfold canvas_ops.registered, canvas_ops.off.
  cbn [eventListeners canvas_ops.with_eventListeners].
  destruct (listener_eqb CanvasEvent_eqb (name, h) (name', h')) eqn:E.
  - assert (name' = name /\ h' = h) as [-> ->].
    { destruct name, name', h, h'; cbn in E; try discriminate; split; reflexivity. }
    apply count_remove_first_same.
  - apply count_remove_first_other. intros a. apply listener_eqb_other. exact E.
Qed.

Lemma document_removed (ls : list (DocumentEvent * Handler))
    (name name' : DocumentEvent) (h h' : Handler) :
  document_ops.is_registered
    (document_ops.removeListener ls name' h') name h
  = document_ops.is_registered ls name h
    && negb (listener_eqb DocumentEvent_eqb (name, h) (name', h')).
Proof.
  unfold document_ops.is_registered, document_ops.removeListener.
  induction ls as [|a ls IH]; [reflexivity|].
  cbn [filter existsb].
  destruct (listener_eqb DocumentEvent_eqb (name', h') a) eqn:E1; cbn [negb existsb];
    rewrite IH;
    destruct (listener_eqb DocumentEvent_eqb (name, h) a) eqn:E2; cbn [orb andb];
    try reflexivity;
    destruct name, name', h, h', a as [[] []]; cbn in *; try discriminate;
    try reflexivity;
    destruct (existsb _ ls); reflexivity.
Qed.


Lemma same_session_refl (c : Cropper) : same_session c c.
Proof. repeat split. Qed.

Lemma same_session_trans (c1 c2 c3 : Cropper) :
  same_session c1 c2 -> same_session c2 c3 -> same_session c1 c3.
Proof.
  intros (A1 & A2 & A3) (B1 & B2 & B3). repeat split; congruence.
Qed.

Lemma same_session_inv (c c' : Cropper) :
  same_session c c' -> session_inv c -> session_inv c'.
Proof.
  intros (Hz & Hr & Hd) [I1 I2]. unfold session_inv.
  rewrite Hz, Hr, Hd. split; assumption.
Qed.

Lemma registered_remove (cv : Canvas) obj name h :
  canvas_ops.registered (canvas_ops.remove cv obj) name h
  = canvas_ops.registered cv name h.
Proof.
  unfold canvas_ops.registered. rewrite remove_eventListeners. reflexivity.
Qed.

Lemma onFabricMouseDown_same (c : Cropper) target x y :
  same_session c (_onFabricMouseDown c target x y).
Proof.
  unfold _onFabricMouseDown. destruct target; [apply same_session_refl|].
  repeat split. unfold canvas_ops.registered. cbn -[count].
  rewrite !count_app. cbn. lia.
Qed.

Lemma onFabricMouseUp_same (c : Cropper) :
  same_session c (fst (_onFabricMouseUp c)).
Proof.
  unfold _onFabricMouseUp.
  destruct (canvas_ops.setActiveObject_returns _ _); cbn [fst]; repeat split.
  cbn [canvas with_canvas]. rewrite !registered_off. reflexivity.
Qed.

Lemma onFabricMouseMove_same (c : Cropper) x y :
  same_session c (fst (_onFabricMouseMove c x y)).
Proof.
  unfold _onFabricMouseMove, same_session, has_zone.
  destruct (Qgtb _ MOUSE_MOVE_THRESHOLD); [|repeat split].
  cbn [_cropzone with_canvas].
  destruct (_cropzone c) as [z|] eqn:Hz; cbn [fst].
  - unfold _runAction_updateUI. cbn [graphics with_cropzone with_canvas].
    destruct (has_updateUI (graphics c)); repeat split;
      unfold canvas_ops.registered; cbn; rewrite remove_eventListeners;
      reflexivity.
  - cbn. rewrite Hz. repeat split. apply registered_remove.
Qed.

Lemma setCropzoneRect_same (d : nat) (c : Cropper) presetRatio :
  same_session c (fst (setCropzoneRect d c presetRatio)).
Proof.
  unfold setCropzoneRect, same_session, has_zone.
  cbn [_cropzone with_canvas].
  destruct (_cropzone c) as [z|] eqn:Hz; cbn [fst].
  - unfold _runAction_updateUI. cbn [graphics with_cropzone with_canvas].
    destruct (has_updateUI (graphics c)); repeat split;
      unfold canvas_ops.registered; cbn; rewrite remove_eventListeners;
      reflexivity.
  - cbn [_cropzone with_canvas canvas documentListeners]. rewrite Hz.
    repeat split. rewrite registered_remove. reflexivity.
Qed.

Lemma setCropzonePosition_same (c : Cropper) posInfo :
  same_session c (fst (setCropzonePosition c posInfo)).
Proof.
  unfold setCropzonePosition, same_session, has_zone.
  cbn [_cropzone with_canvas].
  destruct (_cropzone c) as [z|] eqn:Hz; cbn [fst].
  - repeat split.
    unfold canvas_ops.registered; cbn; rewrite remove_eventListeners;
      reflexivity.
  - cbn [_cropzone with_canvas canvas documentListeners]. rewrite Hz.
    repeat split. rewrite registered_remove. reflexivity.
Qed.

Lemma call_times_same (n : nat) (h : Cropper -> Cropper * Completion unit) :
  (forall c, same_session c (fst (h c))) ->
  forall c, same_session c (fst (call_times n h c)).
Proof.
  intro Hh. induction n as [|n IH]; intro c; cbn [call_times].
  - apply same_session_refl.
  - specialize (Hh c). destruct (h c) as [c' []]; cbn [fst] in *.
    + eapply same_session_trans; [exact Hh | apply IH].
    + exact Hh.
Qed.

Lemma start_inv (c : Cropper) : session_inv c -> session_inv (start c).
Proof.
  intros [I1 I2]. unfold start.
  destruct (_cropzone c) as [z|] eqn:Hz; [split; assumption|].
  unfold session_inv, has_zone in *. rewrite Hz in I1.
  cbn [_cropzone with_canvas with_cropzone with_documentListeners canvas].
  split; [|discriminate].
  unfold canvas_ops.registered in *. cbn -[count]. rewrite count_app, I1.
  reflexivity.
Qed.

Lemma end_inv (c : Cropper) : session_inv c -> session_inv (end_ c).
Proof.
  intros [I1 I2]. unfold end_.
  destruct (_cropzone c) as [z|] eqn:Hz; [|split; assumption].
  unfold session_inv, has_zone in *. rewrite Hz in I1.
  cbn [_cropzone with_canvas with_cropzone with_documentListeners canvas
       documentListeners].
  split.
  - unfold cropzone_ref. rewrite Hz.
    unfold canvas_ops.registered in *. cbn -[count canvas_ops.remove].
    rewrite count_remove_first_same, remove_eventListeners, I1. reflexivity.
  - intros _. rewrite !document_removed. cbn.
    rewrite !andb_false_r. split; reflexivity.
Qed.

Lemma step_inv (d : nat) (c : Cropper) (e : Event) :
  session_inv c -> session_inv (fst (step d c e)).
Proof.
  intro I.
  destruct e as [| |v|ratio|posInfo|target x y|x y| |keyCode|keyCode];
    cbn [step returns fst].
  - apply start_inv, I.
  - apply end_inv, I.
  - refine (same_session_inv c _ _ I). unfold changeVisibility, same_session, has_zone.
    destruct (_cropzone c) eqn:Hz; cbn; rewrite ?Hz; repeat split.
  - exact (same_session_inv c _ (setCropzoneRect_same d c ratio) I).
  - exact (same_session_inv c _ (setCropzonePosition_same c posInfo) I).
  - refine (same_session_inv c _ _ I). apply call_times_same.
    intro c0. apply onFabricMouseDown_same.
  - refine (same_session_inv c _ _ I). apply call_times_same.
    intro c0. apply onFabricMouseMove_same.
  - refine (same_session_inv c _ _ I). apply call_times_same.
    intro c0. apply onFabricMouseUp_same.
  - refine (same_session_inv c _ _ I).
    destruct (document_ops.is_registered _ _ _); cbn [fst returns];
      [|apply same_session_refl].
    unfold _onKeyDown. destruct (Z.eqb _ _); repeat split.
  - refine (same_session_inv c _ _ I).
    destruct (document_ops.is_registered _ _ _); cbn [fst returns];
      [|apply same_session_refl].
    unfold _onKeyUp. destruct (Z.eqb _ _); repeat split.
Qed.

Lemma run_inv (d : nat) (events : list Event) :
  forall c, session_inv c -> session_inv (run d c events).
Proof.
  induction events as [|e events IH]; intros c I; cbn [run]; [exact I|].
  apply IH, step_inv, I.
Qed.

(** Whatever happened in the sessions of a cropper, after [end] there is no
    zone and the three listeners [start] registers are not registered. *)
Lemma end_removes_start_listeners
    (d : nat) (g : Graphics) (cv : Canvas) (events : list Event) :
  canvas_ops.registered cv mouse_down mousedown = 0%nat ->
  let c := end_ (run d (constructor g cv) events) in
  _cropzone c = None /\
  canvas_ops.registered (canvas c) mouse_down mousedown = 0%nat /\
  document_ops.is_registered (documentListeners c) doc_keydown keydown = false /\
  document_ops.is_registered (documentListeners c) doc_keyup keyup = false.
Proof.
  intros Hcv c.
  assert (I : session_inv c).
  { apply end_inv, run_inv. split; [exact Hcv|]. intros _. split; reflexivity. }
  assert (Hz : _cropzone c = None).
  { subst c. unfold end_. destruct (_cropzone (run d (constructor g cv) events)) eqn:E.
    - reflexivity.
    - exact E. }
  destruct I as [I1 I2]. unfold has_zone in *. rewrite Hz in *.
  destruct (I2 eq_refl) as [H1 H2]. repeat split; assumption.
Qed.

(** C6, the code at the failing input: when [end] is called between a
    pointer-down and its pointer-up, the zone is gone and the pointer-down
    listener too, but the pointer-move and pointer-up listeners of the
    drag are still registered; the next pointer-move then runs the handler
    without a zone and throws.  When the pointer-up comes before [end], no
    listener is left. *)
Lemma end_during_drag_leaves_listeners :
  let c := run 2 (example_cropper 800 600) end_during_drag in
  _cropzone c = None /\
  canvas_ops.registered (canvas c) mouse_down mousedown = 0%nat /\
  canvas_ops.registered (canvas c) mouse_move mousemove = 1%nat /\
  canvas_ops.registered (canvas c) mouse_up mouseup = 1%nat /\
  eventListeners (canvas c) = [(mouse_move, mousemove); (mouse_up, mouseup)] /\
  documentListeners c = [] /\
  snd (step 2 c (fire_mouse_move 300 300)) = TypeError /\
  eventListeners
    (canvas (run 2 (example_cropper 800 600)
                 [call_start; fire_mouse_down false 100 100; fire_mouse_up;
                  call_end])) = [].
Proof. cbv zeta. repeat split. Qed.

(* ------------------------------------------------------------------ *)
(** ** Rounding to a number of decimal places *)

Lemma pow10_pos (d : nat) : 0 < inject_Z (pow10 d).
Proof.
  unfold pow10. change 0 with (inject_Z 0). rewrite <- Zlt_Qlt.
  apply Z.pow_pos_nonneg; lia.
Qed.

Lemma Qdiv_le_compat (a b p : Q) : 0 < p -> a <= b -> a / p <= b / p.
Proof.
  intros Hp H. unfold Qdiv. apply Qmult_le_compat_r; [exact H|].
  apply Qlt_le_weak, Qinv_lt_0_compat, Hp.
Qed.

Lemma roundHalfUp_bounds (v : Q) :
  v - (1 # 2) < inject_Z (roundHalfUp v) <= v + (1 # 2).
Proof.
  unfold roundHalfUp. split.
  - pose proof (Qlt_floor (v + (1 # 2))) as H.
    rewrite inject_Z_plus in H. change (inject_Z 1) with 1 in H. lra.
  - apply Qfloor_le.
Qed.

Lemma roundHalfUp_integer (z : Z) : roundHalfUp (inject_Z z) = z.
Proof.
  unfold roundHalfUp, Qfloor, inject_Z, Qplus. cbn.
  symmetry. apply Z.div_unique with (r := 1%Z); lia.
Qed.

Lemma roundHalfUp_comp (v v' : Q) : v == v' -> roundHalfUp v = roundHalfUp v'.
Proof. intro E. unfold roundHalfUp. rewrite E. reflexivity. Qed.

Lemma roundHalfUp_mono (v v' : Q) :
  v <= v' -> (roundHalfUp v <= roundHalfUp v')%Z.
Proof. intro H. unfold roundHalfUp. apply Qfloor_resp_le. lra. Qed.

Lemma fixFloatingPoint_nonneg (d : nat) (v : Q) :
  0 <= v ->
  fixFloatingPoint d v
  = inject_Z (roundHalfUp (v * inject_Z (pow10 d))) / inject_Z (pow10 d).
Proof.
  intro Hv. unfold fixFloatingPoint.
  apply Qle_bool_iff in Hv. rewrite Hv. reflexivity.
Qed.

Lemma fixFloatingPoint_comp (d : nat) (v v' : Q) :
  v == v' -> fixFloatingPoint d v == fixFloatingPoint d v'.
Proof.
  intro E. unfold fixFloatingPoint.
  assert (Hb : Qle_bool 0 v = Qle_bool 0 v').
  { destruct (Qle_bool 0 v) eqn:E1, (Qle_bool 0 v') eqn:E2; try reflexivity.
    - apply Qle_bool_iff in E1. rewrite E in E1. apply Qle_bool_iff in E1. congruence.
    - apply Qle_bool_iff in E2. rewrite <- E in E2. apply Qle_bool_iff in E2. congruence. }
  rewrite <- Hb.
  destruct (Qle_bool 0 v).
  - rewrite (roundHalfUp_comp (v * inject_Z (pow10 d)) (v' * inject_Z (pow10 d)))
      by (rewrite E; reflexivity).
    reflexivity.
  - rewrite (roundHalfUp_comp (- v * inject_Z (pow10 d)) (- v' * inject_Z (pow10 d)))
      by (rewrite E; reflexivity).
    reflexivity.
Qed.

(** The rounded value is within half a unit of the last place kept. *)
Lemma fixFloatingPoint_error (d : nat) (v : Q) :
  0 <= v ->
  Qabs (fixFloatingPoint d v - v) <= (1 # 2) / inject_Z (pow10 d).
Proof.
  intro Hv. rewrite (fixFloatingPoint_nonneg d v Hv).
  pose proof (pow10_pos d) as Hp. set (p := inject_Z (pow10 d)) in *.
  destruct (roundHalfUp_bounds (v * p)) as [Hlo Hhi].
  set (n := inject_Z (roundHalfUp (v * p))) in *.
  assert (E : n / p - v == (n - v * p) / p) by (field; lra).
  rewrite E. apply Qabs_Qle_condition. split.
  - assert (E' : - ((1 # 2) / p) == (- (1 # 2)) / p) by (field; lra).
    rewrite E'. apply Qdiv_le_compat; [exact Hp | lra].
  - apply Qdiv_le_compat; [exact Hp | lra].
Qed.

Lemma fixFloatingPoint_mono (d : nat) (v v' : Q) :
  0 <= v -> v <= v' -> fixFloatingPoint d v <= fixFloatingPoint d v'.
Proof.
  intros Hv Hle.
  rewrite (fixFloatingPoint_nonneg d v Hv).
  rewrite (fixFloatingPoint_nonneg d v') by lra.
  pose proof (pow10_pos d) as Hp.
  apply Qdiv_le_compat; [exact Hp|].
  rewrite <- Zle_Qle. apply roundHalfUp_mono.
  apply Qmult_le_compat_r; [exact Hle | lra].
Qed.

(** Whole numbers are left as they are. *)
Lemma fixFloatingPoint_integer (d : nat) (z : Z) :
  (0 <= z)%Z -> fixFloatingPoint d (inject_Z z) == inject_Z z.
Proof.
  intro Hz. rewrite fixFloatingPoint_nonneg
    by (change 0 with (inject_Z 0); rewrite <- Zle_Qle; exact Hz).
  pose proof (pow10_pos d) as Hp.
  rewrite (roundHalfUp_comp _ (inject_Z (z * pow10 d)))
    by (rewrite inject_Z_mult; reflexivity).
  rewrite roundHalfUp_integer, inject_Z_mult.
  field. lra.
Qed.

Lemma fixFloatingPoint_nonneg_result (d : nat) (v : Q) :
  0 <= v -> 0 <= fixFloatingPoint d v.
Proof.
  intro Hv.
  assert (E : 0 == fixFloatingPoint d (inject_Z 0))
    by (symmetry; apply fixFloatingPoint_integer; lia).
  rewrite E. apply fixFloatingPoint_mono; [|exact Hv].
  change (inject_Z 0) with 0. lra.
Qed.

(* ------------------------------------------------------------------ *)
(** ** The preset-ratio rectangle *)

Lemma Qdiv_2 (a : Q) : a / 2 == a * (1 # 2).
Proof. reflexivity. Qed.

(** [getScale] scales a positive size down into a positive bound, and
    only down. *)
Lemma getScale_fits (value bound : Q) :
  0 < value -> 0 < bound ->
  0 < getScale value bound <= 1 /\ value * getScale value bound <= bound.
Proof.
  intros Hv Hb. unfold getScale. case_Qgtb value bound.
  - assert (E1 : value * (bound / value) == bound) by (field; lra).
    assert (H0 : 0 < bound / value)
      by (apply Qlt_shift_div_l; [exact Hv | lra]).
    assert (H1 : bound / value <= 1)
      by (apply Qle_shift_div_r; [exact Hv | lra]).
    rewrite E1. repeat split; lra.
  - repeat split; lra.
Qed.

(** The sizes before rounding: they have the ratio and fit the canvas. *)
Lemma preset_exact_sizes (maxWidth maxHeight ratio : Q) :
  0 < ratio -> 0 < maxWidth -> 0 < maxHeight ->
  let standardSize := if Qgeb maxWidth maxHeight then maxWidth else maxHeight in
  let scaleWidth := getScale (standardSize * ratio) maxWidth in
  let scaleHeight := getScale (standardSize * scaleWidth) maxHeight in
  let w := standardSize * ratio * scaleWidth * scaleHeight in
  let h := standardSize * scaleWidth * scaleHeight in
  0 < w <= maxWidth /\ 0 < h <= maxHeight /\ w / h == ratio.
Proof.
  intros Hr HW HH standardSize scaleWidth scaleHeight w h.
  assert (Hstd : 0 < standardSize)
    by (subst standardSize; destruct (Qgeb maxWidth maxHeight); assumption).
  assert (Hw0 : 0 < standardSize * ratio)
    by (apply Qmult_lt_0_compat; assumption).
  destruct (getScale_fits (standardSize * ratio) maxWidth Hw0 HW)
    as [[Hs1 Hs1'] Hfit1].
  fold scaleWidth in Hs1, Hs1', Hfit1.
  assert (Hh1 : 0 < standardSize * scaleWidth)
    by (apply Qmult_lt_0_compat; assumption).
  destruct (getScale_fits (standardSize * scaleWidth) maxHeight Hh1 HH)
    as [[Hs2 Hs2'] Hfit2].
  fold scaleHeight in Hs2, Hs2', Hfit2.
  assert (Hw1 : 0 < standardSize * ratio * scaleWidth)
    by (apply Qmult_lt_0_compat; assumption).
  assert (Hh : 0 < h) by (subst h; apply Qmult_lt_0_compat; assumption).
  assert (Hw : 0 < w) by (subst w; apply Qmult_lt_0_compat; assumption).
  assert (Hwle : w <= standardSize * ratio * scaleWidth).
  { subst w.
    setoid_replace (standardSize * ratio * scaleWidth)
      with (standardSize * ratio * scaleWidth * 1) at 2 by ring.
    apply Qmult_le_l; assumption. }
  repeat split; try assumption; try lra.
  subst w h. field.
  repeat split; intro E; rewrite E in *; lra.
Qed.

(** C4 (as amended): for a ratio > 0 on a canvas of positive width and
    height, the rectangle of [_getPresetPropertiesForCropSize] carries
    presetRatio = ratio and is centered; its width and height are the
    roundings of exact sizes w and h with w / h = ratio, w <= canvasWidth
    and h <= canvasHeight, each at most half a unit of the last decimal
    place kept away from them.  So width / height = ratio where the rounding
    leaves w and h as they are, and the rectangle lies in the canvas where
    the rounding leaves the canvas width and height as they are (whole
    numbers).  For ratio 1 on an 800x600 canvas it is width = height = 600,
    left = 100, top = 0. *)
Theorem getPresetPropertiesForCropSize_ratio :
  (forall (d : nat) (c : Cropper) (ratio : Q),
     0 < ratio -> 0 < getWidth (canvas c) -> 0 < getHeight (canvas c) ->
     let s := _getPresetPropertiesForCropSize d c ratio in
     s_presetRatio s = Some (Some (Finite ratio)) /\
     left (s_rect s) = (getWidth (canvas c) - width (s_rect s)) / 2 /\
     top (s_rect s) = (getHeight (canvas c) - height (s_rect s)) / 2 /\
     exists w h : Q,
       0 < w <= getWidth (canvas c) /\
       0 < h <= getHeight (canvas c) /\
       w / h == ratio /\
       width (s_rect s) = fixFloatingPoint d w /\
       height (s_rect s) = fixFloatingPoint d h /\
       Qabs (width (s_rect s) - w) <= (1 # 2) / inject_Z (pow10 d) /\
       Qabs (height (s_rect s) - h) <= (1 # 2) / inject_Z (pow10 d) /\
       (fixFloatingPoint d w == w -> fixFloatingPoint d h == h ->
        width (s_rect s) / height (s_rect s) == ratio) /\
       (fixFloatingPoint d (getWidth (canvas c)) == getWidth (canvas c) ->
        fixFloatingPoint d (getHeight (canvas c)) == getHeight (canvas c) ->
        in_bounds (s_rect s) (getWidth (canvas c)) (getHeight (canvas c)))) /\
  (forall (d : nat) (c : Cropper),
     getWidth (canvas c) = 800 -> getHeight (canvas c) = 600 ->
     Rect_eq (s_rect (_getPresetPropertiesForCropSize d c 1))
             {| left := 100; top := 0; width := 600; height := 600 |}).
Proof.
  split.
  - intros d c ratio Hr HW HH s.
    split; [reflexivity|]. split; [reflexivity|]. split; [reflexivity|].
    destruct (preset_exact_sizes _ _ ratio Hr HW HH) as (Hw & Hh & Hratio).
    cbv zeta in Hw, Hh, Hratio.
    match type of Hratio with ?w / ?h == _ => exists w, h end.
    split; [exact Hw|]. split; [exact Hh|]. split; [exact Hratio|].
    split; [reflexivity|]. split; [reflexivity|].
    subst s. cbn [s_rect width height left top _getPresetPropertiesForCropSize].
    split; [apply fixFloatingPoint_error; lra|].
    split; [apply fixFloatingPoint_error; lra|].
    split.
    + intros Ew Eh. rewrite Ew, Eh. exact Hratio.
    + intros EW EH. unfold in_bounds. cbn [left top width height].
      match type of Hw with
      | 0 < ?w <= _ =>
          pose proof (fixFloatingPoint_mono d w _ ltac:(lra) (proj2 Hw)) as Mw
      end.
      match type of Hh with
      | 0 < ?h <= _ =>
          pose proof (fixFloatingPoint_mono d h _ ltac:(lra) (proj2 Hh)) as Mh
      end.
      rewrite EW in Mw. rewrite EH in Mh.
      match type of Mw with ?fw <= _ => set (width2 := fw) in * end.
      match type of Mh with ?fh <= _ => set (height2 := fh) in * end.
      clearbody width2 height2. clear Hw Hh Hratio.
      rewrite !Qdiv_2. repeat split; lra.
  - intros d c HW HH. unfold _getPresetPropertiesForCropSize, Rect_eq.
    rewrite HW, HH. cbn [s_rect left top width height].
    change (Qgeb 800 600) with true. cbv iota.
    change (getScale (800 * 1) 800) with 1.
    change (getScale (800 * 1) 600) with (600 / (800 * 1)).
    assert (E : fixFloatingPoint d (800 * 1 * 1 * (600 / (800 * 1))) == 600).
    { rewrite (fixFloatingPoint_comp d _ (inject_Z 600)) by (vm_compute; reflexivity).
      apply fixFloatingPoint_integer. lia. }
    assert (E' : fixFloatingPoint d (800 * 1 * (600 / (800 * 1))) == 600).
    { rewrite (fixFloatingPoint_comp d _ (inject_Z 600)) by (vm_compute; reflexivity).
      apply fixFloatingPoint_integer. lia. }
    rewrite E, E'. repeat split; vm_compute; reflexivity.
Qed.

Lemma getPresetPropertiesForCropSize_ratio_witness :
  (let r := s_rect (_getPresetPropertiesForCropSize
                      2 (example_cropper 800 600) (3 # 2)) in
   exists w h : Q,
     w / h == 3 # 2 /\
     Qabs (width r - w) <= (1 # 2) / 100 /\
     Qabs (height r - h) <= (1 # 2) / 100) /\
  Rect_eq (s_rect (_getPresetPropertiesForCropSize 2 (example_cropper 800 600) 1))
          {| left := 100; top := 0; width := 600; height := 600 |}.
Proof.
  split.
  - destruct (proj1 getPresetPropertiesForCropSize_ratio 2%nat
                (example_cropper 800 600) (3 # 2))
      as (_ & _ & _ & w & h & _ & _ & Hr & _ & _ & Hw & Hh & _);
      [qcompute | qcompute | qcompute |].
    exists w, h. split; [exact Hr|]. split; [exact Hw | exact Hh].
  - apply (proj2 getPresetPropertiesForCropSize_ratio 2%nat
                 (example_cropper 800 600));
      reflexivity.
Defined.

(** C4, the claim as stated fails: with two decimal places kept, the ratio
    3 : 2 on an 800x600 canvas gives width 800 and height 533.33, whose
    quotient is not 3/2; and the ratio 1000000 gives height 0. *)
Lemma getPresetPropertiesForCropSize_ratio_lost :
  let r := s_rect (_getPresetPropertiesForCropSize 2 (example_cropper 800 600) (3 # 2)) in
  width r == 800 /\
  height r == 53333 # 100 /\
  ~ width r / height r == 3 # 2 /\
  height (s_rect (_getPresetPropertiesForCropSize
                    2 (example_cropper 800 600) 1000000)) == 0.
Proof.
  cbv zeta. split; [vm_compute; reflexivity|]. split; [vm_compute; reflexivity|].
  split; [|vm_compute; reflexivity].
  intro H. vm_compute in H. discriminate H.
Qed.

Lemma pow10_mod_3 (d : nat) : (pow10 d mod 3 = 1)%Z.
Proof.
  unfold pow10. induction d as [|d IH]; [reflexivity|].
  rewrite Nat2Z.inj_succ, Z.pow_succ_r by lia.
  rewrite Z.mul_mod, IH by lia. reflexivity.
Qed.

(** The same for any number of decimal places kept: the exact height for
    the ratio 3 : 2 on an 800x600 canvas is 1600/3, which no rounding to
    decimal places gives. *)
Lemma getPresetPropertiesForCropSize_ratio_lost_any_digits (d : nat) :
  let r := s_rect (_getPresetPropertiesForCropSize d (example_cropper 800 600) (3 # 2)) in
  ~ width r / height r == 3 # 2.
Proof.
  cbv zeta. unfold _getPresetPropertiesForCropSize.
  cbn [s_rect width height canvas example_cropper constructor example_canvas
       getWidth getHeight].
  change (Qgeb 800 600) with true. cbv iota.
  change (getScale (800 * (3 # 2)) 800) with (800 / (800 * (3 # 2))).
  change (getScale (800 * (800 / (800 * (3 # 2)))) 600) with 1.
  assert (Ew : fixFloatingPoint d (800 * (3 # 2) * (800 / (800 * (3 # 2))) * 1) == 800).
  { rewrite (fixFloatingPoint_comp d _ (inject_Z 800)) by (vm_compute; reflexivity).
    apply fixFloatingPoint_integer. lia. }
  rewrite Ew.
  rewrite (fixFloatingPoint_comp d _ (1600 # 3)) by (vm_compute; reflexivity).
  rewrite fixFloatingPoint_nonneg by (vm_compute; discriminate).
  pose proof (pow10_pos d) as Hp.
  set (n := roundHalfUp ((1600 # 3) * inject_Z (pow10 d))).
  set (q := inject_Z n / inject_Z (pow10 d)).
  intro H.
  assert (Hq0 : ~ q == 0).
  { intro E. rewrite E in H. vm_compute in H. discriminate H. }
  assert (Hq : q == 1600 # 3).
  { assert (E : 800 / q * q == 800) by (field; exact Hq0).
    rewrite H in E. lra. }
  assert (Hn : q * inject_Z (pow10 d) == inject_Z n)
    by (subst q; field; lra).
  rewrite Hq in Hn.
  assert (Hz : inject_Z (1600 * pow10 d) == inject_Z (3 * n)).
  { rewrite !inject_Z_mult. change (inject_Z 1600) with 1600.
    change (inject_Z 3) with 3. lra. }
  apply (proj1 (inject_Z_injective _ _)) in Hz.
  assert (Hm : ((1600 * pow10 d) mod 3 = 1)%Z).
  { rewrite Z.mul_mod, pow10_mod_3 by lia. reflexivity. }
  rewrite Hz in Hm. rewrite Z.mul_comm, Z.mod_mul in Hm by lia. discriminate Hm.
Qed.

(* ------------------------------------------------------------------ *)
(** ** More on the drag geometry *)

(** X1: Without the shift key the rectangle of a drag stays in the canvas
    wherever the pointer is, also outside of the canvas, as long as the
    anchor is in the canvas; its width and height are not negative and it
    contains the anchor. *)
Theorem calcRectDimensionFromPoint_unlocked_any_pointer
    (c : Cropper) (x y startX startY : Q) :
  _startX c = Some startX -> _startY c = Some startY ->
  _withShiftKey c = false ->
  0 <= startX <= getWidth (canvas c) ->
  0 <= startY <= getHeight (canvas c) ->
  let r := _calcRectDimensionFromPoint c x y in
  in_bounds r (getWidth (canvas c)) (getHeight (canvas c)) /\
  0 <= width r /\ 0 <= height r /\
  left r <= startX <= left r + width r /\
  top r <= startY <= top r + height r.
Proof.
  intros HX HY Hshift Hsx Hsy r. subst r.
  rewrite (calc_unlocked c x y Hshift), HX, HY.
  unfold in_bounds. cbn [toNumber left top width height].
  pose proof (clamp_ordered x 0 startX (proj1 Hsx)) as Hl.
  pose proof (clamp_ordered x startX _ (proj2 Hsx)) as Hr.
  pose proof (clamp_ordered y 0 startY (proj1 Hsy)) as Ht.
  pose proof (clamp_ordered y startY _ (proj2 Hsy)) as Hb.
  repeat split; lra.
Qed.

Lemma calcRectDimensionFromPoint_unlocked_any_pointer_witness :
  in_bounds (_calcRectDimensionFromPoint drag_from_100_100 (-40) 900) 800 600 /\
  Rect_eq (_calcRectDimensionFromPoint drag_from_100_100 (-40) 900)
          {| left := 0; top := 100; width := 100; height := 500 |}.
Proof.
  split.
  - refine (proj1 (calcRectDimensionFromPoint_unlocked_any_pointer
                     drag_from_100_100 (-40) 900 100 100 _ _ _ _ _));
      qcompute.
  - qcompute.
Defined.

(** X2: With the shift key the rectangle of a drag is a square for every
    pointer and anchor: its side is the larger of the width and height the
    drag has without the key.  For an anchor in the canvas the side is not
    negative and the anchor is a corner of the square: its right (lower)
    edge when the pointer is at or before the anchor, its left (upper)
    edge otherwise. *)
Theorem calcRectDimensionFromPoint_locked_square (c : Cropper) (x y : Q) :
  _withShiftKey c = true ->
  let r := _calcRectDimensionFromPoint c x y in
  let u := _calcRectDimensionFromPoint (with_withShiftKey c false) x y in
  width r == height r /\
  width r == Qmax (width u) (height u) /\
  (forall startX startY : Q,
     _startX c = Some startX -> _startY c = Some startY ->
     0 <= startX <= getWidth (canvas c) ->
     0 <= startY <= getHeight (canvas c) ->
     0 <= width r /\
     (x <= startX -> left r + width r == startX) /\
     (startX < x -> left r == startX) /\
     (y <= startY -> top r + height r == startY) /\
     (startY < y -> top r == startY)).
Proof.
  intros Hshift r u. subst r u.
  unfold _calcRectDimensionFromPoint.
  cbn [_withShiftKey with_withShiftKey canvas _startX _startY].
  rewrite Hshift. cbn [width height left top].
  set (sx := toNumber (_startX c)). set (sy := toNumber (_startY c)).
  set (w := clamp x sx (getWidth (canvas c)) - clamp x 0 sx).
  set (h := clamp y sy (getHeight (canvas c)) - clamp y 0 sy).
  split; [|split].
  - case_Qgtb w h; [|case_Qgtb h w]; lra.
  - case_max w h; (case_Qgtb w h; [|case_Qgtb h w]); lra.
  - intros startX startY HX HY Hsx Hsy.
    subst w h sx sy. rewrite HX, HY. cbn [toNumber].
    set (w := clamp x startX (getWidth (canvas c)) - clamp x 0 startX).
    set (h := clamp y startY (getHeight (canvas c)) - clamp y 0 startY).
    pose proof (clamp_ordered x 0 startX (proj1 Hsx)) as Hl.
    pose proof (clamp_ordered x startX _ (proj2 Hsx)) as Hr.
    pose proof (clamp_ordered y 0 startY (proj1 Hsy)) as Ht.
    pose proof (clamp_ordered y startY _ (proj2 Hsy)) as Hb.
    assert (Hxa : startX < x -> clamp x 0 startX == startX)
      by (intro; apply clamp_above; lra).
    assert (Hya : startY < y -> clamp y 0 startY == startY)
      by (intro; apply clamp_above; lra).
    case_Qgtb w h; [|case_Qgtb h w]; case_Qgeb startX x; case_Qgeb startY y;
      subst w h; repeat split; intros;
      try (specialize (Hxa ltac:(assumption)));
      try (specialize (Hya ltac:(assumption))); lra.
Qed.

Lemma calcRectDimensionFromPoint_locked_square_witness :
  let r := _calcRectDimensionFromPoint locked_drag_from_100_100 300 150 in
  Rect_eq r {| left := 100; top := 100; width := 200; height := 200 |} /\
  width r == height r /\
  left r == 100 /\ top r == 100.
Proof.
  cbv zeta. split; [qcompute|].
  destruct (calcRectDimensionFromPoint_locked_square
              locked_drag_from_100_100 300 150 eq_refl) as (Hsq & _ & Hcorner).
  split; [exact Hsq|].
  destruct (Hcorner 100 100 eq_refl eq_refl) as (_ & _ & Hl & _ & Ht);
    [qcompute | qcompute |].
  split; [apply Hl | apply Ht]; qcompute.
Defined.

(* ------------------------------------------------------------------ *)
(** ** The default crop size *)

Lemma truncate_nonneg (v : Q) : 0 <= v -> truncate v = Qfloor v /\ (0 <= Qfloor v)%Z.
Proof.
  intro Hv. unfold truncate.
  assert (Hb : Qle_bool 0 v = true) by (apply Qle_bool_iff; exact Hv).
  rewrite Hb. split; [reflexivity|].
  change 0%Z with (Qfloor 0). apply Qfloor_resp_le. exact Hv.
Qed.

(** [~~v] of a number that is not negative is at most the number. *)
Lemma toInt32_le (v : Q) : 0 <= v -> inject_Z (toInt32 v) <= v.
Proof.
  intro Hv. destruct (truncate_nonneg v Hv) as [Ht Hpos].
  unfold toInt32. rewrite Ht.
  apply Qle_trans with (inject_Z (Qfloor v)); [|apply Qfloor_le].
  rewrite <- Zle_Qle.
  pose proof (Z.mod_le (Qfloor v + 2 ^ 31) (2 ^ 32)). lia.
Qed.

(** Below 2^31 it is the integer part. *)
Lemma toInt32_small (v : Q) :
  0 <= v -> v < inject_Z (2 ^ 31) -> toInt32 v = Qfloor v.
Proof.
  intros Hv Hlt. destruct (truncate_nonneg v Hv) as [Ht Hpos].
  unfold toInt32. rewrite Ht.
  assert (Hf : (Qfloor v < 2 ^ 31)%Z).
  { rewrite Zlt_Qlt. apply Qle_lt_trans with v; [apply Qfloor_le | exact Hlt]. }
  rewrite Z.mod_small by lia. lia.
Qed.

(** X3: On a canvas whose width and height are not negative, the rectangle
    of [_getDefaultCropSize] carries a null preset tag and is centered:
    left = (canvasWidth - width) / 2 and top = (canvasHeight - height) / 2.
    It has the configured size where that fits the canvas (the canvas size
    for a key that is not configured, so the whole canvas without a
    configuration), and then lies inside the canvas with a width and
    height that are not negative when the configured ones are not.  Where
    the configured size exceeds the canvas on either axis it has [~~] of
    three quarters of the canvas width and height; for a canvas below 2^31
    these are the integer parts, and the rectangle lies inside the canvas
    with a width and height that are not negative. *)
Theorem getDefaultCropSize_fits (c : Cropper) :
  0 <= getWidth (canvas c) -> 0 <= getHeight (canvas c) ->
  let maxWidth := getWidth (canvas c) in
  let maxHeight := getHeight (canvas c) in
  let crop := match defaultOptions_crop (graphics c) with
              | Some o => o
              | None => mkCropOptions None None
              end in
  let defaults_width := or_default (opt_width crop) maxWidth in
  let defaults_height := or_default (opt_height crop) maxHeight in
  let s := _getDefaultCropSize c in
  s_presetRatio s = Some None /\
  left (s_rect s) = (maxWidth - width (s_rect s)) / 2 /\
  top (s_rect s) = (maxHeight - height (s_rect s)) / 2 /\
  (defaults_width <= maxWidth -> defaults_height <= maxHeight ->
   width (s_rect s) = defaults_width /\ height (s_rect s) = defaults_height /\
   (0 <= defaults_width -> 0 <= defaults_height ->
    inside_canvas (s_rect s) maxWidth maxHeight)) /\
  (defaultOptions_crop (graphics c) = None ->
   Rect_eq (s_rect s)
           {| left := 0; top := 0; width := maxWidth; height := maxHeight |}) /\
  (maxWidth < defaults_width \/ maxHeight < defaults_height ->
   width (s_rect s) = inject_Z (toInt32 (maxWidth * (3 # 4))) /\
   height (s_rect s) = inject_Z (toInt32 (maxHeight * (3 # 4))) /\
   (maxWidth < inject_Z (2 ^ 31) ->
    width (s_rect s) = inject_Z (Qfloor (maxWidth * (3 # 4)))) /\
   (maxHeight < inject_Z (2 ^ 31) ->
    height (s_rect s) = inject_Z (Qfloor (maxHeight * (3 # 4)))) /\
   (maxWidth < inject_Z (2 ^ 31) -> maxHeight < inject_Z (2 ^ 31) ->
    inside_canvas (s_rect s) maxWidth maxHeight)).
Proof.
  intros HW HH maxWidth maxHeight crop defaults_width defaults_height s.
  subst s. unfold _getDefaultCropSize.
  fold maxWidth maxHeight. fold crop. fold defaults_width defaults_height.
  cbn [s_presetRatio s_rect left top width height].
  change (0 <= maxWidth) in HW. change (0 <= maxHeight) in HH.
  assert (H34W : 0 <= maxWidth * (3 # 4) <= maxWidth) by (split; lra).
  assert (H34H : 0 <= maxHeight * (3 # 4) <= maxHeight) by (split; lra).
  assert (Hfloor : forall v : Q, 0 <= v -> 0 <= inject_Z (Qfloor v) <= v).
  { intros v Hv. split; [|apply Qfloor_le].
    change 0 with (inject_Z 0). rewrite <- Zle_Qle.
    exact (proj2 (truncate_nonneg v Hv)). }
  assert (Hfallback :
            maxWidth < inject_Z (2 ^ 31) -> maxHeight < inject_Z (2 ^ 31) ->
            inside_canvas
              {| left := (maxWidth - inject_Z (toInt32 (maxWidth * (3 # 4)))) / 2;
                 top := (maxHeight - inject_Z (toInt32 (maxHeight * (3 # 4)))) / 2;
                 width := inject_Z (toInt32 (maxWidth * (3 # 4)));
                 height := inject_Z (toInt32 (maxHeight * (3 # 4))) |}
              maxWidth maxHeight).
  { intros HltW HltH.
    rewrite (toInt32_small (maxWidth * (3 # 4))) by (trivial; lra).
    rewrite (toInt32_small (maxHeight * (3 # 4))) by (trivial; lra).
    destruct (Hfloor _ (proj1 H34W)) as [Hw0 Hw1].
    destruct (Hfloor _ (proj1 H34H)) as [Hh0 Hh1].
    unfold inside_canvas, in_bounds. cbn [left top width height].
    rewrite !Qdiv_2. repeat split; lra. }
  split; [reflexivity|].
  case_Qgtb defaults_width maxWidth; cbn [orb fst snd];
    [|case_Qgtb defaults_height maxHeight; cbn [fst snd]].
  - split; [reflexivity|]. split; [reflexivity|].
    split; [intros; exfalso; lra|].
    split.
    + intro Hnone. subst defaults_width crop. rewrite Hnone in E.
      cbn in E. exfalso; lra.
    + intros _.
      split; [reflexivity|]. split; [reflexivity|].
      split; [intro Hlt; rewrite (toInt32_small (maxWidth * (3 # 4)));
              trivial; lra|].
      split; [intro Hlt; rewrite (toInt32_small (maxHeight * (3 # 4)));
              trivial; lra|].
      exact Hfallback.
  - split; [reflexivity|]. split; [reflexivity|].
    split; [intros; exfalso; lra|].
    split.
    + intro Hnone. subst defaults_height crop. rewrite Hnone in E0.
      cbn in E0. exfalso; lra.
    + intros _.
      split; [reflexivity|]. split; [reflexivity|].
      split; [intro Hlt; rewrite (toInt32_small (maxWidth * (3 # 4)));
              trivial; lra|].
      split; [intro Hlt; rewrite (toInt32_small (maxHeight * (3 # 4)));
              trivial; lra|].
      exact Hfallback.
  - split; [reflexivity|]. split; [reflexivity|].
    split.
    + intros _ _. split; [reflexivity|]. split; [reflexivity|].
      intros Hw0 Hh0. unfold inside_canvas, in_bounds.
      cbn [left top width height]. rewrite !Qdiv_2. repeat split; lra.
    + split.
      * intro Hnone. subst defaults_width defaults_height crop.
        rewrite Hnone. unfold Rect_eq. cbn [or_default opt_width opt_height
          left top width height]. rewrite !Qdiv_2. repeat split; lra.
      * intros [Hlt|Hlt]; exfalso; lra.
Qed.

Lemma getDefaultCropSize_fits_witness :
  Rect_eq (s_rect (_getDefaultCropSize
                     (constructor (mkGraphics None true) (example_canvas 800 600))))
          {| left := 0; top := 0; width := 800; height := 600 |} /\
  Rect_eq (s_rect (_getDefaultCropSize
                     (constructor
                        (mkGraphics (Some (mkCropOptions (Some 1000) None)) true)
                        (example_canvas 801 601))))
          {| left := 201 # 2; top := 151 # 2; width := 600; height := 450 |} /\
  inside_canvas (s_rect (_getDefaultCropSize
                     (constructor
                        (mkGraphics (Some (mkCropOptions (Some 1000) None)) true)
                        (example_canvas 801 601)))) 801 601.
Proof.
  split.
  - refine (proj1 (proj2 (proj2 (proj2 (proj2 (getDefaultCropSize_fits
              (constructor (mkGraphics None true) (example_canvas 800 600))
              _ _))))) eq_refl); qcompute.
  - destruct (getDefaultCropSize_fits
                (constructor
                   (mkGraphics (Some (mkCropOptions (Some 1000) None)) true)
                   (example_canvas 801 601)))
      as (_ & _ & _ & _ & _ & Hfb); [qcompute | qcompute |].
    destruct Hfb as (_ & _ & Hw & Hh & Hin); [left; qcompute|].
    split.
    + unfold Rect_eq. cbn [s_rect _getDefaultCropSize left top width height] in *.
      qcompute.
    + apply Hin; qcompute.
Defined.

(* ------------------------------------------------------------------ *)
(** ** The preset rectangle fills the canvas on one axis *)

Lemma getScale_cases (value bound : Q) :
  0 < value ->
  (bound < value /\ value * getScale value bound == bound) \/
  (value <= bound /\ getScale value bound = 1).
Proof.
  intro Hv. unfold getScale. case_Qgtb value bound.
  - left. split; [exact E|]. field. lra.
  - right. split; [exact E | reflexivity].
Qed.

(** X4: For a ratio > 0 on a canvas of positive width and height the preset
    rectangle is as large as the canvas allows: its width is the rounded
    canvas width or its height is the rounded canvas height. *)
Theorem getPresetPropertiesForCropSize_fills_an_axis
    (d : nat) (c : Cropper) (ratio : Q) :
  0 < ratio -> 0 < getWidth (canvas c) -> 0 < getHeight (canvas c) ->
  let r := s_rect (_getPresetPropertiesForCropSize d c ratio) in
  width r == fixFloatingPoint d (getWidth (canvas c)) \/
  height r == fixFloatingPoint d (getHeight (canvas c)).
Proof.
  intros Hr HW HH r. subst r. unfold _getPresetPropertiesForCropSize.
  cbn [s_rect width height].
  set (W := getWidth (canvas c)) in *. set (H := getHeight (canvas c)) in *.
  set (std := if Qgeb W H then W else H).
  assert (Hstd : 0 < std /\ W <= std /\ H <= std).
  { subst std. case_Qgeb W H; repeat split; lra. }
  destruct Hstd as (Hstd & HWs & HHs).
  assert (Hw0 : 0 < std * ratio) by (apply Qmult_lt_0_compat; assumption).
  set (sw := getScale (std * ratio) W).
  destruct (getScale_fits (std * ratio) W Hw0 HW) as [[Hsw _] _].
  fold sw in Hsw.
  assert (Hh1 : 0 < std * sw) by (apply Qmult_lt_0_compat; assumption).
  set (sh := getScale (std * sw) H).
  destruct (getScale_cases (std * sw) H Hh1) as [[Hgt Hfit]|[Hle Hone]];
    fold sh in Hfit || fold sh in Hone.
  - right. apply fixFloatingPoint_comp. exact Hfit.
  - destruct (getScale_cases (std * ratio) W Hw0) as [[Hgt' Hfit']|[Hle' Hone']];
      fold sw in Hfit' || fold sw in Hone'.
    + left. apply fixFloatingPoint_comp. rewrite Hone, Hfit'. ring.
    + right. apply fixFloatingPoint_comp. rewrite Hone.
      rewrite Hone' in Hle |- *. lra.
Qed.

Lemma getPresetPropertiesForCropSize_fills_an_axis_witness :
  let r := s_rect (_getPresetPropertiesForCropSize
                     2 (example_cropper 800 600) (16 # 9)) in
  (width r == fixFloatingPoint 2 800 \/ height r == fixFloatingPoint 2 600) /\
  Rect_eq r {| left := 0; top := 75; width := 800; height := 450 |}.
Proof.
  cbv zeta. split; [|qcompute].
  apply (getPresetPropertiesForCropSize_fills_an_axis
           2 (example_cropper 800 600) (16 # 9)); qcompute.
Defined.

(* ------------------------------------------------------------------ *)
(** ** Sessions *)

Lemma start_has_zone (c : Cropper) : has_zone (start c) = true.
Proof.
  unfold start, has_zone. destruct (_cropzone c) eqn:Hz; [rewrite Hz|]; reflexivity.
Qed.

Lemma end_has_no_zone (c : Cropper) : _cropzone (end_ c) = None.
Proof.
  unfold end_. destruct (_cropzone c) eqn:Hz; [reflexivity | exact Hz].
Qed.

(** X5: [start] during a session and [end] outside of one do nothing, so
    calling either twice is calling it once; after [start] there is a zone
    and after [end] there is none. *)
Theorem start_end_idempotent (c : Cropper) :
  start (start c) = start c /\
  end_ (end_ c) = end_ c /\
  _cropzone (start c) <> None /\
  _cropzone (end_ c) = None.
Proof.
  split; [|split; [|split]].
  - pose proof (start_has_zone c) as H. unfold has_zone in H.
    unfold start at 1. destruct (_cropzone (start c)); [reflexivity | discriminate].
  - pose proof (end_has_no_zone c) as H.
    unfold end_ at 1. rewrite H. reflexivity.
  - pose proof (start_has_zone c) as H. unfold has_zone in H.
    destruct (_cropzone (start c)); [discriminate | discriminate].
  - apply end_has_no_zone.
Qed.

Lemma count_zero_iff {A : Type} (p : A -> bool) (l : list A) :
  count p l = 0%nat <-> (forall a, In a l -> p a = false).
Proof.
  unfold count. induction l as [|a l IH]; cbn [filter].
  - split; [intros _ x [] | reflexivity].
  - destruct (p a) eqn:E; cbn [length].
    + split; [discriminate|]. intro H. specialize (H a (or_introl eq_refl)). congruence.
    + rewrite IH. split.
      * intros H x [<-|Hin]; [exact E | apply H, Hin].
      * intros H x Hin. apply H. right. exact Hin.
Qed.

Lemma remove_first_app_last {A : Type} (p : A -> bool) (l : list A) (x : A) :
  count p l = 0%nat -> p x = true -> remove_first p (l ++ [x]) = l.
Proof.
  intros Hc Hx. rewrite count_zero_iff in Hc.
  induction l as [|a l IH]; cbn [app remove_first].
  - rewrite Hx. reflexivity.
  - rewrite (Hc a (or_introl eq_refl)). f_equal. apply IH.
    intros b Hb. apply Hc. right. exact Hb.
Qed.

Lemma filter_all {A : Type} (p : A -> bool) (l : list A) :
  (forall a, In a l -> p a = true) -> filter p l = l.
Proof.
  induction l as [|a l IH]; intro H; cbn [filter]; [reflexivity|].
  rewrite (H a (or_introl eq_refl)). f_equal. apply IH.
  intros b Hb. apply H. right. exact Hb.
Qed.

Lemma not_registered_all (ls : list (DocumentEvent * Handler)) name h :
  document_ops.is_registered ls name h = false ->
  forall l, In l ls -> negb (listener_eqb DocumentEvent_eqb (name, h) l) = true.
Proof.
  unfold document_ops.is_registered. intros H l Hin.
  destruct (listener_eqb DocumentEvent_eqb (name, h) l) eqn:E; [|reflexivity].
  assert (existsb (listener_eqb DocumentEvent_eqb (name, h)) ls = true)
    by (apply existsb_exists; exists l; split; assumption).
  congruence.
Qed.

(** X6: A session that is started and ended at once leaves a cropper at rest
    exactly as it was: the canvas with its objects, flags and listeners,
    and the listeners of the document. *)
Theorem end_start_restores (c : Cropper) :
  _cropzone c = None ->
  canvas_at_rest (canvas c) ->
  canvas_ops.registered (canvas c) mouse_down mousedown = 0%nat ->
  document_ops.is_registered (documentListeners c) doc_keydown keydown = false ->
  document_ops.is_registered (documentListeners c) doc_keyup keyup = false ->
  end_ (start c) = c.
Proof.
  intros Hz (Hsel & Hcur & Hact & Hobjs) Hmd Hkd Hku.
  destruct c as [g cv z sx sy shift ls calls].
  destruct cv as [w h objs sel cur act els].
  cbn in Hz, Hsel, Hcur, Hact, Hobjs, Hmd.
  cbn [documentListeners] in Hkd, Hku. subst z sel cur act.
  unfold canvas_ops.registered in Hmd. cbn [eventListeners] in Hmd.
  assert (Hku' : document_ops.is_registered (ls ++ [(doc_keydown, keydown)])
                   doc_keyup keyup = false).
  { unfold document_ops.is_registered in *. rewrite existsb_app, Hku. reflexivity. }
  cbv beta iota zeta delta
    [start end_ with_canvas with_cropzone with_documentListeners cropzone_ref
     canvas_ops.forEachObject_evented canvas_ops.with_objects
     canvas_ops.discardActiveObject canvas_ops.with_activeObject canvas_ops.add
     canvas_ops.on canvas_ops.with_eventListeners canvas_ops.with_selection
     canvas_ops.with_defaultCursor canvas_ops.setActiveObject canvas_ops.remove
     canvas_ops.off document_ops.addListener document_ops.removeListener
     graphics canvas _cropzone _startX _startY _withShiftKey documentListeners
     updateUI_calls getWidth getHeight objects selection defaultCursor
     activeObject eventListeners CanvasObject_eqb].
  rewrite Hkd, Hku'.
  f_equal.
  - f_equal.
    + rewrite remove_first_app_last.
      * rewrite map_map. rewrite <- (map_id objs) at 2.
        apply map_ext_in. intros o Ho. rewrite (Hobjs o Ho). reflexivity.
      * apply count_zero_iff. intros o Ho. apply in_map_iff in Ho.
        destruct Ho as (o' & <- & Ho'). rewrite (Hobjs o' Ho'). reflexivity.
      * reflexivity.
    + apply remove_first_app_last; [exact Hmd | reflexivity].
  - rewrite !filter_app. cbn [filter listener_eqb fst snd DocumentEvent_eqb
      Handler_eqb andb negb app].
    rewrite !app_nil_r.
    rewrite (filter_all _ ls (not_registered_all ls _ _ Hkd)).
    apply (filter_all _ ls (not_registered_all ls _ _ Hku)).
Qed.

Lemma end_start_restores_witness :
  end_ (start (example_cropper 800 600)) = example_cropper 800 600.
Proof.
  apply end_start_restores; try reflexivity.
  repeat split. intros obj [<-|[]]. reflexivity.
Defined.

(* ------------------------------------------------------------------ *)
(** ** What the methods do to the canvas, one by one *)

Lemma remove_objects (cv : Canvas) (o : CanvasObject) :
  objects (canvas_ops.remove cv (Some o))
  = remove_first (CanvasObject_eqb o) (objects cv).
Proof.
  unfold canvas_ops.remove. destruct (activeObject cv) as [a|]; [|reflexivity].
  destruct (CanvasObject_eqb o a); reflexivity.
Qed.

Lemma remove_zone_activeObject (cv : Canvas) :
  activeObject cv = None \/ activeObject cv = Some CropzoneObject ->
  activeObject (canvas_ops.remove cv (Some CropzoneObject)) = None.
Proof.
  unfold canvas_ops.remove. intros [H|H]; rewrite H; [exact H | reflexivity].
Qed.

Lemma count_map_evented (flag : bool) (l : list CanvasObject) :
  count is_zone (map (fun obj => match obj with
                                 | Shape _ => Shape flag
                                 | CropzoneObject => CropzoneObject
                                 end) l)
  = count is_zone l.
Proof.
  unfold count. induction l as [|[e|] l IH]; cbn [map filter is_zone CanvasObject_eqb];
    [reflexivity | exact IH | cbn [length]; rewrite IH; reflexivity].
Qed.

(** Adding the zone after removing it leaves it on the canvas once when it
    was there at most once. *)
Lemma count_remove_add (l : list CanvasObject) :
  (count is_zone l <= 1)%nat ->
  count is_zone (remove_first (CanvasObject_eqb CropzoneObject) l ++ [CropzoneObject])
  = 1%nat.
Proof.
  intro H. rewrite count_app.
  change (CanvasObject_eqb CropzoneObject) with is_zone.
  rewrite count_remove_first_same. unfold count at 2. cbn. lia.
Qed.

Ltac zone_cases c :=
  let z := fresh "z" in
  let Hz := fresh "Hz" in
  destruct (_cropzone c) as [z|] eqn:Hz.

Lemma gesture_inv_zone_count (c : Cropper) :
  gesture_inv c -> (zone_count c <= 1)%nat.
Proof. intros (_ & H & _). rewrite H. destruct (has_zone c); lia. Qed.

Lemma start_gesture_inv (c : Cropper) : gesture_inv c -> gesture_inv (start c).
Proof.
  intros (Hm & Hc & Ha). unfold start. zone_cases c; [repeat split; assumption|].
  unfold gesture_inv, has_zone, zone_count, canvas_ops.registered in *.
  rewrite Hz in Hc.
  cbn -[count]. rewrite !count_app, count_map_evented, Hc, Hm.
  repeat split. intros _. right. reflexivity.
Qed.

Lemma end_gesture_inv (c : Cropper) : gesture_inv c -> gesture_inv (end_ c).
Proof.
  intros (Hm & Hc & Ha). unfold end_. zone_cases c; [|repeat split; assumption].
  unfold gesture_inv, has_zone, zone_count in *. rewrite Hz in Hc.
  unfold cropzone_ref. rewrite Hz.
  cbn [canvas with_canvas with_cropzone with_documentListeners _cropzone].
  split; [|split; [|discriminate]].
  - unfold canvas_ops.registered in *. cbn [eventListeners canvas_ops.forEachObject_evented
      canvas_ops.with_objects canvas_ops.off canvas_ops.with_eventListeners
      canvas_ops.with_defaultCursor canvas_ops.with_selection].
    rewrite !count_remove_first_other
      by (intro a; apply listener_eqb_other; reflexivity).
    rewrite remove_eventListeners. exact Hm.
  - cbn [objects canvas_ops.forEachObject_evented canvas_ops.with_objects
      canvas_ops.off canvas_ops.with_eventListeners
      canvas_ops.with_defaultCursor canvas_ops.with_selection].
    rewrite count_map_evented, remove_objects.
    change (CanvasObject_eqb CropzoneObject) with is_zone.
    rewrite count_remove_first_same, Hc. reflexivity.
Qed.

Lemma changeVisibility_gesture_inv (c : Cropper) (v : bool) :
  gesture_inv c -> gesture_inv (changeVisibility c v).
Proof.
  intros (Hm & Hc & Ha). unfold changeVisibility. zone_cases c;
    [|repeat split; assumption].
  unfold gesture_inv, has_zone, zone_count in *. rewrite Hz in *.
  cbn [canvas with_cropzone _cropzone]. repeat split; assumption.
Qed.

Lemma onFabricMouseDown_gesture_inv (c : Cropper) target x y :
  gesture_inv c -> gesture_inv (_onFabricMouseDown c target x y).
Proof.
  intros (Hm & Hc & Ha). unfold _onFabricMouseDown.
  destruct target; [repeat split; assumption|].
  unfold gesture_inv, has_zone, zone_count, canvas_ops.registered in *.
  cbn -[count]. split; [|split; [exact Hc | exact Ha]].
  rewrite !count_app, Hm. unfold count. cbn. lia.
Qed.

Lemma onFabricMouseUp_gesture_inv (c : Cropper) :
  gesture_inv c -> gesture_inv (fst (_onFabricMouseUp c)).
Proof.
  intros (Hm & Hc & Ha). unfold _onFabricMouseUp.
  destruct (canvas_ops.setActiveObject_returns _ _); cbn [fst];
    [|split; [exact Hm|]; split; [exact Hc|]; intros _; left; reflexivity].
  unfold gesture_inv, has_zone, zone_count, cropzone_ref in *.
  cbn [canvas with_canvas _cropzone].
  split; [|split].
  - repeat (rewrite registered_off;
            cbn [listener_eqb fst snd CanvasEvent_eqb Handler_eqb andb]).
    unfold canvas_ops.registered in *. cbn -[count]. rewrite Hm. reflexivity.
  - exact Hc.
  - cbn. destruct (_cropzone c); [intros _; right; reflexivity | discriminate].
Qed.

Lemma onFabricMouseMove_gesture_inv (c : Cropper) x y :
  gesture_inv c -> gesture_inv (fst (_onFabricMouseMove c x y)).
Proof.
  intros I. pose proof (gesture_inv_zone_count c I) as Hle.
  destruct I as (Hm & Hc & Ha). unfold _onFabricMouseMove.
  destruct (Qgtb _ MOUSE_MOVE_THRESHOLD); [|repeat split; assumption].
  unfold gesture_inv, has_zone, zone_count, cropzone_ref in *.
  cbn [_cropzone with_canvas].
  zone_cases c; cbn [fst].
  - unfold _runAction_updateUI. cbn [graphics with_cropzone with_canvas].
    destruct (has_updateUI (graphics c));
      cbn [canvas with_canvas with_cropzone with_updateUI_calls _cropzone];
      (split; [|split; [|intros _; right; reflexivity]]);
      try (unfold canvas_ops.registered; cbn -[count canvas_ops.remove];
           rewrite remove_eventListeners; exact Hm);
      cbn -[count canvas_ops.remove]; rewrite remove_objects;
      apply count_remove_add; exact Hle.
  - cbn [canvas with_canvas _cropzone canvas_ops.remove]. rewrite Hz.
    repeat split; assumption.
Qed.

Lemma setCropzoneRect_gesture_inv (d : nat) (c : Cropper) ratio :
  gesture_inv c -> gesture_inv (fst (setCropzoneRect d c ratio)).
Proof.
  intros I. pose proof (gesture_inv_zone_count c I) as Hle.
  destruct I as (Hm & Hc & Ha). unfold setCropzoneRect.
  unfold gesture_inv, has_zone, zone_count, cropzone_ref in *.
  cbn [_cropzone with_canvas].
  zone_cases c; cbn [fst].
  - unfold _runAction_updateUI. cbn [graphics with_cropzone with_canvas].
    destruct (has_updateUI (graphics c));
      cbn [canvas with_canvas with_cropzone with_updateUI_calls _cropzone];
      (split; [|split; [|intros _; right; reflexivity]]);
      try (unfold canvas_ops.registered; cbn -[count canvas_ops.remove];
           rewrite remove_eventListeners; exact Hm);
      cbn -[count canvas_ops.remove]; rewrite remove_objects;
      apply count_remove_add; exact Hle.
  - cbn [canvas with_canvas _cropzone canvas_ops.remove]. rewrite Hz.
    split; [exact Hm|]. split; [exact Hc | discriminate].
Qed.

Lemma setCropzonePosition_gesture_inv (c : Cropper) posInfo :
  gesture_inv c -> gesture_inv (fst (setCropzonePosition c posInfo)).
Proof.
  intros I. pose proof (gesture_inv_zone_count c I) as Hle.
  destruct I as (Hm & Hc & Ha). unfold setCropzonePosition.
  unfold gesture_inv, has_zone, zone_count, cropzone_ref in *.
  cbn [_cropzone with_canvas].
  zone_cases c; cbn [fst].
  - cbn [canvas with_canvas with_cropzone _cropzone];
      (split; [|split; [|intros _; right; reflexivity]]);
      try (unfold canvas_ops.registered; cbn -[count canvas_ops.remove];
           rewrite remove_eventListeners; exact Hm);
      cbn -[count canvas_ops.remove]; rewrite remove_objects;
      apply count_remove_add; exact Hle.
  - cbn [canvas with_canvas _cropzone canvas_ops.remove]. rewrite Hz.
    split; [exact Hm|]. split; [exact Hc | discriminate].
Qed.

Lemma call_times_preserves (P : Cropper -> Prop) (n : nat)
    (h : Cropper -> Cropper * Completion unit) :
  (forall c, P c -> P (fst (h c))) ->
  forall c, P c -> P (fst (call_times n h c)).
Proof.
  intro Hh. induction n as [|n IH]; intros c Hc; cbn [call_times]; [exact Hc|].
  specialize (Hh c Hc). destruct (h c) as [c' []]; cbn [fst] in *.
  - apply IH, Hh.
  - exact Hh.
Qed.

Lemma step_gesture_inv (d : nat) (c : Cropper) (e : Event) :
  gesture_inv c -> gesture_inv (fst (step d c e)).
Proof.
  intro I.
  destruct e as [| |v|ratio|posInfo|target x y|x y| |keyCode|keyCode];
    cbn [step returns fst].
  - apply start_gesture_inv, I.
  - apply end_gesture_inv, I.
  - apply changeVisibility_gesture_inv, I.
  - apply setCropzoneRect_gesture_inv, I.
  - apply setCropzonePosition_gesture_inv, I.
  - apply call_times_preserves; [|exact I].
    intros c0. apply onFabricMouseDown_gesture_inv.
  - apply call_times_preserves; [|exact I].
    intros c0. apply onFabricMouseMove_gesture_inv.
  - apply call_times_preserves; [|exact I].
    intros c0. apply onFabricMouseUp_gesture_inv.
  - destruct (document_ops.is_registered _ _ _); cbn [fst returns]; [|exact I].
    unfold _onKeyDown. destruct (Z.eqb _ _); exact I.
  - destruct (document_ops.is_registered _ _ _); cbn [fst returns]; [|exact I].
    unfold _onKeyUp. destruct (Z.eqb _ _); exact I.
Qed.

Lemma run_gesture_inv (d : nat) (events : list Event) :
  forall c, gesture_inv c -> gesture_inv (run d c events).
Proof.
  induction events as [|e events IH]; intros c I; cbn [run]; [exact I|].
  apply IH, step_gesture_inv, I.
Qed.

Lemma run_app (d : nat) (c : Cropper) (evs1 evs2 : list Event) :
  run d c (evs1 ++ evs2) = run d (run d c evs1) evs2.
Proof.
  revert c. induction evs1 as [|e evs1 IH]; intro c; cbn [app run];
    [reflexivity | apply IH].
Qed.

Lemma untouched_invs (c : Cropper) :
  untouched c -> session_inv c /\ gesture_inv c.
Proof.
  intros (Hz & Hmd & Hmm & Hmu & Hkd & Hku & Hc).
  unfold session_inv, gesture_inv, has_zone. rewrite Hz.
  repeat split; try assumption; try congruence.
Qed.

(* ------------------------------------------------------------------ *)
(** ** Listeners over whole sessions *)

(** The pointer-up handler where [canvas.setActiveObject] returns: with a
    zone, or with no object active. *)
Lemma onFabricMouseUp_returns (c : Cropper) :
  has_zone c = true \/ activeObject (canvas c) = None ->
  snd (_onFabricMouseUp c) = Normal tt /\
  (has_zone (fst (_onFabricMouseUp c)) = true \/
   activeObject (canvas (fst (_onFabricMouseUp c))) = None) /\
  canvas_ops.registered (canvas (fst (_onFabricMouseUp c))) mouse_move mousemove
  = Nat.pred (canvas_ops.registered (canvas c) mouse_move mousemove) /\
  canvas_ops.registered (canvas (fst (_onFabricMouseUp c))) mouse_up mouseup
  = Nat.pred (canvas_ops.registered (canvas c) mouse_up mouseup).
Proof.
  intro H. unfold _onFabricMouseUp.
  assert (Hr : canvas_ops.setActiveObject_returns (canvas c) (cropzone_ref c) = true).
  { unfold canvas_ops.setActiveObject_returns, cropzone_ref, has_zone in *.
    destruct (_cropzone c); [reflexivity|].
    destruct H as [H|H]; [discriminate | rewrite H; reflexivity]. }
  rewrite Hr. cbn [fst snd canvas with_canvas].
  split; [reflexivity|]. split.
  - unfold has_zone, cropzone_ref in *. cbn [_cropzone with_canvas].
    destruct (_cropzone c); [left; reflexivity | right; reflexivity].
  - split;
      repeat (rewrite registered_off;
              cbn [listener_eqb fst snd CanvasEvent_eqb Handler_eqb andb]);
      reflexivity.
Qed.

Lemma call_times_onFabricMouseUp (n : nat) (c : Cropper) :
  has_zone c = true \/ activeObject (canvas c) = None ->
  let r := call_times n _onFabricMouseUp c in
  snd r = Normal tt /\
  canvas_ops.registered (canvas (fst r)) mouse_move mousemove
  = (canvas_ops.registered (canvas c) mouse_move mousemove - n)%nat /\
  canvas_ops.registered (canvas (fst r)) mouse_up mouseup
  = (canvas_ops.registered (canvas c) mouse_up mouseup - n)%nat.
Proof.
  revert c. induction n as [|n IH]; intros c H; cbn [call_times].
  - cbn [fst snd]. repeat split; lia.
  - destruct (onFabricMouseUp_returns c H) as (Hn & H' & E1 & E2).
    destruct (_onFabricMouseUp c) as [c' r]. cbn [fst snd] in *. subst r.
    destruct (IH c' H') as (Hr & H1 & H2).
    cbv zeta in *. rewrite H1, H2, E1, E2. repeat split; [exact Hr| |]; lia.
Qed.

(** The pointer-up handler where it throws: no zone and an object active. *)
Lemma onFabricMouseUp_throws (c : Cropper) :
  has_zone c = false -> activeObject (canvas c) <> None ->
  _onFabricMouseUp c
  = (with_canvas c (canvas_ops.discardActiveObject (canvas c)), TypeError).
Proof.
  intros Hz Ha. unfold _onFabricMouseUp.
  unfold canvas_ops.setActiveObject_returns, cropzone_ref, has_zone in *.
  destruct (_cropzone c); [discriminate|].
  destruct (activeObject (canvas c)); [reflexivity | contradiction].
Qed.

Lemma end_registered_gesture (c : Cropper) :
  canvas_ops.registered (canvas (end_ c)) mouse_move mousemove
  = canvas_ops.registered (canvas c) mouse_move mousemove /\
  canvas_ops.registered (canvas (end_ c)) mouse_up mouseup
  = canvas_ops.registered (canvas c) mouse_up mouseup.
Proof.
  unfold end_. zone_cases c; [|split; reflexivity].
  unfold canvas_ops.registered.
  cbn [canvas with_canvas with_cropzone with_documentListeners eventListeners
       canvas_ops.forEachObject_evented canvas_ops.with_objects canvas_ops.off
       canvas_ops.with_eventListeners canvas_ops.with_defaultCursor
       canvas_ops.with_selection].
  rewrite !count_remove_first_other
    by (intro a; apply listener_eqb_other; reflexivity).
  rewrite remove_eventListeners. split; reflexivity.
Qed.

Lemma session_inv_after_end (c : Cropper) :
  session_inv c ->
  _cropzone (end_ c) = None /\
  canvas_ops.registered (canvas (end_ c)) mouse_down mousedown = 0%nat /\
  document_ops.is_registered (documentListeners (end_ c)) doc_keydown keydown = false /\
  document_ops.is_registered (documentListeners (end_ c)) doc_keyup keyup = false.
Proof.
  intro I. pose proof (end_has_no_zone c) as Hz.
  destruct (end_inv c I) as [I1 I2]. unfold has_zone in *. rewrite Hz in *.
  destruct (I2 eq_refl) as [H1 H2]. repeat split; assumption.
Qed.

(** X7: the pointer-move and pointer-up listeners, in a state of the
    cropper where the two are registered equally often (they are added and
    removed together) and the session invariant holds.  A pointer-up while
    there is a zone, or while no object is active, returns and leaves
    neither of the two listeners registered, however many pointer-downs
    came before it; an [end] after it leaves none of the five listeners.
    A pointer-up without a zone while an object is active (after an [end]
    during a drag and a click on a shape) throws a TypeError, and the
    listeners stay registered as they are.  [end] itself leaves no zone and
    none of the listeners of [start], and it removes neither of the two
    listeners. *)
Theorem listeners_released (d : nat) (c : Cropper) :
  session_inv c ->
  canvas_ops.registered (canvas c) mouse_move mousemove
  = canvas_ops.registered (canvas c) mouse_up mouseup ->
  let up := step d c fire_mouse_up in
  (has_zone c = true \/ activeObject (canvas c) = None ->
   snd up = Normal tt /\
   canvas_ops.registered (canvas (fst up)) mouse_move mousemove = 0%nat /\
   canvas_ops.registered (canvas (fst up)) mouse_up mouseup = 0%nat /\
   let c' := end_ (fst up) in
   _cropzone c' = None /\
   canvas_ops.registered (canvas c') mouse_down mousedown = 0%nat /\
   canvas_ops.registered (canvas c') mouse_move mousemove = 0%nat /\
   canvas_ops.registered (canvas c') mouse_up mouseup = 0%nat /\
   document_ops.is_registered (documentListeners c') doc_keydown keydown = false /\
   document_ops.is_registered (documentListeners c') doc_keyup keyup = false) /\
  (has_zone c = false -> activeObject (canvas c) <> None ->
   (0 < canvas_ops.registered (canvas c) mouse_up mouseup)%nat ->
   snd up = TypeError /\
   _cropzone (fst up) = None /\
   eventListeners (canvas (fst up)) = eventListeners (canvas c)) /\
  (let c' := end_ c in
   _cropzone c' = None /\
   canvas_ops.registered (canvas c') mouse_down mousedown = 0%nat /\
   document_ops.is_registered (documentListeners c') doc_keydown keydown = false /\
   document_ops.is_registered (documentListeners c') doc_keyup keyup = false /\
   canvas_ops.registered (canvas c') mouse_move mousemove
   = canvas_ops.registered (canvas c) mouse_move mousemove /\
   canvas_ops.registered (canvas c') mouse_up mouseup
   = canvas_ops.registered (canvas c) mouse_up mouseup).
Proof.
  intros Is Hm up.
  split; [|split].
  - intro H. subst up. cbn [step].
    pose proof (call_times_onFabricMouseUp
                  (canvas_ops.registered (canvas c) mouse_up mouseup) c H) as Hc.
    cbv zeta in Hc. destruct Hc as (Hr & H1 & H2).
    pose proof (step_inv d c fire_mouse_up Is) as Is2. cbn [step] in Is2.
    set (c2 := fst (call_times _ _onFabricMouseUp c)) in *.
    assert (Hmm : canvas_ops.registered (canvas c2) mouse_move mousemove = 0%nat)
      by (rewrite H1, Hm; lia).
    assert (Hmu : canvas_ops.registered (canvas c2) mouse_up mouseup = 0%nat)
      by (rewrite H2; lia).
    destruct (session_inv_after_end c2 Is2) as (Hz & Hmd & Hkd & Hku).
    destruct (end_registered_gesture c2) as [Em Eu].
    rewrite Hmm in Em. rewrite Hmu in Eu.
    repeat split; assumption.
  - intros Hz Ha Hn. subst up. cbn [step].
    destruct (canvas_ops.registered (canvas c) mouse_up mouseup) as [|n];
      [inversion Hn|].
    cbn [call_times]. rewrite (onFabricMouseUp_throws c Hz Ha).
    cbn [fst snd _cropzone with_canvas canvas].
    unfold has_zone in Hz. destruct (_cropzone c); [discriminate|].
    repeat split.
  - destruct (session_inv_after_end c Is) as (Hz & Hmd & Hkd & Hku).
    destruct (end_registered_gesture c) as [Em Eu].
    repeat split; assumption.
Qed.

Lemma listeners_released_witness :
  let dragging := run 2 (example_cropper 800 600)
                    [call_start; fire_mouse_down false 100 100;
                     fire_mouse_down false 120 100; fire_mouse_move 300 300] in
  let released := end_ (fst (step 2 dragging fire_mouse_up)) in
  let leaked := shape_selected
                  (run 2 (example_cropper 800 600)
                     [call_start; fire_mouse_down false 100 100; call_end]) in
  canvas_ops.registered (canvas dragging) mouse_up mouseup = 2%nat /\
  eventListeners (canvas released) = [] /\ documentListeners released = [] /\
  snd (step 2 leaked fire_mouse_up) = TypeError /\
  eventListeners (canvas (fst (step 2 leaked fire_mouse_up)))
  = [(mouse_move, mousemove); (mouse_up, mouseup)].
Proof.
  intros dragging released leaked.
  assert (Id : session_inv dragging) by (split; [reflexivity | discriminate]).
  assert (Il : session_inv leaked)
    by (split; [reflexivity | intros _; split; reflexivity]).
  destruct (listeners_released 2 dragging Id eq_refl) as (Hin & _ & _).
  destruct (listeners_released 2 leaked Il eq_refl) as (_ & Hout & _).
  destruct (Hin (or_introl eq_refl)) as (_ & _ & _ & _).
  destruct (Hout eq_refl) as (Hthrow & _ & Hstay);
    [discriminate | apply Nat.lt_0_1 |].
  split; [reflexivity|]. split; [reflexivity|]. split; [reflexivity|].
  split; [exact Hthrow|]. rewrite Hstay. reflexivity.
Defined.

(* ------------------------------------------------------------------ *)
(** ** The canvas after a session *)

Lemma not_zone_is_shape (obj : CanvasObject) :
  is_zone obj = false -> exists e, obj = Shape e.
Proof. destruct obj as [e|]; [exists e; reflexivity | discriminate]. Qed.

(** X8: After [end] has closed a session, the canvas is at rest: group
    selection is on, the cursor is the default one, nothing is active, the
    zone is gone and every shape is evented, also a shape that was not
    evented when the session began. *)
Theorem end_leaves_canvas_at_rest
    (d : nat) (c0 : Cropper) (events : list Event) :
  untouched c0 ->
  has_zone (run d c0 events) = true ->
  canvas_at_rest (canvas (end_ (run d c0 events))).
Proof.
  intros Hu Hzone. destruct (untouched_invs c0 Hu) as [_ Ig].
  pose proof (run_gesture_inv d events c0 Ig) as (_ & Hc & Ha).
  set (c := run d c0 events) in *. rewrite Hzone in Hc.
  specialize (Ha Hzone). unfold has_zone in Hzone. unfold end_, cropzone_ref.
  zone_cases c; [|discriminate].
  cbn [canvas with_canvas with_cropzone with_documentListeners].
  unfold canvas_at_rest.
  cbn [selection defaultCursor activeObject objects
       canvas_ops.forEachObject_evented canvas_ops.with_objects canvas_ops.off
       canvas_ops.with_eventListeners canvas_ops.with_defaultCursor
       canvas_ops.with_selection].
  split; [reflexivity|]. split; [reflexivity|].
  split; [apply remove_zone_activeObject, Ha|].
  intros obj Hin. rewrite remove_objects in Hin.
  apply in_map_iff in Hin. destruct Hin as (o & <- & Ho).
  assert (Hcount : count is_zone
                     (remove_first (CanvasObject_eqb CropzoneObject)
                        (objects (canvas c))) = 0%nat).
  { change (CanvasObject_eqb CropzoneObject) with is_zone.
    rewrite count_remove_first_same. unfold zone_count in Hc. rewrite Hc.
    reflexivity. }
  rewrite count_zero_iff in Hcount.
  destruct (not_zone_is_shape o (Hcount o Ho)) as [e ->]. reflexivity.
Qed.

Lemma end_leaves_canvas_at_rest_witness :
  let c := run 2 cropper_on_mixed_canvas
               [call_start; fire_mouse_down false 100 100;
                fire_mouse_move 300 300] in
  canvas_at_rest (canvas (end_ c)) /\
  objects (canvas (end_ c)) = [Shape true; Shape true].
Proof.
  cbv zeta. split; [|reflexivity].
  apply (end_leaves_canvas_at_rest 2 cropper_on_mixed_canvas); repeat split.
Defined.

(* ------------------------------------------------------------------ *)
(** ** Clicks *)

Lemma call_times_fixed (n : nat) (h : Cropper -> Cropper * Completion unit)
    (c : Cropper) :
  h c = (c, Normal tt) -> call_times n h c = (c, Normal tt).
Proof.
  intro H. induction n as [|n IH]; cbn [call_times]; [reflexivity|].
  rewrite H. exact IH.
Qed.

Lemma onFabricMouseMove_within_threshold (c : Cropper) (x y : Q) :
  past_threshold c x y = false -> _onFabricMouseMove c x y = (c, Normal tt).
Proof.
  unfold past_threshold, _onFabricMouseMove. intros ->. reflexivity.
Qed.

(** X9: A click does not touch the crop zone.  In a session, a pointer-down on
    empty canvas, a pointer-move that stays within the threshold of 10
    (in Manhattan distance) of the point where the pointer went down, and
    the pointer-up leave the zone as it was and call updateUI not once;
    the move changes nothing at all, and neither does a pointer-down on an
    object. *)
Theorem click_leaves_zone (d : nat) (c : Cropper) (x y x' y' : Q) :
  session_inv c -> has_zone c = true ->
  Qabs (x' - x) + Qabs (y' - y) <= MOUSE_MOVE_THRESHOLD ->
  let down := fst (step d c (fire_mouse_down false x y)) in
  step d down (fire_mouse_move x' y') = (down, Normal tt) /\
  step d c (fire_mouse_down true x y) = (c, Normal tt) /\
  let c' := run d c [fire_mouse_down false x y; fire_mouse_move x' y';
                     fire_mouse_up] in
  _cropzone c' = _cropzone c /\
  updateUI_calls c' = updateUI_calls c /\
  _startX c' = Some x /\ _startY c' = Some y.
Proof.
  intros [Imd _] Hzone Hclose down.
  rewrite Hzone in Imd.
  assert (Hdown : down = _onFabricMouseDown c false x y).
  { subst down. cbn [step]. rewrite Imd. reflexivity. }
  assert (Hnear : past_threshold down x' y' = false).
  { rewrite Hdown. unfold past_threshold, _onFabricMouseDown.
    cbn [_startX _startY with_canvas with_start toNumber].
    apply Qgtb_false. unfold Math_abs. exact Hclose. }
  assert (Hmove : step d down (fire_mouse_move x' y') = (down, Normal tt)).
  { cbn [step]. apply call_times_fixed.
    apply onFabricMouseMove_within_threshold, Hnear. }
  split; [exact Hmove|]. split.
  - cbn [step]. rewrite Imd. reflexivity.
  - cbn [run]. fold down. rewrite Hmove. cbn [fst step].
    set (n := canvas_ops.registered (canvas down) mouse_up mouseup).
    assert (Hup : forall k c1,
              let c2 := fst (call_times k _onFabricMouseUp c1) in
              _cropzone c2 = _cropzone c1 /\
              updateUI_calls c2 = updateUI_calls c1 /\
              _startX c2 = _startX c1 /\ _startY c2 = _startY c1).
    { induction k as [|k IH]; intro c1; cbn [call_times].
      - repeat split.
      - assert (Hone : _cropzone (fst (_onFabricMouseUp c1)) = _cropzone c1 /\
                       updateUI_calls (fst (_onFabricMouseUp c1)) = updateUI_calls c1 /\
                       _startX (fst (_onFabricMouseUp c1)) = _startX c1 /\
                       _startY (fst (_onFabricMouseUp c1)) = _startY c1).
        { unfold _onFabricMouseUp.
          destruct (canvas_ops.setActiveObject_returns _ _); repeat split. }
        destruct (_onFabricMouseUp c1) as [c1' []]; cbn [fst] in *.
        + destruct (IH c1') as (H1 & H2 & H3 & H4).
          destruct Hone as (G1 & G2 & G3 & G4).
          cbv zeta in *. rewrite H1, H2, H3, H4. repeat split; assumption.
        + exact Hone. }
    destruct (Hup n down) as (H1 & H2 & H3 & H4). cbv zeta in *.
    rewrite H1, H2, H3, H4, Hdown. repeat split.
Qed.

Lemma click_leaves_zone_witness :
  _cropzone (run 2 started_800_600
                 [fire_mouse_down false 100 100; fire_mouse_move 104 94;
                  fire_mouse_up])
  = _cropzone started_800_600.
Proof.
  refine (proj1 (proj2 (proj2 (click_leaves_zone 2 started_800_600
                                 100 100 104 94 _ _ _)))).
  - split; [reflexivity | discriminate].
  - reflexivity.
  - qcompute.
Defined.

(* ------------------------------------------------------------------ *)
(** ** Reading back what was set *)

(** X10: [getCropzoneRect] after [setCropzonePosition] gives the rectangle that
    was applied, the clamped one, when its width and height are positive,
    and [null] when they are not (a left edge at or beyond the canvas
    width, for one). *)
Theorem getCropzoneRect_after_setCropzonePosition
    (c : Cropper) (z : Cropzone) (posInfo : option PosInfo) :
  _cropzone c = Some z ->
  let r := s_rect (_getPresetProperties c posInfo) in
  let c' := fst (setCropzonePosition c posInfo) in
  (0 < width r -> 0 < height r -> getCropzoneRect c' = Normal (Some r)) /\
  (width r <= 0 \/ height r <= 0 -> getCropzoneRect c' = Normal None).
Proof.
  intros Hz r c'.
  destruct (setCropzonePosition_zone c z posInfo Hz) as (Hzone & _ & _).
  fold c' in Hzone. unfold getCropzoneRect. rewrite Hzone.
  unfold isValid. cbn [geometry set]. fold r.
  split.
  - intros Hw Hh.
    apply Qgtb_true in Hw. apply Qgtb_true in Hh. rewrite Hw, Hh.
    cbn [andb negb]. destruct r; reflexivity.
  - intros [Hw|Hh].
    + apply Qgtb_false in Hw. rewrite Hw. reflexivity.
    + apply Qgtb_false in Hh. rewrite Hh, andb_false_r. reflexivity.
Qed.

Lemma getCropzoneRect_after_setCropzonePosition_witness :
  getCropzoneRect
    (fst (setCropzonePosition started_800_600
            (Some (mkPosInfo (Some 10) (Some 20) (Some 300) (Some 200)))))
  = Normal (Some (s_rect (_getPresetProperties started_800_600
            (Some (mkPosInfo (Some 10) (Some 20) (Some 300) (Some 200)))))) /\
  getCropzoneRect
    (fst (setCropzonePosition started_800_600
            (Some (mkPosInfo (Some 800) None None None))))
  = Normal None.
Proof.
  split.
  - apply (getCropzoneRect_after_setCropzonePosition started_800_600
             (new_Cropzone (_getDefaultCropSize started_800_600))
             (Some (mkPosInfo (Some 10) (Some 20) (Some 300) (Some 200)))
             eq_refl); qcompute.
  - apply (getCropzoneRect_after_setCropzonePosition started_800_600
             (new_Cropzone (_getDefaultCropSize started_800_600))
             (Some (mkPosInfo (Some 800) None None None))
             eq_refl). left. qcompute.
Defined.

(* ------------------------------------------------------------------ *)
(** ** The updateUI action as an option *)


Lemma step_quiet (d : nat) (c0 c : Cropper) (e : Event) :
  has_updateUI (graphics c0) = false ->
  quiet c0 c -> quiet c0 (fst (step d c e)).
Proof.
  intros Hno Hq.
  assert (Hrun : forall c1 s, quiet c0 c1 -> quiet c0 (_runAction_updateUI c1 s)).
  { intros c1 s [Hg Hc]. unfold _runAction_updateUI. rewrite Hg, Hno.
    split; assumption. }
  destruct e as [| |v|ratio|posInfo|target x y|x y| |keyCode|keyCode];
    cbn [step returns fst].
  - unfold start. zone_cases c; [exact Hq|]. exact Hq.
  - unfold end_. zone_cases c; exact Hq.
  - unfold changeVisibility. zone_cases c; exact Hq.
  - unfold setCropzoneRect. cbn [_cropzone with_canvas].
    zone_cases c; cbn [fst]; [|exact Hq].
    match goal with
    | |- quiet c0 (with_canvas (_runAction_updateUI ?c2 ?s) _) =>
        destruct (Hrun c2 s Hq) as [Hg Hc]
    end.
    split; assumption.
  - unfold setCropzonePosition. cbn [_cropzone with_canvas].
    zone_cases c; cbn [fst]; exact Hq.
  - apply call_times_preserves; [|exact Hq]. intros c1 Hq1.
    cbn [returns fst]. unfold _onFabricMouseDown. destruct target; exact Hq1.
  - apply call_times_preserves; [|exact Hq]. intros c1 Hq1.
    unfold _onFabricMouseMove.
    destruct (Qgtb _ MOUSE_MOVE_THRESHOLD); [|exact Hq1].
    cbn [_cropzone with_canvas]. zone_cases c1; cbn [fst]; [|exact Hq1].
    match goal with
    | |- quiet c0 (with_canvas (_runAction_updateUI ?c2 ?s) _) =>
        destruct (Hrun c2 s Hq1) as [Hg Hc]
    end.
    split; assumption.
  - apply call_times_preserves; [|exact Hq]. intros c1 Hq1.
    unfold _onFabricMouseUp.
    destruct (canvas_ops.setActiveObject_returns _ _); exact Hq1.
  - destruct (document_ops.is_registered _ _ _); cbn [fst returns]; [|exact Hq].
    unfold _onKeyDown. destruct (Z.eqb _ _); exact Hq.
  - destruct (document_ops.is_registered _ _ _); cbn [fst returns]; [|exact Hq].
    unfold _onKeyUp. destruct (Z.eqb _ _); exact Hq.
Qed.

(** X12: When [actions.crop.updateUI] is not a function, no sequence of events
    calls it, and none ends in a throw for that reason: drags and presets
    are applied all the same. *)
Theorem updateUI_never_called_when_absent
    (d : nat) (c : Cropper) (events : list Event) :
  has_updateUI (graphics c) = false ->
  updateUI_calls (run d c events) = updateUI_calls c /\
  (forall (z : Cropzone) (x y : Q),
     _cropzone c = Some z -> past_threshold c x y = true ->
     _onFabricMouseMove c x y
     = (fst (_onFabricMouseMove c x y), Normal tt) /\
     _cropzone (fst (_onFabricMouseMove c x y))
     = Some (set z (mkSettings None (_calcRectDimensionFromPoint c x y)))).
Proof.
  intro Hno. split.
  - assert (H : forall evs c1, quiet c c1 -> quiet c (run d c1 evs)).
    { induction evs as [|e evs IH]; intros c1 Hq; cbn [run]; [exact Hq|].
      apply IH, step_quiet; assumption. }
    apply (H events c). split; reflexivity.
  - intros z x y Hz Hmove.
    destruct (onFabricMouseMove_zone c z x y Hz Hmove) as (H1 & H2 & _).
    split; [|exact H1].
    destruct (_onFabricMouseMove c x y) as [c' r]. cbn [fst snd] in *.
    rewrite H2. reflexivity.
Qed.

Lemma updateUI_never_called_when_absent_witness :
  updateUI_calls
    (run 2 (constructor (mkGraphics None false) (example_canvas 800 600))
         [call_start; call_setCropzoneRect (Some 1);
          fire_mouse_down false 50 100; fire_mouse_move 90 300; fire_mouse_up])
  = [].
Proof.
  apply (updateUI_never_called_when_absent 2
           (constructor (mkGraphics None false) (example_canvas 800 600))).
  reflexivity.
Defined.

(* ------------------------------------------------------------------ *)
(** ** The cropped image *)

Lemma contains_zone_count (cv : Canvas) :
  canvas_contains cv (Some CropzoneObject)
  = negb (Nat.eqb (count is_zone (objects cv)) 0).
Proof.
  unfold canvas_contains, count.
  change (CanvasObject_eqb CropzoneObject) with is_zone.
  induction (objects cv) as [|o l IH]; cbn [existsb filter]; [reflexivity|].
  destruct (is_zone o); cbn [orb length]; [reflexivity | exact IH].
Qed.

Lemma remove_first_other_objects (l : list CanvasObject) :
  filter (fun o => negb (is_zone o))
         (remove_first (CanvasObject_eqb CropzoneObject) l)
  = filter (fun o => negb (is_zone o)) l.
Proof.
  change (CanvasObject_eqb CropzoneObject) with is_zone.
  induction l as [|o l IH]; cbn [remove_first filter]; [reflexivity|].
  destruct (is_zone o) eqn:E; cbn [negb filter]; [reflexivity|].
  rewrite E. cbn [negb]. rewrite IH. reflexivity.
Qed.

(** X13: [getCroppedImageData] with a falsy rectangle returns [null] and leaves
    everything as it is.  With a rectangle, in any state that sessions on an
    untouched cropper lead to, the canvas that is rendered does not hold
    the crop zone and holds the shapes as they are; afterwards the zone is
    on the canvas again if it was, and the cropper has the zone and the
    listeners it had. *)
Theorem getCroppedImageData_without_overlay
    (toDataURL : Canvas -> Rect -> String.string)
    (getImageName : Cropper -> String.string)
    (d : nat) (c0 : Cropper) (events : list Event) (rect : Rect) :
  untouched c0 ->
  let c := run d c0 events in
  let result := getCroppedImageData toDataURL getImageName c (Some rect) in
  getCroppedImageData toDataURL getImageName c None = (c, None) /\
  (exists rendered : Cropper,
     snd result = Some {| imageName := getImageName rendered;
                          url := toDataURL (canvas rendered) rect |} /\
     canvas_contains (canvas rendered) (Some CropzoneObject) = false /\
     filter (fun o => negb (is_zone o)) (objects (canvas rendered))
     = filter (fun o => negb (is_zone o)) (objects (canvas c))) /\
  zone_count (fst result) = zone_count c /\
  filter (fun o => negb (is_zone o)) (objects (canvas (fst result)))
  = filter (fun o => negb (is_zone o)) (objects (canvas c)) /\
  _cropzone (fst result) = _cropzone c /\
  eventListeners (canvas (fst result)) = eventListeners (canvas c) /\
  documentListeners (fst result) = documentListeners c.
Proof.
  intros Hu c result. destruct (untouched_invs c0 Hu) as [_ Ig].
  pose proof (run_gesture_inv d events c0 Ig) as (_ & Hc & _).
  fold c in Hc. split; [reflexivity|].
  subst result. unfold getCroppedImageData, cropzone_ref, zone_count, has_zone in *.
  zone_cases c; cbv beta iota.
  - rewrite contains_zone_count, Hc. cbn [Nat.eqb negb fst snd].
    split.
    + eexists. split; [reflexivity|].
      cbn [canvas with_canvas]. rewrite contains_zone_count, remove_objects.
      change (CanvasObject_eqb CropzoneObject) with is_zone.
      rewrite count_remove_first_same, Hc. split; [reflexivity|].
      apply remove_first_other_objects.
    + cbn [canvas with_canvas _cropzone documentListeners objects eventListeners
           canvas_ops.add canvas_ops.with_objects].
      rewrite remove_objects, remove_eventListeners, Hz.
      split; [apply count_remove_add; rewrite Hc; lia|].
      split; [|repeat split].
      rewrite filter_app. cbn [filter is_zone CanvasObject_eqb negb].
      rewrite app_nil_r. apply remove_first_other_objects.
  - change (canvas_contains (canvas c) None) with false. cbv beta iota.
    cbn [fst snd]. split; [|rewrite Hz; repeat split].
    exists c. split; [reflexivity|].
    rewrite contains_zone_count, Hc. split; reflexivity.
Qed.

Lemma getCroppedImageData_without_overlay_witness :
  let toDataURL := fun (cv : Canvas) (_ : Rect) =>
    if canvas_contains cv (Some CropzoneObject)
    then String.String (Ascii.ascii_of_nat 122) String.EmptyString
    else String.EmptyString in
  let result := getCroppedImageData toDataURL (fun _ => String.EmptyString)
                  (run 2 (example_cropper 800 600) [call_start])
                  (Some (mkRect 0 0 100 100)) in
  snd result = Some (mkImageData String.EmptyString String.EmptyString) /\
  zone_count (fst result) = 1%nat.
Proof.
  cbv zeta.
  destruct (getCroppedImageData_without_overlay
              (fun (cv : Canvas) (_ : Rect) =>
                 if canvas_contains cv (Some CropzoneObject)
                 then String.String (Ascii.ascii_of_nat 122) String.EmptyString
                 else String.EmptyString)
              (fun _ => String.EmptyString)
              2 (example_cropper 800 600) [call_start] (mkRect 0 0 100 100))
    as (_ & _ & Hcount & _).
  - repeat split.
  - split; [reflexivity | exact Hcount].
Defined.

(* ------------------------------------------------------------------ *)
(** ** Visibility *)

(** X14: [changeVisibility] does nothing without a zone; with one it sets the
    visible flag and nothing else: the rectangle, the preset tag, the
    canvas and the listeners stay, [getCropzoneRect] answers as before, and
    of two calls the later one decides. *)
Theorem changeVisibility_only_sets_visible (c : Cropper) (v v' : bool) :
  (_cropzone c = None -> changeVisibility c v = c) /\
  (forall z : Cropzone,
     _cropzone c = Some z ->
     _cropzone (changeVisibility c v)
     = Some {| geometry := geometry z; presetRatio := presetRatio z;
               visible := v |}) /\
  canvas (changeVisibility c v) = canvas c /\
  documentListeners (changeVisibility c v) = documentListeners c /\
  updateUI_calls (changeVisibility c v) = updateUI_calls c /\
  getCropzoneRect (changeVisibility c v) = getCropzoneRect c /\
  changeVisibility (changeVisibility c v) v' = changeVisibility c v'.
Proof.
  unfold changeVisibility, getCropzoneRect.
  zone_cases c; cbn [_cropzone with_cropzone canvas documentListeners
                     updateUI_calls].
  - repeat split; try discriminate.
    intros z0 E. injection E as <-. reflexivity.
  - rewrite Hz. repeat split; try discriminate.
Qed.

(* ------------------------------------------------------------------ *)
(** ** Setting the zone outside of a session *)

(** X15: Without a zone [setCropzoneRect] and [setCropzonePosition] end in a
    TypeError.  By then they have discarded the active object and turned
    group selection off, and it stays off; nothing else changes and
    updateUI is not called. *)
Theorem set_without_zone_throws
    (d : nat) (c : Cropper) (ratio : option Q) (posInfo : option PosInfo) :
  _cropzone c = None ->
  let after := with_canvas c
                 (canvas_ops.with_selection
                    (canvas_ops.discardActiveObject (canvas c)) false) in
  setCropzoneRect d c ratio = (after, TypeError) /\
  setCropzonePosition c posInfo = (after, TypeError) /\
  selection (canvas after) = false /\
  updateUI_calls after = updateUI_calls c.
Proof.
  intros Hz after. unfold setCropzoneRect, setCropzonePosition, cropzone_ref.
  cbn [_cropzone with_canvas]. rewrite Hz. repeat split.
Qed.

Lemma set_without_zone_throws_witness :
  snd (setCropzoneRect 2 (example_cropper 800 600) (Some 1)) = TypeError /\
  selection (canvas (fst (setCropzonePosition (example_cropper 800 600) None)))
  = false.
Proof.
  destruct (set_without_zone_throws 2 (example_cropper 800 600) (Some 1) None
              eq_refl) as (H1 & H2 & H3 & _).
  rewrite H1, H2. split; [reflexivity | exact H3].
Defined.

(* ------------------------------------------------------------------ *)
(** ** The zone of a new session *)

(** X16: After [start] on a cropper without a zone, [getCropzoneRect] gives the
    rectangle of [_getDefaultCropSize] when its width and height are
    positive, and [null] otherwise (a canvas of width or height 0, for
    one); the new zone has a null preset tag and is visible. *)
Theorem getCropzoneRect_after_start (c : Cropper) :
  _cropzone c = None ->
  let r := s_rect (_getDefaultCropSize c) in
  _cropzone (start c)
  = Some {| geometry := r; presetRatio := None; visible := true |} /\
  (0 < width r -> 0 < height r -> getCropzoneRect (start c) = Normal (Some r)) /\
  (width r <= 0 \/ height r <= 0 -> getCropzoneRect (start c) = Normal None).
Proof.
  intros Hz r.
  assert (Hzone : _cropzone (start c)
                  = Some {| geometry := r; presetRatio := None; visible := true |}).
  { unfold start. rewrite Hz.
    cbn [_cropzone with_canvas with_cropzone with_documentListeners].
    rewrite getDefaultCropSize_canvas by reflexivity. reflexivity. }
  split; [exact Hzone|].
  unfold getCropzoneRect. rewrite Hzone. unfold isValid. cbn [geometry].
  split.
  - intros Hw Hh.
    apply Qgtb_true in Hw. apply Qgtb_true in Hh. rewrite Hw, Hh.
    cbn [andb negb]. destruct r; reflexivity.
  - intros [Hw|Hh].
    + apply Qgtb_false in Hw. rewrite Hw. reflexivity.
    + apply Qgtb_false in Hh. rewrite Hh, andb_false_r. reflexivity.
Qed.

Lemma getCropzoneRect_after_start_witness :
  getCropzoneRect (start (example_cropper 800 600))
  = Normal (Some (s_rect (_getDefaultCropSize (example_cropper 800 600)))) /\
  getCropzoneRect (start (example_cropper 0 600)) = Normal None.
Proof.
  split.
  - apply (getCropzoneRect_after_start (example_cropper 800 600) eq_refl);
      qcompute.
  - apply (getCropzoneRect_after_start (example_cropper 0 600) eq_refl).
    left. qcompute.
Defined.

Lemma changeVisibility_only_sets_visible_witness :
  _cropzone (changeVisibility started_800_600 false)
  = Some {| geometry := s_rect (_getDefaultCropSize started_800_600);
            presetRatio := None; visible := false |} /\
  changeVisibility (example_cropper 800 600) false = example_cropper 800 600.
Proof.
  destruct (changeVisibility_only_sets_visible (example_cropper 800 600) false true)
    as (Hnone & _).
  destruct (changeVisibility_only_sets_visible started_800_600 false true)
    as (_ & Hsome & _).
  split.
  - exact (Hsome (new_Cropzone (_getDefaultCropSize started_800_600)) eq_refl).
  - exact (Hnone eq_refl).
Defined.

(* ------------------------------------------------------------------ *)
(** ** The text filter of the numeric field *)

Lemma filter_from_chars (s : String.string) : forall phase,
  string_forallb (fun ch => is_digit ch || is_minus ch) (filter_from phase s) = true.
Proof.
  induction s as [|ch rest IH]; intro phase; [reflexivity|].
  cbn [filter_from].
  destruct (is_digit ch) eqn:D.
  - cbn [string_forallb]. rewrite D. apply IH.
  - destruct phase; try apply IH;
      (destruct (is_minus ch) eqn:M; [|apply IH]);
      cbn [string_forallb]; rewrite D, M; apply IH.
Qed.

Lemma filter_from_digits (s : String.string) : forall phase,
  digits_of (filter_from phase s) = digits_of s.
Proof.
  unfold digits_of.
  induction s as [|ch rest IH]; intro phase; [reflexivity|].
  cbn [filter_from string_filter].
  destruct (is_digit ch) eqn:D.
  - cbn [string_filter]. rewrite D. f_equal. apply IH.
  - destruct phase; try apply IH;
      (destruct (is_minus ch) eqn:M; [|apply IH]);
      cbn [string_filter]; rewrite D; apply IH.
Qed.

Lemma filter_from_length (s : String.string) : forall phase,
  (String.length (filter_from phase s) <= String.length s)%nat.
Proof.
  induction s as [|ch rest IH]; intro phase; [apply Nat.le_refl|].
  cbn [filter_from String.length].
  destruct (is_digit ch).
  - cbn [String.length]. apply le_n_S, IH.
  - destruct phase; try (apply Nat.le_le_succ_r, IH);
      (destruct (is_minus ch); [|apply Nat.le_le_succ_r, IH]);
      cbn [String.length]; apply le_n_S, IH.
Qed.

(** X17 ([_filterForInputText]): the filtered text consists of digits and
    minus signs only, it has exactly the digits of the input in their
    order, and it is never longer than the input. *)
Theorem filterForInputText_keeps_the_digits (inputValue : String.string) :
  let out := _filterForInputText inputValue in
  string_forallb (fun ch => is_digit ch || is_minus ch) out = true /\
  digits_of out = digits_of inputValue /\
  (String.length out <= String.length inputValue)%nat.
Proof.
  intro out. subst out. unfold _filterForInputText.
  split; [apply filter_from_chars|].
  split; [apply filter_from_digits|apply filter_from_length].
Qed.

Lemma filter_from_all_digits (s : String.string) : forall phase,
  all_digits s = true ->
  phase = match_start \/ phase = group2 ->
  filter_from phase s = s.
Proof.
  unfold all_digits.
  induction s as [|ch rest IH]; intros phase Hd Hp; [reflexivity|].
  cbn [string_forallb] in Hd. apply andb_true_iff in Hd. destruct Hd as [D Hd].
  cbn [filter_from]. rewrite D. f_equal.
  destruct Hp as [-> | ->]; apply IH; auto.
Qed.

(** X18 ([_filterForInputText]): the text of an integer, digits with or
    without a minus sign in front, passes the filter unchanged. *)
Theorem filterForInputText_integer_text_unchanged (digits : String.string) :
  all_digits digits = true ->
  _filterForInputText digits = digits /\
  _filterForInputText (String.String "-"%char digits) = String.String "-"%char digits.
Proof.
  intro Hd. unfold _filterForInputText. split.
  - apply filter_from_all_digits; auto.
  - cbn [filter_from].
    change (is_digit "-"%char) with false. change (is_minus "-"%char) with true.
    cbv beta iota. f_equal. apply filter_from_all_digits; auto.
Qed.

Lemma filterForInputText_integer_text_unchanged_witness :
  all_digits "250"%string = true /\
  _filterForInputText "250"%string = "250"%string /\
  _filterForInputText "-250"%string = "-250"%string.
Proof.
  split; [reflexivity|].
  exact (filterForInputText_integer_text_unchanged "250"%string eq_refl).
Defined.

(* ------------------------------------------------------------------ *)
(** ** The numeric field: arrow keys and typed text *)

(** X19 ([_changeValueWithInputKeyEvent], [_valueUpDownForKeyEvent]): on a
    field that shows a number, an arrow key moves the value by one step
    (a tenth on a decimal field) when the result lies within the limits,
    and fires one change event with the new value marked as not final; a
    step that would leave the limits changes nothing, it is not cut to the
    limit; any other key changes nothing. *)
Theorem changeValueWithInputKeyEvent_steps_within_limits
    (toInteger : option Q -> option Q) (Number_text : String.string -> option Q)
    (ARROW_UP ARROW_DOWN : Z)
    (f : InputField) (keyCode : Z) (target_value : String.string) (v : Q) :
  Number_text target_value = Some v ->
  let step := if _useDecimal f then 1 # 10 else 1 in
  let stepped := if Z.eqb keyCode ARROW_UP then v + step else v - step in
  let f' := _changeValueWithInputKeyEvent toInteger Number_text ARROW_UP ARROW_DOWN
              f keyCode target_value in
  (is_arrow ARROW_UP ARROW_DOWN keyCode = false -> f' = f) /\
  (is_arrow ARROW_UP ARROW_DOWN keyCode = true ->
   stepped < _min f \/ _max f < stepped -> f' = f) /\
  (is_arrow ARROW_UP ARROW_DOWN keyCode = true ->
   _min f <= stepped <= _max f ->
   exists shown,
     shown == stepped /\
     _value f' = (if _useDecimal f then Some shown else toInteger (Some shown)) /\
     inputElement_value f' = shown_number (_value f') /\
     fired f' = fired f ++ [mkFired "change"%string (Some shown) (Some false)] /\
     _min f' = _min f /\ _max f' = _max f /\ _absMax f' = _absMax f).
Proof.
  intros Htext step stepped f'.
  assert (Hup : is_arrow ARROW_UP ARROW_DOWN keyCode = true ->
                _valueUpDownForKeyEvent ARROW_UP ARROW_DOWN f (Some v) keyCode
                = Some stepped).
  { unfold is_arrow, _valueUpDownForKeyEvent. subst stepped step.
    destruct (Z.eqb keyCode ARROW_UP); [reflexivity|].
    cbn [orb]. intros ->. reflexivity. }
  subst f'. unfold _changeValueWithInputKeyEvent. rewrite Htext.
  split; [intros ->; reflexivity|].
  split.
  - intros Ha Hout. rewrite Ha, (Hup Ha). cbn [negb num_lt num_gt].
    destruct Hout as [Hlo | Hhi].
    + apply Qgtb_true in Hlo. rewrite Hlo. reflexivity.
    + apply Qgtb_true in Hhi. rewrite Hhi, orb_true_r. reflexivity.
  - intros Ha [Hlo Hhi]. rewrite Ha, (Hup Ha). cbn [negb num_lt num_gt].
    apply Qgtb_false in Hlo. apply Qgtb_false in Hhi as Hhi'.
    rewrite Hlo, Hhi'. cbn [orb negb clamp_num option_map].
    apply Qgtb_false in Hlo.
    exists (clamp stepped (_min f) (_max f)).
    split; [apply clamp_inside; split; assumption|].
    unfold set_value, fire. cbn. repeat split.
Qed.

Lemma changeValueWithInputKeyEvent_steps_within_limits_witness :
  let step_at text key :=
    _changeValueWithInputKeyEvent example_toInteger example_Number_text 38 40
      example_field key text in
  example_Number_text "600"%string = Some 600 /\
  _max example_field = 600 /\
  step_at "600"%string 38%Z = example_field /\
  _value (step_at "600"%string 40%Z) = Some 599.
Proof.
  intro step_at.
  split; [reflexivity|]. split; [reflexivity|].
  destruct (changeValueWithInputKeyEvent_steps_within_limits
              example_toInteger example_Number_text 38 40
              example_field 38 "600"%string 600 eq_refl) as (_ & Hout & _).
  destruct (changeValueWithInputKeyEvent_steps_within_limits
              example_toInteger example_Number_text 38 40
              example_field 40 "600"%string 600 eq_refl) as (_ & _ & Hin).
  split.
  - apply Hout; [reflexivity|]. right. cbn. reflexivity.
  - destruct (Hin eq_refl) as (shown & _ & _).
    + cbn. split; discriminate.
    + reflexivity.
Defined.

(** X20 ([_changeValueWithInput], [_inputSetValue]): when the field loses
    the focus, the element shows the filtered text; a filtered text that is
    empty or not a number leaves the value alone and fires nothing; a text
    that reads as a number is brought into the limits before it is stored,
    and one change event marked final carries the value within the
    limits. *)
Theorem changeValueWithInput_commits_within_limits
    (toInteger : option Q -> option Q)
    (toInteger_text Number_text : String.string -> option Q)
    (ARROW_UP ARROW_DOWN : Z)
    (f : InputField) (isLast : bool) (keyCode : Z) (target_value : String.string) :
  is_arrow ARROW_UP ARROW_DOWN keyCode = false ->
  _min f <= _max f ->
  let stringValue := _filterForInputText target_value in
  let read := if _useDecimal f then Number_text stringValue
              else toInteger_text stringValue in
  let f' := _changeValueWithInput toInteger toInteger_text Number_text
              ARROW_UP ARROW_DOWN f isLast keyCode target_value in
  (stringValue = String.EmptyString \/ Number_text stringValue = None ->
   f' = with_inputElement_value f (shown_text stringValue)) /\
  (forall v,
     stringValue <> String.EmptyString ->
     Number_text stringValue <> None ->
     read = Some v ->
     exists stored,
       _min f <= stored <= _max f /\
       (_min f <= v <= _max f -> stored == v) /\
       (v <= _min f -> stored == _min f) /\
       (_max f <= v -> stored == _max f) /\
       _value f' = (if _useDecimal f then Some stored else toInteger (Some stored)) /\
       fired f' = fired f ++ [mkFired "change"%string (Some stored) (Some true)] /\
       _min f' = _min f /\ _max f' = _max f).
Proof.
  intros Ha Hle stringValue read f'.
  subst f'. unfold _changeValueWithInput. rewrite Ha.
  fold stringValue. unfold isNaN_text.
  split.
  - intros [He | Hn].
    + rewrite He. reflexivity.
    + rewrite Hn, orb_true_r. reflexivity.
  - intros v Hne Hnum Hread.
    assert (E : String.eqb stringValue String.EmptyString = false)
      by (apply String.eqb_neq; exact Hne).
    assert (N : match Number_text stringValue with
                | Some _ => false | None => true end = false)
      by (destruct (Number_text stringValue); [reflexivity|contradiction]).
    rewrite E, N. cbn [orb negb]. unfold _inputSetValue.
    cbn [_useDecimal with_inputElement_value _min _max].
    change (if _useDecimal f then Number_text stringValue
            else toInteger_text stringValue) with read.
    rewrite Hread. cbn [clamp_num option_map].
    exists (clamp v (_min f) (_max f)).
    split; [apply clamp_ordered; assumption|].
    split; [apply clamp_inside|].
    split; [apply clamp_below; assumption|].
    split; [apply clamp_above; assumption|].
    unfold set_value, fire. cbn. repeat split.
Qed.

Lemma changeValueWithInput_commits_within_limits_witness :
  let blur text :=
    _changeValueWithInput example_toInteger example_Number_text example_Number_text
      38 40 example_field true 0 text in
  _filterForInputText "12a345"%string = "12345"%string /\
  fired_value (last (fired (blur "12a345"%string)) (mkFired ""%string None None))
  = Some 600 /\
  _value (blur "abc"%string) = _value example_field.
Proof.
  intro blur.
  split; [reflexivity|].
  pose proof (changeValueWithInput_commits_within_limits
                example_toInteger example_Number_text example_Number_text 38 40
                example_field true 0 "12a345"%string eq_refl) as H.
  pose proof (changeValueWithInput_commits_within_limits
                example_toInteger example_Number_text example_Number_text 38 40
                example_field true 0 "abc"%string eq_refl) as H'.
  assert (Hle : _min example_field <= _max example_field) by (cbn; discriminate).
  destruct (H Hle) as (_ & Hnum). destruct (H' Hle) as (Hwait & _).
  split.
  - reflexivity.
  - subst blur. cbv beta. rewrite Hwait; [reflexivity|]. left. reflexivity.
Defined.

(* ------------------------------------------------------------------ *)
(** ** The crop menu: limits and shown sizes *)

Lemma set_max_fields (toInteger : option Q -> option Q) (f : InputField) (m : Q) :
  let f' := set_max toInteger f m in
  _max f' = m /\ _min f' = _min f /\ _absMax f' = _min f * -1 + m /\
  _value f' = stored_as toInteger f (_value f) /\
  _useDecimal f' = _useDecimal f /\ fired f' = fired f.
Proof. intro f'. subst f'. unfold set_max, set_value, stored_as. cbn. repeat split. Qed.

Lemma set_min_fields (toInteger : option Q -> option Q) (f : InputField) (m : Q) :
  let f' := set_min toInteger f m in
  _min f' = m /\ _max f' = _max f /\ _absMax f' = m * -1 + _max f /\
  _value f' = stored_as toInteger f (_value f) /\
  _useDecimal f' = _useDecimal f /\ fired f' = fired f.
Proof.
  intro f'. subst f'. unfold set_min, set_max, set_value, stored_as. cbn.
  repeat split.
Qed.

Lemma setLimit_fields (toInteger : option Q -> option Q) (options : FieldOptions)
    (els : CropEls) (limits : Limits) :
  els_width (setLimit toInteger options els limits)
  = set_max toInteger
      (set_min toInteger (els_width els) (calcMinValue options (minWidth limits)))
      (calcMaxValue options (maxWidth limits)) /\
  els_height (setLimit toInteger options els limits)
  = set_max toInteger
      (set_min toInteger (els_height els) (calcMinValue options (minHeight limits)))
      (calcMaxValue options (maxHeight limits)).
Proof. split; reflexivity. Qed.

Lemma set_limits_has_limits (toInteger : option Q -> option Q)
    (options : FieldOptions) (f : InputField) (lo hi : Q) :
  0 < opt_min options -> 0 < opt_max options ->
  has_limits toInteger options f
    (set_max toInteger (set_min toInteger f (calcMinValue options lo))
       (calcMaxValue options hi)) lo hi.
Proof.
  intros Hmin Hmax.
  pose proof (set_min_fields toInteger f (calcMinValue options lo)) as Hs.
  cbv zeta in Hs. destruct Hs as (Hs1 & Hs2 & Hs3 & Hs4 & Hs5 & Hs6).
  pose proof (set_max_fields toInteger
                (set_min toInteger f (calcMinValue options lo))
                (calcMaxValue options hi)) as Hm.
  cbv zeta in Hm. destruct Hm as (Hm1 & Hm2 & Hm3 & Hm4 & Hm5 & Hm6).
  unfold has_limits.
  rewrite Hm1, Hm2, Hs1, Hm3, Hs1, Hm4, Hs4, Hm5, Hs5, Hm6, Hs6.
  assert (Hd : stored_as toInteger (set_min toInteger f (calcMinValue options lo))
               = stored_as toInteger f).
  { unfold stored_as. rewrite Hs5. reflexivity. }
  rewrite Hd.
  unfold calcMinValue, calcMaxValue.
  destruct (Qle_bool lo 0) eqn:Elo; destruct (Qle_bool hi 0) eqn:Ehi;
    try (apply Qle_bool_iff in Elo); try (apply Qle_bool_iff in Ehi);
    try (assert (0 < lo)
           by (apply Qnot_le_lt; intro X; apply Qle_bool_iff in X; congruence));
    try (assert (0 < hi)
           by (apply Qnot_le_lt; intro X; apply Qle_bool_iff in X; congruence));
    repeat split; try assumption; try reflexivity; try lra;
    intros; exfalso; lra.
Qed.

(** X21 ([setLimit], [calcMinValue], [calcMaxValue], [set min], [set max]):
    with positive defaults, both fields end with positive limits: a limit
    asked for is taken when it is positive and replaced by the default
    otherwise.  The span [_absMax] is the upper limit less the lower one.
    The value of a field is not brought into the new limits, it is only
    stored again, and no change event is fired. *)
Theorem setLimit_installs_positive_limits
    (toInteger : option Q -> option Q) (defaultCropPixelValues : FieldOptions)
    (els : CropEls) (limits : Limits) :
  0 < opt_min defaultCropPixelValues ->
  0 < opt_max defaultCropPixelValues ->
  let els' := setLimit toInteger defaultCropPixelValues els limits in
  has_limits toInteger defaultCropPixelValues (els_width els) (els_width els')
    (minWidth limits) (maxWidth limits) /\
  has_limits toInteger defaultCropPixelValues (els_height els) (els_height els')
    (minHeight limits) (maxHeight limits).
Proof.
  intros Hmin Hmax els'. subst els'.
  destruct (setLimit_fields toInteger defaultCropPixelValues els limits) as [-> ->].
  split; apply set_limits_has_limits; assumption.
Qed.

Lemma setLimit_installs_positive_limits_witness :
  let els := new_CropEls example_toInteger example_options
               (shown_text ""%string) (shown_text ""%string) in
  let els' := setLimit example_toInteger example_options els
                {| minWidth := 1; maxWidth := 640; minHeight := 1; maxHeight := 0 |} in
  0 < opt_min example_options /\ 0 < opt_max example_options /\
  _max (els_width els') = 640 /\ _max (els_height els') = 10000 /\
  _value (els_width els') = Some 800.
Proof.
  intros els els'.
  split; [reflexivity|]. split; [reflexivity|].
  destruct (setLimit_installs_positive_limits example_toInteger example_options els
              {| minWidth := 1; maxWidth := 640; minHeight := 1; maxHeight := 0 |}
              eq_refl eq_refl)
    as ((_ & _ & _ & _ & Hw & _ & _ & Hv & _) & (_ & _ & _ & _ & _ & Hh & _)).
  split; [apply Hw; reflexivity|].
  split; [apply Hh; cbn; discriminate|].
  reflexivity.
Defined.

(** X22 ([changeStartMode], [setWidthValue], [setHeightValue]): opening the
    crop menu takes the image dimensions as the upper limits and shows the
    size of the crop zone, stored as it is and not cut to the limits,
    without firing a change event; when the action returns [null] for the
    zone, the call throws after the limits have been set. *)
Theorem changeStartMode_shows_zone_size
    (toInteger : option Q -> option Q) (defaultCropPixelValues : FieldOptions)
    (els : CropEls) (dimensions : Q * Q) (rect : option Rect) :
  0 < opt_min defaultCropPixelValues ->
  0 < opt_max defaultCropPixelValues ->
  0 < fst dimensions -> 0 < snd dimensions ->
  let result := changeStartMode toInteger defaultCropPixelValues els dimensions rect in
  let els' := fst result in
  _min (els_width els') = opt_min defaultCropPixelValues /\
  _min (els_height els') = opt_min defaultCropPixelValues /\
  _max (els_width els') = fst dimensions /\
  _max (els_height els') = snd dimensions /\
  fired (els_width els') = fired (els_width els) /\
  fired (els_height els') = fired (els_height els) /\
  (rect = None -> snd result = TypeError) /\
  (forall r, rect = Some r ->
     snd result = Normal tt /\
     _value (els_width els')
     = stored_as toInteger (els_width els) (Some (width r)) /\
     _value (els_height els')
     = stored_as toInteger (els_height els) (Some (height r))).
Proof.
  intros Hmin Hmax Hw Hh result els'.
  set (limits := {| minWidth := opt_min defaultCropPixelValues;
                    maxWidth := fst dimensions;
                    minHeight := opt_min defaultCropPixelValues;
                    maxHeight := snd dimensions |}).
  pose proof (set_limits_has_limits toInteger defaultCropPixelValues (els_width els)
                (minWidth limits) (maxWidth limits) Hmin Hmax) as HW.
  pose proof (set_limits_has_limits toInteger defaultCropPixelValues (els_height els)
                (minHeight limits) (maxHeight limits) Hmin Hmax) as HH.
  destruct (setLimit_fields toInteger defaultCropPixelValues els limits) as [Ew Eh].
  rewrite <- Ew in HW. rewrite <- Eh in HH.
  destruct HW as (_ & _ & W1 & _ & W2 & _ & _ & _ & W3 & W4).
  destruct HH as (_ & _ & H1 & _ & H2 & _ & _ & _ & H3 & H4).
  cbn [limits minWidth maxWidth minHeight maxHeight] in W1, W2, H1, H2.
  specialize (W1 Hmin). specialize (W2 Hw). specialize (H1 Hmin). specialize (H2 Hh).
  subst els' result. unfold changeStartMode. fold limits.
  destruct rect as [r|]; cbn [fst snd].
  - unfold setHeightValue, setWidthValue, set_value, stored_as.
    cbn [els_width els_height with_els_width with_els_height
         with_value with_inputElement_value _min _max fired _value _useDecimal].
    rewrite W1, W2, H1, H2, W3, W4, H3, H4.
    split; [reflexivity|]. split; [reflexivity|].
    split; [reflexivity|]. split; [reflexivity|].
    split; [reflexivity|]. split; [reflexivity|].
    split; [discriminate|].
    intros r0 Hr. injection Hr as <-. repeat split.
  - rewrite W1, W2, H1, H2, W4, H4.
    split; [reflexivity|]. split; [reflexivity|].
    split; [reflexivity|]. split; [reflexivity|].
    split; [reflexivity|]. split; [reflexivity|].
    split; [reflexivity|].
    intros r0 Hr. discriminate.
Qed.

Lemma changeStartMode_shows_zone_size_witness :
  let els := new_CropEls example_toInteger example_options
               (shown_text ""%string) (shown_text ""%string) in
  let open rect := changeStartMode example_toInteger example_options els
                     (800, 600) rect in
  _max (els_width (fst (open None))) = 800 /\
  snd (open None) = TypeError /\
  _value (els_height (fst (open (Some (mkRect 0 0 (1601 # 2) 700))))) = Some 700.
Proof.
  intros els open.
  pose proof (changeStartMode_shows_zone_size example_toInteger example_options els
                (800, 600) None eq_refl eq_refl eq_refl eq_refl) as H.
  cbv zeta in H. destruct H as (_ & _ & Hmax & _ & _ & _ & Hnone & _).
  split; [exact Hmax|]. split; [exact (Hnone eq_refl)|].
  reflexivity.
Defined.

(** X23 ([setRectSize], [setWidthValue], [setHeightValue]): showing a
    rectangle in the menu stores its width and height in the two fields,
    0 and 0 when no rectangle is given, and does nothing else: no change
    event is fired and the limits stay as they are. *)
Theorem setRectSize_shows_size_without_events
    (toInteger : option Q -> option Q) (els : CropEls) (rect : option Rect) :
  let els' := setRectSize toInteger els rect in
  let shown side := match rect with Some r => side r | None => 0 end in
  (exists w, w == shown width /\
     _value (els_width els') = stored_as toInteger (els_width els) (Some w)) /\
  (exists h, h == shown height /\
     _value (els_height els') = stored_as toInteger (els_height els) (Some h)) /\
  fired (els_width els') = fired (els_width els) /\
  fired (els_height els') = fired (els_height els) /\
  (_min (els_width els'), _max (els_width els'))
  = (_min (els_width els), _max (els_width els)) /\
  (_min (els_height els'), _max (els_height els'))
  = (_min (els_height els), _max (els_height els)).
Proof.
  intros els' shown. subst els' shown.
  unfold setRectSize, setHeightValue, setWidthValue, set_value, stored_as.
  cbn [els_width els_height with_els_width with_els_height
       with_value with_inputElement_value _min _max fired _value _useDecimal].
  assert (Hor : forall q, (if truthy (Some q) then or_default (Some q) 0 else 0) == q).
  { intro q. unfold truthy, or_default.
    destruct (Qeq_bool q 0) eqn:E; cbn [negb]; [|reflexivity].
    apply Qeq_bool_iff in E. symmetry. exact E. }
  destruct rect as [r|].
  - split; [eexists; split; [apply Hor|reflexivity]|].
    split; [eexists; split; [apply Hor|reflexivity]|].
    repeat split.
  - split; [exists 0; split; reflexivity|].
    split; [exists 0; split; reflexivity|].
    repeat split.
Qed.
